(** * Zero-knowledge file sharing: key custody, blob lifecycle, access control

    A shallow embedding of the TypeScript sources (frontend [crypto.ts],
    [api.ts], [main.ts]; backend routes [upload], [file], [myfiles], [auth],
    the rate-limit and logging middleware, the database schema and the
    cleanup script), followed by the properties of the specification.

    Conventions.
    - A JavaScript string is a [string] (or, inside the base64 codec, the
      list of its characters); a [Uint8Array] / [Buffer] is a [list byte].
    - A [Date] is its time value: a [Z] number of milliseconds since the
      epoch.  The database keeps timestamps as the text produced by
      [toISOString]; a row of the model keeps the instant that text denotes
      and renders it with [toISOString] wherever the code compares the text.
    - Tables with a primary key are finite maps ([gmap]) from the key.
    - A handler is a function from the server state and the request to the
      new state and the response; a thrown exception is an explicit result. *)

From Stdlib Require Import ZArith NArith List String Ascii Bool Lia DecimalString.
From Stdlib Require Import Sorted DecimalPos.
From Stdlib Require Import Init.Byte.
From stdpp Require Import base option gmap strings list fin_maps.

Import ListNotations.
Local Open Scope Z_scope.

(* ===================================================================== *)
(** * Part I: the model                                                   *)
(* ===================================================================== *)

(** ** crypto.ts: the URL-safe key encoding *)

Module Crypto.

(** The base64 alphabet of RFC 4648, used by [btoa] and [atob]. *)
Definition alphabet : list ascii :=
  list_ascii_of_string
    "ABCDEFGHIJKLMNOPQRSTUVWXYZabcdefghijklmnopqrstuvwxyz0123456789+/".

Definition b64char (n : N) : ascii := nth (N.to_nat n) alphabet "A"%char.

Fixpoint indexOf (c : ascii) (l : list ascii) (i : N) : option N :=
  match l with
  | [] => None
  | x :: r => if Ascii.eqb x c then Some i else indexOf c r (N.succ i)
  end.

Definition b64index (c : ascii) : option N := indexOf c alphabet 0%N.

(** The four sextets of a group of three octets. *)
Definition sextet1 (a : N) : N := N.shiftr a 2.
Definition sextet2 (a b : N) : N :=
  N.lor (N.shiftl (N.land a 3) 4) (N.shiftr b 4).
Definition sextet3 (b c : N) : N :=
  N.lor (N.shiftl (N.land b 15) 2) (N.shiftr c 6).
Definition sextet4 (c : N) : N := N.land c 63.

(** The three octets of a group of four sextets. *)
Definition octet1 (s1 s2 : N) : N := N.lor (N.shiftl s1 2) (N.shiftr s2 4).
Definition octet2 (s2 s3 : N) : N :=
  N.lor (N.shiftl (N.land s2 15) 4) (N.shiftr s3 2).
Definition octet3 (s3 s4 : N) : N := N.lor (N.shiftl (N.land s3 3) 6) s4.

(** [btoa]: base64 of a binary string, with [=] padding.  The argument is
    a string of characters below 256, which is what the type [ascii]
    holds, so the [InvalidCharacterError] case of the browser function
    cannot arise. *)
Fixpoint btoa (s : list ascii) : list ascii :=
  match s with
  | [] => []
  | [a] =>
      let a := N_of_ascii a in
      [b64char (sextet1 a); b64char (sextet2 a 0); "="; "="]%char
  | [a; b] =>
      let a := N_of_ascii a in
      let b := N_of_ascii b in
      [b64char (sextet1 a); b64char (sextet2 a b);
       b64char (sextet3 b 0); "="]%char
  | a :: b :: c :: rest =>
      let a := N_of_ascii a in
      let b := N_of_ascii b in
      let c := N_of_ascii c in
      b64char (sextet1 a) :: b64char (sextet2 a b)
        :: b64char (sextet3 b c) :: b64char (sextet4 c) :: btoa rest
  end.

(** [atob], the forgiving base64 decoding of the HTML standard:
    ASCII whitespace is dropped; when the length is a multiple of four, one
    or two trailing [=] are dropped; a length of 1 modulo 4 or a character
    outside the alphabet is an error ([None]); a final group of two or
    three characters yields one or two octets. *)
Definition isAsciiWhitespace (c : ascii) : bool :=
  let n := N_of_ascii c in
  (n =? 9)%N || (n =? 10)%N || (n =? 12)%N || (n =? 13)%N || (n =? 32)%N.

Definition stripPadding (d : list ascii) : list ascii :=
  match rev d with
  | c1 :: r =>
      if Ascii.eqb c1 "=" then
        match r with
        | c2 :: r2 => if Ascii.eqb c2 "=" then rev r2 else rev r
        | [] => rev r
        end
      else d
  | [] => d
  end.

Fixpoint decodeGroups (d : list ascii) : option (list ascii) :=
  match d with
  | [] => Some []
  | [_] => None
  | [c1; c2] =>
      match b64index c1, b64index c2 with
      | Some s1, Some s2 => Some [ascii_of_N (octet1 s1 s2)]
      | _, _ => None
      end
  | [c1; c2; c3] =>
      match b64index c1, b64index c2, b64index c3 with
      | Some s1, Some s2, Some s3 =>
          Some [ascii_of_N (octet1 s1 s2); ascii_of_N (octet2 s2 s3)]
      | _, _, _ => None
      end
  | c1 :: c2 :: c3 :: c4 :: rest =>
      match b64index c1, b64index c2, b64index c3, b64index c4 with
      | Some s1, Some s2, Some s3, Some s4 =>
          match decodeGroups rest with
          | Some r =>
              Some (ascii_of_N (octet1 s1 s2) :: ascii_of_N (octet2 s2 s3)
                      :: ascii_of_N (octet3 s3 s4) :: r)
          | None => None
          end
      | _, _, _, _ => None
      end
  end.

Definition atob (data : list ascii) : option (list ascii) :=
  let d := List.filter (fun c => negb (isAsciiWhitespace c)) data in
  let d := if (length d mod 4 =? 0)%nat then stripPadding d else d in
  if (length d mod 4 =? 1)%nat then None else decodeGroups d.

(** [String.fromCharCode(...bytes)] and [binary.charCodeAt(i)] stored into
    a [Uint8Array]. *)
Definition fromCharCode (bytes : list byte) : list ascii :=
  map ascii_of_byte bytes.
Definition charCodes (binary : list ascii) : list byte :=
  map byte_of_ascii binary.

(** [s.replace(/c/g, 'd')] and [s.replace(/c/g, '')] for one character. *)
Definition replaceAll (c d : ascii) (s : list ascii) : list ascii :=
  map (fun x => if Ascii.eqb x c then d else x) s.
Definition removeAll (c : ascii) (s : list ascii) : list ascii :=
  List.filter (fun x => negb (Ascii.eqb x c)) s.

Definition toBase64Url (bytes : list byte) : string :=
  let base64 := btoa (fromCharCode bytes) in
  string_of_list_ascii
    (removeAll "=" (replaceAll "/" "_" (replaceAll "+" "-" base64))).

(** [while (base64.length % 4 !== 0) base64 += '=']: the loop body runs at
    most three times, which is the fuel [addPadding] gives it. *)
Fixpoint padLoop (fuel : nat) (base64 : list ascii) : list ascii :=
  match fuel with
  | O => base64
  | S k =>
      if (length base64 mod 4 =? 0)%nat then base64
      else padLoop k (base64 ++ ["="%char])
  end.
Definition addPadding (base64 : list ascii) : list ascii := padLoop 3 base64.

(** [None] is the exception [atob] throws. *)
Definition fromBase64Url (base64url : string) : option (list byte) :=
  let base64 :=
    replaceAll "_" "/" (replaceAll "-" "+" (list_ascii_of_string base64url)) in
  let base64 := addPadding base64 in
  match atob base64 with
  | Some binary => Some (charCodes binary)
  | None => None
  end.

End Crypto.

(** ** JavaScript values used by the server code *)

Module Js.

(** Truthiness of an optional string ([undefined] and [''] are falsy) and
    the idiom [a || b]. *)
Definition truthy (o : option string) : bool :=
  match o with
  | Some s => negb (String.eqb s "")
  | None => false
  end.

Definition orElse (o : option string) (d : option string) : option string :=
  if truthy o then o else d.

Definition orDefault (o : option string) (d : string) : string :=
  match o with
  | Some s => if String.eqb s "" then d else s
  | None => d
  end.

(** White space of [trim] and of [parseInt], on eight-bit characters. *)
Definition isWhiteSpace (c : ascii) : bool :=
  let n := N_of_ascii c in
  ((9 <=? n) && (n <=? 13) || (n =? 32) || (n =? 160))%N.

Fixpoint trimStart (s : list ascii) : list ascii :=
  match s with
  | c :: r => if isWhiteSpace c then trimStart r else s
  | [] => []
  end.

Definition trim (s : string) : string :=
  string_of_list_ascii
    (rev (trimStart (rev (trimStart (list_ascii_of_string s))))).

(** [s.split(c)] for a one-character separator. *)
Fixpoint splitAux (c : ascii) (s : list ascii) (cur : list ascii)
  : list string :=
  match s with
  | [] => [string_of_list_ascii (rev cur)]
  | x :: r =>
      if Ascii.eqb x c then string_of_list_ascii (rev cur) :: splitAux c r []
      else splitAux c r (x :: cur)
  end.

Definition split (c : ascii) (s : string) : list string :=
  splitAux c (list_ascii_of_string s) [].

(** Value of a digit in radix up to 36. *)
Definition digitVal (c : ascii) : option Z :=
  let n := Z.of_N (N_of_ascii c) in
  if (48 <=? n) && (n <=? 57) then Some (n - 48)
  else if (97 <=? n) && (n <=? 122) then Some (n - 87)
  else if (65 <=? n) && (n <=? 90) then Some (n - 55)
  else None.

Fixpoint parseDigits (R : Z) (s : list ascii) (acc : option Z) : option Z :=
  match s with
  | [] => acc
  | c :: r =>
      match digitVal c with
      | Some d =>
          if d <? R then
            parseDigits R r
              (Some (match acc with Some a => a * R + d | None => d end))
          else acc
      | None => acc
      end
  end.

(** [parseInt(s)] without a radix argument; [None] is [NaN].  The result
    is kept as an exact integer: the code only uses it below 2^53, or
    beyond the range of [Date], where any value gives an invalid date. *)
Definition parseInt (s : string) : option Z :=
  let s0 := trimStart (list_ascii_of_string s) in
  let '(sign, s1) :=
    match s0 with
    | "-"%char :: r => (-1, r)
    | "+"%char :: r => (1, r)
    | _ => (1, s0)
    end in
  let '(R, s2) :=
    match s1 with
    | "0"%char :: "x"%char :: r => (16, r)
    | "0"%char :: "X"%char :: r => (16, r)
    | _ => (10, s1)
    end in
  match parseDigits R s2 None with
  | Some n => Some (sign * n)
  | None => None
  end.

Definition isHexDigit (c : ascii) : bool :=
  match digitVal c with
  | Some d => d <? 16
  | None => false
  end.

(** The test of
    [/^[0-9a-f]{8}-[0-9a-f]{4}-[0-9a-f]{4}-[0-9a-f]{4}-[0-9a-f]{12}$/i]:
    the shape lists, per position, whether a hexadecimal digit ([true]) or
    a hyphen ([false]) is required. *)
Fixpoint matchShape (shape : list bool) (s : list ascii) : bool :=
  match shape, s with
  | [], [] => true
  | true :: sh, c :: r => isHexDigit c && matchShape sh r
  | false :: sh, c :: r => Ascii.eqb c "-" && matchShape sh r
  | _, _ => false
  end.

Definition uuidShape : list bool :=
  repeat true 8 ++ [false] ++ repeat true 4 ++ [false] ++ repeat true 4
    ++ [false] ++ repeat true 4 ++ [false] ++ repeat true 12.

Definition uuidRegexTest (s : string) : bool :=
  matchShape uuidShape (list_ascii_of_string s).

End Js.

(** ** Dates *)

Module Dates.

(** Range of the time value of a valid [Date]. *)
Definition maxTime : Z := 8640000000000000.

(** [new Date(v)]: the time value, or [None] for an invalid date; [v] is
    [None] for [NaN]. *)
Definition newDate (v : option Z) : option Z :=
  match v with
  | Some t => if (- maxTime <=? t) && (t <=? maxTime) then Some t else None
  | None => None
  end.

(** Year, month and day of a day number counted from 1970-01-01, in the
    proleptic Gregorian calendar. *)
Definition civil (day : Z) : Z * Z * Z :=
  let z := day + 719468 in
  let era := z / 146097 in
  let doe := z - era * 146097 in
  let yoe := (doe - doe / 1460 + doe / 36524 - doe / 146096) / 365 in
  let doy := doe - (365 * yoe + yoe / 4 - yoe / 100) in
  let mp := (5 * doy + 2) / 153 in
  let d := doy - (153 * mp + 2) / 5 + 1 in
  let m := if mp <? 10 then mp + 3 else mp - 9 in
  let y := yoe + era * 400 in
  (if m <=? 2 then y + 1 else y, m, d).

Fixpoint digits (width : nat) (n : Z) : string :=
  match width with
  | O => EmptyString
  | S k =>
      digits k (n / 10)
        ++ String (ascii_of_N (Z.to_N (48 + n mod 10))) EmptyString
  end.

(** [Date.prototype.toISOString] of a valid date: four digits for the
    years 0 to 9999, a sign and six digits for the other years. *)
Definition toISOString (t : Z) : string :=
  let '(y, m, d) := civil (t / 86400000) in
  let ms := t mod 86400000 in
  let year :=
    if (0 <=? y) && (y <=? 9999) then digits 4 y
    else ((if (y <? 0)%Z then "-" else "+") ++ digits 6 (Z.abs y))%string in
  (year ++ "-" ++ digits 2 m ++ "-" ++ digits 2 d
     ++ "T" ++ digits 2 (ms / 3600000)%Z
     ++ ":" ++ digits 2 (ms / 60000 mod 60)%Z
     ++ ":" ++ digits 2 (ms / 1000 mod 60)%Z
     ++ "." ++ digits 3 (ms mod 1000)%Z ++ "Z")%string.

(** Comparison of two TEXT values in SQLite (byte order). *)
Definition textLt (a b : string) : bool := String.ltb a b.

End Dates.

(** ** models/File.ts, models/User.ts, models/Log.ts *)

Module File.
Record EncryptedFile := {
  id : string;
  path : string;
  iv : string;
  ownerId : string;
  filename : string;
  mimetype : string;
  filesize : Z;
  createdAt : Z;        (* instant of the stored ISO text *)
  expiryTime : Z;       (* instant of the stored ISO text *)
  downloadCount : Z
}.

(** The row after [UPDATE files SET downloadCount = downloadCount + 1]. *)
Definition downloaded (f : EncryptedFile) : EncryptedFile :=
  {| id := id f; path := path f; iv := iv f; ownerId := ownerId f;
     filename := filename f; mimetype := mimetype f;
     filesize := filesize f; createdAt := createdAt f;
     expiryTime := expiryTime f; downloadCount := downloadCount f + 1 |}.
End File.

Module User.
Record User := {
  id : string;
  email : string;
  passwordHash : string;
  createdAt : Z
}.
End User.

Module Log.
Inductive EventType :=
| DOWNLOAD_OK | NOT_FOUND | EXPIRED | RATE_LIMITED
| AUTH_FAILED | UPLOAD_OK | UPLOAD_FAILED.

(** A value of the [extra] object. *)
Inductive Json := JStr (s : string) | JNum (n : Z).

Record Log := {
  timestamp : Z;
  ip : string;
  userAgent : string;
  fileId : option string;
  eventType : EventType;
  extra : option (list (string * Json))
}.

(** The row after [ON DELETE SET NULL] fired for the file [fid]. *)
Definition setNull (fid : string) (l : Log) : Log :=
  match fileId l with
  | Some x =>
      if String.eqb x fid then
        {| timestamp := timestamp l; ip := ip l; userAgent := userAgent l;
           fileId := None; eventType := eventType l; extra := extra l |}
      else l
  | None => l
  end.
End Log.

(** ** db/index.ts and the schema of the migration *)

Module Db.

(** The server state: the three tables, the upload directory, and the
    counters of the three rate limiters (request count and reset time per
    key). *)
Record State := {
  files : gmap string File.EncryptedFile;
  users : gmap string User.User;
  logs : list Log.Log;
  disk : gmap string (list byte);
  downloadHits : gmap string (Z * Z);
  uploadHits : gmap string (Z * Z);
  authHits : gmap string (Z * Z)
}.

Definition empty : State :=
  {| files := ∅; users := ∅; logs := []; disk := ∅;
     downloadHits := ∅; uploadHits := ∅; authHits := ∅ |}.

Definition setFiles (s : State) (x : gmap string File.EncryptedFile) :=
  {| files := x; users := users s; logs := logs s; disk := disk s;
     downloadHits := downloadHits s; uploadHits := uploadHits s;
     authHits := authHits s |}.
Definition setUsers (s : State) (x : gmap string User.User) :=
  {| files := files s; users := x; logs := logs s; disk := disk s;
     downloadHits := downloadHits s; uploadHits := uploadHits s;
     authHits := authHits s |}.
Definition setLogs (s : State) (x : list Log.Log) :=
  {| files := files s; users := users s; logs := x; disk := disk s;
     downloadHits := downloadHits s; uploadHits := uploadHits s;
     authHits := authHits s |}.
Definition setDisk (s : State) (x : gmap string (list byte)) :=
  {| files := files s; users := users s; logs := logs s; disk := x;
     downloadHits := downloadHits s; uploadHits := uploadHits s;
     authHits := authHits s |}.
Definition setDownloadHits (s : State) (x : gmap string (Z * Z)) :=
  {| files := files s; users := users s; logs := logs s; disk := disk s;
     downloadHits := x; uploadHits := uploadHits s;
     authHits := authHits s |}.
Definition setUploadHits (s : State) (x : gmap string (Z * Z)) :=
  {| files := files s; users := users s; logs := logs s; disk := disk s;
     downloadHits := downloadHits s; uploadHits := x;
     authHits := authHits s |}.
Definition setAuthHits (s : State) (x : gmap string (Z * Z)) :=
  {| files := files s; users := users s; logs := logs s; disk := disk s;
     downloadHits := downloadHits s; uploadHits := uploadHits s;
     authHits := x |}.

(** [INSERT INTO files]: the primary key is [id], and [ownerId] references
    [users(id)] with foreign keys enforced.  [inl] is the message of the
    exception. *)
Definition insertFile (s : State) (f : File.EncryptedFile)
  : string + State :=
  match files s !! File.id f with
  | Some _ => inl "UNIQUE constraint failed: files.id"%string
  | None =>
      match users s !! File.ownerId f with
      | None => inl "FOREIGN KEY constraint failed"%string
      | Some _ => inr (setFiles s (<[File.id f := f]> (files s)))
      end
  end.

(** [UPDATE files SET downloadCount = downloadCount + 1 WHERE id = ?]. *)
Definition incrementDownloads (s : State) (fid : string) : State :=
  setFiles s (alter File.downloaded fid (files s)).

(** [DELETE FROM files WHERE id = ?]; [logs.fileId] references [files(id)]
    with [ON DELETE SET NULL]. *)
Definition deleteFile (s : State) (fid : string) : State :=
  setLogs (setFiles s (delete fid (files s)))
          (map (Log.setNull fid) (logs s)).

(** [INSERT INTO logs]: [fileId] is null or references an existing file. *)
Definition insertLog (s : State) (l : Log.Log) : string + State :=
  match Log.fileId l with
  | None => inr (setLogs s (logs s ++ [l]))
  | Some fid =>
      match files s !! fid with
      | Some _ => inr (setLogs s (logs s ++ [l]))
      | None => inl "FOREIGN KEY constraint failed"%string
      end
  end.

(** [INSERT INTO users]: [id] is the primary key and [email] is unique. *)
Definition findUserByEmail (s : State) (e : string) : option User.User :=
  List.find (fun u => String.eqb (User.email u) e)
            (map snd (map_to_list (users s))).

Definition insertUser (s : State) (u : User.User) : string + State :=
  match users s !! User.id u, findUserByEmail s (User.email u) with
  | None, None => inr (setUsers s (<[User.id u := u]> (users s)))
  | Some _, _ => inl "UNIQUE constraint failed: users.id"%string
  | _, Some _ => inl "UNIQUE constraint failed: users.email"%string
  end.

(** [fs.writeFile] and [fs.unlinkSync]; unlinking a missing path throws. *)
Definition writeFile (s : State) (p : string) (data : list byte) : State :=
  setDisk s (<[p := data]> (disk s)).

Definition unlinkSync (s : State) (p : string) : string + State :=
  match disk s !! p with
  | Some _ => inr (setDisk s (delete p (disk s)))
  | None => inl "ENOENT: no such file or directory"%string
  end.

End Db.

(** ** Requests, responses and the environment of the server *)

Module Http.

Record Request := {
  ip : option string;              (* req.ip *)
  remoteAddress : option string;   (* req.socket.remoteAddress *)
  xForwardedFor : option string;   (* header x-forwarded-for *)
  userAgent : option string;       (* header user-agent *)
  authorization : option string;   (* header authorization *)
  now : Z                          (* the clock while the request is served *)
}.

(** One entry of the list returned by [GET /api/myfiles]. *)
Record FileInfo := {
  id : string;
  filename : string;
  mimetype : string;
  filesize : Z;
  createdAt : string;
  expiryTime : string;
  downloadCount : Z;
  expired : bool
}.

(** The JSON bodies the routes send. *)
Inductive Body :=
| Error (error : string)
| Message (message : string)
| Uploaded (fileId expiryTime : string)
| Metadata (filename mimetype : string) (filesize : Z)
           (createdAt expiryTime : string) (downloadCount : Z)
           (exists_ expired : bool)
| Blob (ciphertext iv filename mimetype : string) (filesize : Z)
| Files (files : list FileInfo)
| Auth (token id email : string).

Record Response := { status : Z; body : Body }.

Definition json (code : Z) (b : Body) : Response :=
  {| status := code; body := b |}.

(** Values fixed when the process starts (environment variables) and the
    two libraries the model leaves abstract: [jsonwebtoken] and
    [bcryptjs]. *)
Record Env := {
  jwtVerify : string -> option (string * string);
  jwtSign : string -> string -> Z -> string;
  bcryptHash : string -> string;
  bcryptCompare : string -> string -> bool;
  UPLOAD_DIR : string;
  MAX_FILE_SIZE_MB : Z;
  DEFAULT_EXPIRY_HOURS : option Z;
  RATE_LIMIT_WINDOW_MS : Z;
  RATE_LIMIT_MAX : Z
}.

End Http.

(** ** middleware/rateLimit.ts *)

Module RateLimit.

Record Options := { windowMs : Z; max : Z; message : string }.

(** Modelled from the spec: [express-rate-limit] is a dependency whose
    code is not among the sources.  Sections 4.3 and 9 describe each policy
    as a window counter keyed by source address with a window-reset
    timestamp per key: a request falling in the current window increments
    the counter, a request after the reset time starts a new window, and a
    request is refused when its count exceeds the ceiling.  The result is
    the new counters and whether the request is refused. *)
Definition consume (o : Options) (hits : gmap string (Z * Z))
           (key : string) (now : Z) : gmap string (Z * Z) * bool :=
  let entry :=
    match hits !! key with
    | Some (n, reset) =>
        if now <? reset then (n + 1, reset) else (1, now + windowMs o)
    | None => (1, now + windowMs o)
    end in
  (<[key := entry]> hits, max o <? fst entry).

Definition downloadLimiter (E : Http.Env) : Options :=
  {| windowMs := Http.RATE_LIMIT_WINDOW_MS E;
     max := Http.RATE_LIMIT_MAX E;
     message :=
       "Too many download requests from this IP, please try again later" |}.

Definition uploadLimiter (E : Http.Env) : Options :=
  {| windowMs := Http.RATE_LIMIT_WINDOW_MS E;
     max := Http.RATE_LIMIT_MAX E / 2;
     message :=
       "Too many upload requests from this IP, please try again later" |}.

Definition authLimiter (E : Http.Env) : Options :=
  {| windowMs := Http.RATE_LIMIT_WINDOW_MS E;
     max := 5;
     message :=
       "Too many login attempts from this IP, please try again later" |}.

(** [keyGenerator]: [req.ip || req.socket.remoteAddress || 'unknown']. *)
Definition keyGenerator (req : Http.Request) : string :=
  Js.orDefault (Js.orElse (Http.ip req) (Http.remoteAddress req)) "unknown".

(** The response of a refused request. *)
Definition refuse (o : Options) : Http.Response :=
  Http.json 429 (Http.Error (message o)).

End RateLimit.

(** ** middleware/logging.ts *)

Module Logging.

Definition getClientIp (req : Http.Request) : string :=
  if Js.truthy (Http.xForwardedFor req) then
    match Http.xForwardedFor req with
    | Some forwarded => Js.trim (hd ""%string (Js.split "," forwarded))
    | None => ""%string
    end
  else RateLimit.keyGenerator req.

Definition getUserAgent (req : Http.Request) : string :=
  Js.orDefault (Http.userAgent req) "unknown".

(** [logEvent]: the insertion is tried and its exception is swallowed. *)
Definition logEvent (s : Db.State) (timestamp : Z) (ip userAgent : string)
           (fileId : option string) (eventType : Log.EventType)
           (extra : option (list (string * Log.Json))) : Db.State :=
  let row :=
    {| Log.timestamp := timestamp; Log.ip := ip;
       Log.userAgent := userAgent;
       Log.fileId := Js.orElse fileId None;
       Log.eventType := eventType; Log.extra := extra |} in
  match Db.insertLog s row with
  | inr s' => s'
  | inl _ => s
  end.

Definition logRequest (s : Db.State) (req : Http.Request)
           (eventType : Log.EventType) (fileId : option string)
           (extra : option (list (string * Log.Json))) : Db.State :=
  logEvent s (Http.now req) (getClientIp req) (getUserAgent req)
           fileId eventType extra.

End Logging.

(** ** middleware/auth.ts *)

Module AuthMw.

Record AuthUser := { id : string; email : string }.

(** [authHeader && authHeader.split(' ')[1]]. *)
Definition bearerToken (req : Http.Request) : option string :=
  if Js.truthy (Http.authorization req) then
    match Http.authorization req with
    | Some h => nth_error (Js.split " " h) 1
    | None => None
    end
  else None.

(** [authenticateToken]: either the response that ends the request, or the
    user stored in [req.user] for the next handler. *)
Definition authenticateToken (E : Http.Env) (req : Http.Request)
  : Http.Response + AuthUser :=
  let token := bearerToken req in
  if negb (Js.truthy token) then
    inl (Http.json 401 (Http.Error "Access token required"))
  else
    match token with
    | Some t =>
        match Http.jwtVerify E t with
        | Some (i, e) => inr {| id := i; email := e |}
        | None => inl (Http.json 403 (Http.Error "Invalid or expired token"))
        end
    | None => inl (Http.json 401 (Http.Error "Access token required"))
    end.

End AuthMw.

(** ** routes/upload.ts *)

Module Upload.
Import Http.

(** The multipart form as [multer] hands it over: [req.file] and the text
    fields of [req.body]. *)
Record Form := {
  file : option (list byte);
  iv : option string;
  filename : option string;
  mimetype : option string;
  expiresIn : option string
}.

(** [expiresIn ? parseInt(expiresIn) : DEFAULT_EXPIRY_HOURS]. *)
Definition hoursUntilExpiry (E : Env) (form : Form) : option Z :=
  if Js.truthy (expiresIn form) then
    match expiresIn form with
    | Some x => Js.parseInt x
    | None => None
    end
  else DEFAULT_EXPIRY_HOURS E.

(** [new Date(createdAt.getTime() + hoursUntilExpiry * 60 * 60 * 1000)]. *)
Definition expiryDate (createdAt : Z) (hours : option Z) : option Z :=
  Dates.newDate
    (match hours with
     | Some h => Some (createdAt + h * 60 * 60 * 1000)
     | None => None
     end).

Definition filePath (E : Env) (fileId : string) : string :=
  (UPLOAD_DIR E ++ "/" ++ fileId ++ ".bin")%string.

(** The values bound by the [INSERT INTO files] of the handler. *)
Definition record (E : Env) (user : AuthMw.AuthUser) (form : Form)
           (fileId : string) (buffer : list byte) (createdAt expiry : Z)
  : File.EncryptedFile :=
  {| File.id := fileId; File.path := filePath E fileId;
     File.iv := Js.orDefault (iv form) "";
     File.ownerId := AuthMw.id user;
     File.filename := Js.orDefault (filename form) "";
     File.mimetype := Js.orDefault (mimetype form) "";
     File.filesize := Z.of_nat (length buffer);
     File.createdAt := createdAt;
     File.expiryTime := expiry;
     File.downloadCount := 0 |}.

(** The handler, once [authenticateToken], [uploadLimiter] and
    [upload.single('file')] have passed; [fileId] is the value drawn by
    [uuidv4()].  The test [typeof iv !== 'string' || iv.length === 0]
    cannot succeed after the test before it on a text field, and has no
    branch here. *)
Definition handler (E : Env) (s : Db.State) (req : Request)
           (user : AuthMw.AuthUser) (form : Form) (fileId : string)
  : Db.State * Response :=
  match file form with
  | None =>
      (Logging.logRequest s req Log.UPLOAD_FAILED None
         (Some [("reason"%string, Log.JStr "No file provided")]),
       json 400 (Error "File is required"))
  | Some buffer =>
      if negb (Js.truthy (iv form)) || negb (Js.truthy (filename form))
         || negb (Js.truthy (mimetype form))
      then
        (Logging.logRequest s req Log.UPLOAD_FAILED None
           (Some [("reason"%string, Log.JStr "Missing metadata")]),
         json 400 (Error "IV, filename, and mimetype are required"))
      else
        let hours := hoursUntilExpiry E form in
        let createdAt := now req in
        let expiryTime := expiryDate createdAt hours in
        let path := filePath E fileId in
        let s1 := Db.writeFile s path buffer in
        let failed (msg : string) :=
          (Logging.logRequest s1 req Log.UPLOAD_FAILED None
             (Some [("error"%string, Log.JStr msg)]),
           json 500 (Error "Failed to upload file")) in
        match expiryTime with
        | None => failed "Invalid time value"%string
        | Some expiry =>
            let row := record E user form fileId buffer createdAt expiry in
            match Db.insertFile s1 row with
            | inl msg => failed msg
            | inr s2 =>
                (Logging.logRequest s2 req Log.UPLOAD_OK (Some fileId)
                   (Some [("filename"%string, Log.JStr (File.filename row));
                          ("filesize"%string, Log.JNum (File.filesize row));
                          ("expiryHours"%string,
                           Log.JNum (match hours with Some h => h | None => 0 end))]),
                 json 201 (Uploaded fileId (Dates.toISOString expiry)))
            end
        end
  end.

(** [router.post('/', authenticateToken, uploadLimiter,
    upload.single('file'), handler)].  A file above the size limit makes
    [multer] pass an error to the global error handler of the
    application. *)
Definition post (E : Env) (s : Db.State) (req : Request) (form : Form)
           (fileId : string) : Db.State * Response :=
  match AuthMw.authenticateToken E req with
  | inl r => (s, r)
  | inr user =>
      let '(hits, refused) :=
        RateLimit.consume (RateLimit.uploadLimiter E) (Db.uploadHits s)
                          (RateLimit.keyGenerator req) (now req) in
      let s0 := Db.setUploadHits s hits in
      if refused then (s0, RateLimit.refuse (RateLimit.uploadLimiter E))
      else
        let tooLarge :=
          match file form with
          | Some buffer =>
              MAX_FILE_SIZE_MB E * 1024 * 1024 <? Z.of_nat (length buffer)
          | None => false
          end in
        if tooLarge then (s0, json 500 (Error "Internal server error"))
        else handler E s0 req user form fileId
  end.

End Upload.

(** ** routes/file.ts *)

Module FileRoutes.
Import Http.

(** [buffer.toString('base64')]. *)
Definition base64 (data : list byte) : string :=
  string_of_list_ascii (Crypto.btoa (Crypto.fromCharCode data)).

(** [router.get('/:fileId/metadata', handler)]. *)
Definition getMetadata (E : Env) (s : Db.State) (req : Request)
           (fileId : string) : Db.State * Response :=
  if negb (Js.uuidRegexTest fileId) then
    (s, json 400 (Error "Invalid file ID format"))
  else
    match Db.files s !! fileId with
    | None =>
        (Logging.logRequest s req Log.NOT_FOUND (Some fileId) None,
         json 404 (Error "File not found"))
    | Some file =>
        let expired := File.expiryTime file <? now req in
        (s, json 200
              (Metadata (File.filename file) (File.mimetype file)
                 (File.filesize file)
                 (Dates.toISOString (File.createdAt file))
                 (Dates.toISOString (File.expiryTime file))
                 (File.downloadCount file) true expired))
    end.

(** The handler of the blob route, behind the limiter. *)
Definition blobHandler (E : Env) (s : Db.State) (req : Request)
           (fileId : string) : Db.State * Response :=
  if negb (Js.uuidRegexTest fileId) then
    (s, json 400 (Error "Invalid file ID format"))
  else
    match Db.files s !! fileId with
    | None =>
        (Logging.logRequest s req Log.NOT_FOUND (Some fileId) None,
         json 404 (Error "File not found"))
    | Some file =>
        if File.expiryTime file <? now req then
          (Logging.logRequest s req Log.EXPIRED (Some fileId) None,
           json 410 (Error "File has expired"))
        else
          match Db.disk s !! File.path file with
          | None => (s, json 404 (Error "File data not found"))
          | Some ciphertext =>
              let s1 := Db.incrementDownloads s fileId in
              let s2 :=
                Logging.logRequest s1 req Log.DOWNLOAD_OK (Some fileId)
                  (Some [("filename"%string, Log.JStr (File.filename file));
                         ("downloadCount"%string,
                          Log.JNum (File.downloadCount file + 1))]) in
              (s2, json 200
                     (Blob (base64 ciphertext) (File.iv file)
                        (File.filename file) (File.mimetype file)
                        (File.filesize file)))
          end
    end.

(** [router.get('/:fileId/blob', downloadLimiter, handler)]. *)
Definition getBlob (E : Env) (s : Db.State) (req : Request)
           (fileId : string) : Db.State * Response :=
  let '(hits, refused) :=
    RateLimit.consume (RateLimit.downloadLimiter E) (Db.downloadHits s)
                      (RateLimit.keyGenerator req) (now req) in
  let s0 := Db.setDownloadHits s hits in
  if refused then (s0, RateLimit.refuse (RateLimit.downloadLimiter E))
  else blobHandler E s0 req fileId.

End FileRoutes.

(** ** routes/myfiles.ts *)

Module MyFiles.
Import Http.

Fixpoint insertBy {A : Type} (before : A -> A -> bool) (x : A) (l : list A)
  : list A :=
  match l with
  | [] => [x]
  | y :: r => if before y x then y :: insertBy before x r else x :: y :: r
  end.

(** [SELECT * FROM files WHERE ownerId = ? ORDER BY createdAt DESC]: the
    order is that of the stored text. *)
Definition selectByOwner (s : Db.State) (owner : string)
  : list File.EncryptedFile :=
  let rows :=
    List.filter (fun f => String.eqb (File.ownerId f) owner)
                (map snd (map_to_list (Db.files s))) in
  foldr (insertBy (fun a b =>
                     Dates.textLt (Dates.toISOString (File.createdAt b))
                                 (Dates.toISOString (File.createdAt a))))
        [] rows.

Definition info (now : Z) (f : File.EncryptedFile) : FileInfo :=
  {| id := File.id f; filename := File.filename f;
     mimetype := File.mimetype f; filesize := File.filesize f;
     createdAt := Dates.toISOString (File.createdAt f);
     expiryTime := Dates.toISOString (File.expiryTime f);
     downloadCount := File.downloadCount f;
     expired := File.expiryTime f <? now |}.

(** [router.get('/', authenticateToken, handler)]. *)
Definition list (E : Env) (s : Db.State) (req : Request)
  : Db.State * Response :=
  match AuthMw.authenticateToken E req with
  | inl r => (s, r)
  | inr user =>
      (s, json 200
            (Files (map (info (now req))
                        (selectByOwner s (AuthMw.id user)))))
  end.

(** [router.delete('/:fileId', authenticateToken, handler)]. *)
Definition delete (E : Env) (s : Db.State) (req : Request)
           (fileId : string) : Db.State * Response :=
  match AuthMw.authenticateToken E req with
  | inl r => (s, r)
  | inr user =>
      (* SELECT * FROM files WHERE id = ? AND ownerId = ? *)
      let file :=
        match Db.files s !! fileId with
        | Some f =>
            if String.eqb (File.ownerId f) (AuthMw.id user) then Some f
            else None
        | None => None
        end in
      match file with
      | None =>
          (s, json 404
                (Error "File not found or you do not own this file"))
      | Some f =>
          let s1 :=
            match Db.unlinkSync s (File.path f) with
            | inr s' => s'
            | inl _ => s
            end in
          (Db.deleteFile s1 fileId,
           json 200 (Message "File deleted successfully"))
      end
  end.

End MyFiles.

(** ** routes/auth.ts *)

Module AuthRoutes.
Import Http.

(** The test of [/^[^\s@]+@[^\s@]+\.[^\s@]+$/]: no white space, exactly one
    [@] with a character before it, and after it a dot that has a
    character on each side. *)
Fixpoint dotInside (first : bool) (d : list ascii) : bool :=
  match d with
  | c :: ((_ :: _) as r) =>
      (negb first && Ascii.eqb c ".") || dotInside false r
  | _ => false
  end.

Definition emailRegexTest (email : string) : bool :=
  let cs := list_ascii_of_string email in
  forallb (fun c => negb (Js.isWhiteSpace c)) cs
  && match Js.split "@" email with
     | [l; d] =>
         negb (String.eqb l "") && dotInside true (list_ascii_of_string d)
     | _ => false
     end.

(** [router.post('/register', handler)]; [userId] is the value drawn by
    [uuidv4()]. *)
Definition register (E : Env) (s : Db.State) (req : Request)
           (email password : option string) (userId : string)
  : Db.State * Response :=
  if negb (Js.truthy email) || negb (Js.truthy password) then
    (s, json 400 (Error "Email and password are required"))
  else
    let e := Js.orDefault email "" in
    let p := Js.orDefault password "" in
    if negb (emailRegexTest e) then
      (s, json 400 (Error "Invalid email format"))
    else if (String.length p <? 8)%nat then
      (s, json 400 (Error "Password must be at least 8 characters"))
    else
      match Db.findUserByEmail s e with
      | Some _ =>
          (s, json 409 (Error "User with this email already exists"))
      | None =>
          let u :=
            {| User.id := userId; User.email := e;
               User.passwordHash := bcryptHash E p;
               User.createdAt := now req |} in
          match Db.insertUser s u with
          | inl _ => (s, json 500 (Error "Internal server error"))
          | inr s1 =>
              (s1, json 201 (Auth (jwtSign E userId e (now req)) userId e))
          end
      end.

Definition loginHandler (E : Env) (s : Db.State) (req : Request)
           (email password : option string) : Db.State * Response :=
  if negb (Js.truthy email) || negb (Js.truthy password) then
    (Logging.logRequest s req Log.AUTH_FAILED None
       (Some [("reason"%string, Log.JStr "Missing credentials")]),
     json 400 (Error "Email and password are required"))
  else
    let e := Js.orDefault email "" in
    let p := Js.orDefault password "" in
    match Db.findUserByEmail s e with
    | None =>
        (Logging.logRequest s req Log.AUTH_FAILED None
           (Some [("reason"%string, Log.JStr "User not found");
                  ("email"%string, Log.JStr e)]),
         json 401 (Error "Invalid credentials"))
    | Some user =>
        if negb (bcryptCompare E p (User.passwordHash user)) then
          (Logging.logRequest s req Log.AUTH_FAILED None
             (Some [("reason"%string, Log.JStr "Invalid password");
                    ("email"%string, Log.JStr e)]),
           json 401 (Error "Invalid credentials"))
        else
          (s, json 200
                (Auth (jwtSign E (User.id user) (User.email user) (now req))
                      (User.id user) (User.email user)))
    end.

(** [router.post('/login', authLimiter, handler)]. *)
Definition login (E : Env) (s : Db.State) (req : Request)
           (email password : option string) : Db.State * Response :=
  let '(hits, refused) :=
    RateLimit.consume (RateLimit.authLimiter E) (Db.authHits s)
                      (RateLimit.keyGenerator req) (now req) in
  let s0 := Db.setAuthHits s hits in
  if refused then (s0, RateLimit.refuse (RateLimit.authLimiter E))
  else loginHandler E s0 req email password.

End AuthRoutes.

(** ** scripts/cleanup.ts *)

Module Cleanup.

(** [SELECT * FROM files WHERE expiryTime < ?] with the ISO text of the
    current time as parameter: a comparison of TEXT values. *)
Definition selected (nowText : string) (f : File.EncryptedFile) : bool :=
  Dates.textLt (Dates.toISOString (File.expiryTime f)) nowText.

Definition selectExpired (s : Db.State) (nowText : string)
  : list File.EncryptedFile :=
  List.filter (selected nowText) (map snd (map_to_list (Db.files s))).

(** The body of the loop for one row: the file is unlinked, an exception
    of the unlink is caught and the row is deleted all the same.  The
    counters are [deletedCount] and [errorCount]; nothing in the model
    makes the [DELETE] throw, so [errorCount] stays as it is. *)
Definition deleteOne (file : File.EncryptedFile)
           (acc : Db.State * (Z * Z)) : Db.State * (Z * Z) :=
  let '(s, (deletedCount, errorCount)) := acc in
  let s1 :=
    match Db.unlinkSync s (File.path file) with
    | inr s' => s'
    | inl _ => s
    end in
  (Db.deleteFile s1 (File.id file), (deletedCount + 1, errorCount)).

(** One run of the script at the clock reading [now]: the new state and
    the two counters of the summary (both zero when the script returns
    early on an empty selection). *)
Definition cleanupExpiredFiles (s : Db.State) (now : Z)
  : Db.State * (Z * Z) :=
  let expiredFiles := selectExpired s (Dates.toISOString now) in
  fold_left (fun acc file => deleteOne file acc) expiredFiles (s, (0, 0)).

End Cleanup.

(** ** The server as a transition system *)

Module Server.

(** One request to the API, or one run of the cleanup script. *)
Inductive Call :=
| Register (req : Http.Request) (email password : option string)
           (userId : string)
| Login (req : Http.Request) (email password : option string)
| PostUpload (req : Http.Request) (form : Upload.Form) (fileId : string)
| GetMetadata (req : Http.Request) (fileId : string)
| GetBlob (req : Http.Request) (fileId : string)
| ListMyFiles (req : Http.Request)
| DeleteMyFile (req : Http.Request) (fileId : string)
| RunCleanup (now : Z).

(** What a call leaves visible outside the server. *)
Inductive Output :=
| Reply (r : Http.Response)
| Summary (deletedCount errorCount : Z).

Definition serve (E : Http.Env) (s : Db.State) (c : Call)
  : Db.State * Output :=
  let reply (x : Db.State * Http.Response) := (fst x, Reply (snd x)) in
  match c with
  | Register req e p uid => reply (AuthRoutes.register E s req e p uid)
  | Login req e p => reply (AuthRoutes.login E s req e p)
  | PostUpload req form fid => reply (Upload.post E s req form fid)
  | GetMetadata req fid => reply (FileRoutes.getMetadata E s req fid)
  | GetBlob req fid => reply (FileRoutes.getBlob E s req fid)
  | ListMyFiles req => reply (MyFiles.list E s req)
  | DeleteMyFile req fid => reply (MyFiles.delete E s req fid)
  | RunCleanup now =>
      let '(s', (d, e)) := Cleanup.cleanupExpiredFiles s now in
      (s', Summary d e)
  end.

Fixpoint run (E : Http.Env) (s : Db.State) (cs : list Call)
  : Db.State * list Output :=
  match cs with
  | [] => (s, [])
  | c :: r =>
      let '(s1, o) := serve E s c in
      let '(s2, os) := run E s1 r in
      (s2, o :: os)
  end.

End Server.

(** ** The browser side: api.ts and main.ts *)

Module Client.

(** A part of a [FormData] body. *)
Inductive Part := Text (value : string) | Binary (data : list byte).

(** What [fetch] sends. *)
Record FetchRequest := {
  method : string;
  url : string;
  headers : list (string * string);
  body : list (string * Part)
}.

(** [n.toString()] for an integer. *)
Definition numberToString (n : Z) : string :=
  NilZero.string_of_int (Z.to_int n).

(** [uploadFile] of api.ts up to the call of [fetch]; [None] is the
    exception thrown when no token is stored.  [expiresIn] is appended
    only when it is given and not zero. *)
Definition uploadFile (API_BASE_URL : string) (token : option string)
           (ciphertext : list byte) (iv : list byte)
           (filename mimetype : string) (filesize : Z)
           (expiresIn : option Z) : option FetchRequest :=
  if negb (Js.truthy token) then None
  else
    let formData :=
      [("file"%string, Binary ciphertext);
       ("iv"%string,
        Text (string_of_list_ascii (Crypto.btoa (Crypto.fromCharCode iv))));
       ("filename"%string, Text filename);
       ("mimetype"%string, Text mimetype);
       ("filesize"%string, Text (numberToString filesize))]
      ++ match expiresIn with
         | Some h =>
             if h =? 0 then []
             else [("expiresIn"%string, Text (numberToString h))]
         | None => []
         end in
    Some {| method := "POST";
            url := (API_BASE_URL ++ "/api/upload")%string;
            headers :=
              [("Authorization"%string,
                ("Bearer " ++ Js.orDefault token "")%string)];
            body := formData |}.

Definition getFileMetadata (API_BASE_URL fileId : string) : FetchRequest :=
  {| method := "GET";
     url := (API_BASE_URL ++ "/api/file/" ++ fileId ++ "/metadata")%string;
     headers := []; body := [] |}.

Definition downloadFile (API_BASE_URL fileId : string) : FetchRequest :=
  {| method := "GET";
     url := (API_BASE_URL ++ "/api/file/" ++ fileId ++ "/blob")%string;
     headers := []; body := [] |}.

(** The file chosen in the page. *)
Record PickedFile := {
  name : string;
  type : string;
  size : Z;
  content : list byte
}.

(** The share link of [setupUploadListeners] and of [loadMyFiles]:
    [`${window.location.origin}/file/${fileId}#${keyBase64Url}`]. *)
Definition shareLink (origin fileId keyBase64Url : string) : string :=
  (origin ++ "/file/" ++ fileId ++ "#" ++ keyBase64Url)%string.

(** The click handler of the upload button, in two halves around the
    answer of the server.  [encrypt key iv data] stands for AES-GCM
    ([crypto.subtle.encrypt]); [key] is the raw key that [exportKey]
    returns for the key drawn by [generateKey], [iv] the value drawn by
    [generateIV]. *)
Definition uploadRequest
           (encrypt : list byte -> list byte -> list byte -> list byte)
           (API_BASE_URL : string) (token : option string)
           (file : PickedFile) (key iv : list byte) : option FetchRequest :=
  let ciphertext := encrypt key iv (content file) in
  uploadFile API_BASE_URL token ciphertext iv (name file)
    (if String.eqb (type file) "" then "application/octet-stream"%string
     else type file)
    (size file) None.

Definition uploadShareLink (origin : string) (fileId : string)
           (key : list byte) : string :=
  let keyBase64Url := Crypto.toBase64Url key in
  shareLink origin fileId keyBase64Url.

(** A URL as the browser splits it at the first [#]: what is requested
    from the server, and [window.location.hash]. *)
Fixpoint beforeHash (u : list ascii) : list ascii :=
  match u with
  | [] => []
  | c :: r => if Ascii.eqb c "#" then [] else c :: beforeHash r
  end.

Fixpoint fromHash (u : list ascii) : list ascii :=
  match u with
  | [] => []
  | c :: r => if Ascii.eqb c "#" then u else fromHash r
  end.

Definition requested (u : string) : string :=
  string_of_list_ascii (beforeHash (list_ascii_of_string u)).

Definition locationHash (u : string) : string :=
  match fromHash (list_ascii_of_string u) with
  | [_] => EmptyString
  | h => string_of_list_ascii h
  end.

(** [window.location.hash.substring(1)] of [initDownloadPage]. *)
Definition keyOfLocation (u : string) : string :=
  match locationHash u with
  | String _ r => r
  | EmptyString => EmptyString
  end.

End Client.

(** ** The upload request as the server receives it *)

Module Wire.

Definition header (h : string) (r : Client.FetchRequest) : option string :=
  match List.find (fun kv => String.eqb (fst kv) h) (Client.headers r) with
  | Some kv => Some (snd kv)
  | None => None
  end.

Definition textField (f : string) (r : Client.FetchRequest) : option string :=
  match List.find (fun kv => String.eqb (fst kv) f) (Client.body r) with
  | Some (_, Client.Text v) => Some v
  | _ => None
  end.

Definition fileField (f : string) (r : Client.FetchRequest)
  : option (list byte) :=
  match List.find (fun kv => String.eqb (fst kv) f) (Client.body r) with
  | Some (_, Client.Binary d) => Some d
  | _ => None
  end.

(** The call [POST /api/upload] that a [fetch] of [uploadFile] becomes:
    [conn] gives the address, the other headers and the clock of the
    server, [fileId] the identifier the server draws. *)
Definition upload (conn : Http.Request) (r : Client.FetchRequest)
           (fileId : string) : Server.Call :=
  Server.PostUpload
    {| Http.ip := Http.ip conn;
       Http.remoteAddress := Http.remoteAddress conn;
       Http.xForwardedFor := Http.xForwardedFor conn;
       Http.userAgent := Http.userAgent conn;
       Http.authorization := header "Authorization" r;
       Http.now := Http.now conn |}
    {| Upload.file := fileField "file" r;
       Upload.iv := textField "iv" r;
       Upload.filename := textField "filename" r;
       Upload.mimetype := textField "mimetype" r;
       Upload.expiresIn := textField "expiresIn" r |}
    fileId.

End Wire.

(** ** The vocabulary of the properties *)

Module Spec.

(** The outcome of a request, read off the HTTP status of the response. *)
Inductive Outcome :=
| Ok | InvalidInput | Unauthenticated | Forbidden | NotFound | Conflict
| Expired | RateLimited | Internal.

Definition outcome (r : Http.Response) : Outcome :=
  let c := Http.status r in
  if (c =? 200) || (c =? 201) then Ok
  else if c =? 400 then InvalidInput
  else if c =? 401 then Unauthenticated
  else if c =? 403 then Forbidden
  else if c =? 404 then NotFound
  else if c =? 409 then Conflict
  else if c =? 410 then Expired
  else if c =? 429 then RateLimited
  else Internal.

(** The limiter of the blob route refuses the request [req] in state [s]. *)
Definition downloadRefused (E : Http.Env) (s : Db.State) (req : Http.Request)
  : bool :=
  snd (RateLimit.consume (RateLimit.downloadLimiter E) (Db.downloadHits s)
         (RateLimit.keyGenerator req) (Http.now req)).

(** The request [req] with another [authorization] header. *)
Definition withAuthorization (a : option string) (req : Http.Request)
  : Http.Request :=
  {| Http.ip := Http.ip req; Http.remoteAddress := Http.remoteAddress req;
     Http.xForwardedFor := Http.xForwardedFor req;
     Http.userAgent := Http.userAgent req;
     Http.authorization := a; Http.now := Http.now req |}.

(** The call is a blob download of [fid] that was answered with 200. *)
Definition downloadOk (c : Server.Call) (o : Server.Output) (fid : string)
  : bool :=
  match c, o with
  | Server.GetBlob _ x, Server.Reply r =>
      String.eqb x fid && (Http.status r =? 200)
  | _, _ => false
  end.

(** The row [f'] is the row [f] with [n] more downloads and no other
    change. *)
Definition sameBut (f f' : File.EncryptedFile) (n : Z) : Prop :=
  File.id f' = File.id f /\ File.path f' = File.path f
  /\ File.iv f' = File.iv f /\ File.ownerId f' = File.ownerId f
  /\ File.filename f' = File.filename f
  /\ File.mimetype f' = File.mimetype f
  /\ File.filesize f' = File.filesize f
  /\ File.createdAt f' = File.createdAt f
  /\ File.expiryTime f' = File.expiryTime f
  /\ File.downloadCount f' = File.downloadCount f + n.

(** The event is of the kind RATE_LIMITED. *)
Definition rateLimitedEvent (l : Log.Log) : bool :=
  match Log.eventType l with
  | Log.RATE_LIMITED => true
  | _ => false
  end.

(** Every row of [m'] is a row of [m], unchanged. *)
Definition shrinks (m m' : gmap string File.EncryptedFile) : Prop :=
  forall k, m' !! k = None \/ m' !! k = m !! k.

(** One step on the table of files, seen from the id [fid]: a row that was
    there gains exactly one download when [ok] holds, and otherwise is gone
    or is as it was; a row that appears has no download. *)
Definition countStep (m m' : gmap string File.EncryptedFile) (ok : bool)
           (fid : string) : Prop :=
  (forall f, m !! fid = Some f ->
     (ok = true -> exists f', m' !! fid = Some f' /\ sameBut f f' 1)
     /\ (ok = false -> m' !! fid = None \/ m' !! fid = Some f))
  /\ (m !! fid = None ->
      forall f', m' !! fid = Some f' -> File.downloadCount f' = 0).

(** The rows of the table [files] are keyed by their [id]. *)
Definition keyed (s : Db.State) : Prop :=
  forall k f, Db.files s !! k = Some f -> File.id f = k.

End Spec.

(** ** Auxiliary definitions of the proofs about the key encoding *)

Module Base64Aux.
Import Crypto.

Definition belowN (n : nat) : list N := map N.of_nat (seq 0 n).

Definition isB64 (c : ascii) : bool :=
  match b64index c with Some _ => true | None => false end.

Definition urlSafe (c : ascii) : ascii :=
  (if Ascii.eqb (if Ascii.eqb c "+" then "-" else c) "/" then "_"
   else if Ascii.eqb c "+" then "-" else c)%char.

Definition urlUnsafe (c : ascii) : ascii :=
  (if Ascii.eqb (if Ascii.eqb c "-" then "+" else c) "_" then "/"
   else if Ascii.eqb c "-" then "+" else c)%char.

(** [btoa] without its padding: what is left of it in the URL form. *)
Fixpoint btoaCore (s : list ascii) : list ascii :=
  match s with
  | [] => []
  | [a] =>
      let a := N_of_ascii a in
      [b64char (sextet1 a); b64char (sextet2 a 0)]
  | [a; b] =>
      let a := N_of_ascii a in
      let b := N_of_ascii b in
      [b64char (sextet1 a); b64char (sextet2 a b); b64char (sextet3 b 0)]
  | a :: b :: c :: rest =>
      let a := N_of_ascii a in
      let b := N_of_ascii b in
      let c := N_of_ascii c in
      b64char (sextet1 a) :: b64char (sextet2 a b)
        :: b64char (sextet3 b c) :: b64char (sextet4 c) :: btoaCore rest
  end.

End Base64Aux.

(** ** A concrete deployment, for the examples *)

Module Scenario.
Import Http.

Definition env : Env :=
  {| jwtVerify := fun t =>
       if String.eqb t "token-alice" then Some ("alice", "alice@example.org")
       else if String.eqb t "token-bob" then Some ("bob", "bob@example.org")
       else None;
     jwtSign := fun i _ _ => ("token-" ++ i)%string;
     bcryptHash := fun p => ("hash:" ++ p)%string;
     bcryptCompare := fun p h => String.eqb h ("hash:" ++ p);
     UPLOAD_DIR := "uploads";
     MAX_FILE_SIZE_MB := 50;
     DEFAULT_EXPIRY_HOURS := Some 24;
     RATE_LIMIT_WINDOW_MS := 900000;
     RATE_LIMIT_MAX := 100 |}.

Definition t0 : Z := 1793534400000.

Definition request (auth : option string) (t : Z) : Request :=
  {| ip := Some "203.0.113.7"%string; remoteAddress := None;
     xForwardedFor := None; userAgent := Some "curl/8"%string;
     authorization := auth; now := t |}.

Definition asAlice := request (Some "Bearer token-alice"%string).
Definition asBob := request (Some "Bearer token-bob"%string).
Definition anonymous := request None.

Definition registered : Db.State :=
  fst (Server.run env Db.empty
         [Server.Register (anonymous t0) (Some "alice@example.org"%string)
            (Some "correct horse"%string) "alice";
          Server.Register (anonymous t0) (Some "bob@example.org"%string)
            (Some "battery staple"%string) "bob"]).

Definition fid : string := "3f2504e0-4f89-41d3-9a0c-0305e82c3301".

Definition form (ttl : option string) : Upload.Form :=
  {| Upload.file := Some [x01; x02; x03];
     Upload.iv := Some "AAECAwQFBgcICQoL"%string;
     Upload.filename := Some "a.txt"%string;
     Upload.mimetype := Some "text/plain"%string;
     Upload.expiresIn := ttl |}.

(** The state after Alice uploaded [form ttl] at [t0]. *)
Definition uploadBy (ttl : option string) : Db.State :=
  fst (Server.serve env registered
         (Server.PostUpload (asAlice t0) (form ttl) fid)).

Definition alice : AuthMw.AuthUser :=
  {| AuthMw.id := "alice"; AuthMw.email := "alice@example.org" |}.
Definition bob : AuthMw.AuthUser :=
  {| AuthMw.id := "bob"; AuthMw.email := "bob@example.org" |}.

(** The row of that upload when it expires at [expiry]. *)
Definition aliceFile (expiry : Z) : File.EncryptedFile :=
  {| File.id := fid;
     File.path := "uploads/3f2504e0-4f89-41d3-9a0c-0305e82c3301.bin";
     File.iv := "AAECAwQFBgcICQoL"; File.ownerId := "alice";
     File.filename := "a.txt"; File.mimetype := "text/plain";
     File.filesize := 3; File.createdAt := t0; File.expiryTime := expiry;
     File.downloadCount := 0 |}.

Definition otherFid : string := "00000000-0000-4000-8000-000000000000".

(** The state after one hundred downloads of that file from one address,
    all within a millisecond of the upload. *)
Definition busy : Db.State :=
  fst (Server.run env (uploadBy None)
         (repeat (Server.GetBlob (anonymous (t0 + 1)) fid) 100)).

(** The browser of Alice.  [toyCipher] stands in for AES-GCM in the
    examples: it only has to be some function of key and data. *)
Definition xorByte (a b : byte) : byte :=
  match Byte.of_N (N.lxor (Byte.to_N a) (Byte.to_N b)) with
  | Some x => x
  | None => x00
  end.

Fixpoint xorStream (key data : list byte) : list byte :=
  match key, data with
  | k :: ks, d :: ds => xorByte k d :: xorStream ks ds
  | _, _ => data
  end.

Definition toyCipher (key iv data : list byte) : list byte :=
  xorStream key data.

Definition origin : string := "https://share.example".
Definition api : string := "https://api.share.example".

Definition picked : Client.PickedFile :=
  {| Client.name := "a.txt"; Client.type := "text/plain"; Client.size := 3;
     Client.content := [x68; x69; x0a] |}.

Definition key32 : list byte :=
  [xfb; xff; xfe; x00; x01; x02; x03; x04; x05; x06; x07; x08; x09; x0a;
   x0b; x0c; x0d; x0e; x0f; x10; x11; x12; x13; x14; x15; x16; x17; x18;
   x19; x1a; x1b; x3e].

Definition iv12 : list byte :=
  [x00; x01; x02; x03; x04; x05; x06; x07; x08; x09; x0a; x0b].

Definition sent : Client.FetchRequest :=
  {| Client.method := "POST";
     Client.url := "https://api.share.example/api/upload";
     Client.headers := [("Authorization", "Bearer token-alice")]%string;
     Client.body :=
       [("file", Client.Binary [x93; x96; xf4]);
        ("iv", Client.Text "AAECAwQFBgcICQoL");
        ("filename", Client.Text "a.txt");
        ("mimetype", Client.Text "text/plain");
        ("filesize", Client.Text "3")]%string |}.

End Scenario.

(** ** main.ts: the download page *)

Module Download.

(** [Uint8Array.from(atob(text), c => c.charCodeAt(0))]; [None] is the
    exception of [atob]. *)
Definition decodeBase64 (text : string) : option (list byte) :=
  match Crypto.atob (list_ascii_of_string text) with
  | Some binary => Some (Crypto.charCodes binary)
  | None => None
  end.

(** [downloadFile] of api.ts, from the answer of the server on: the body
    when [response.ok], the exception ([None]) otherwise. *)
Definition downloadFile (r : Http.Response) : option Http.Body :=
  if (200 <=? Http.status r) && (Http.status r <=? 299)
  then Some (Http.body r) else None.

(** [downloadAndDecryptFile]: the plaintext handed to [downloadBlob], or
    [None] when any step throws and the page shows that the link may be
    invalid or corrupted.  [decrypt key iv ciphertext] stands for [importKey]
    followed by AES-GCM decryption ([crypto.subtle.decrypt]), [None] being a
    rejected key or a failed authentication. *)
Definition downloadAndDecryptFile
           (decrypt : list byte -> list byte -> list byte -> option (list byte))
           (keyBase64Url : string) (r : Http.Response) : option (list byte) :=
  match downloadFile r with
  | Some (Http.Blob ciphertext iv _ _ _) =>
      match Crypto.fromBase64Url keyBase64Url with
      | Some keyBytes =>
          match decodeBase64 iv with
          | Some ivBytes =>
              match decodeBase64 ciphertext with
              | Some ciphertextBytes => decrypt keyBytes ivBytes ciphertextBytes
              | None => None
              end
          | None => None
          end
      | None => None
      end
  | _ => None
  end.

(** [initDownloadPage]: the file id is the last segment of the path, the key
    is the fragment without its [#]; [None] is the message
    'Invalid download link'. *)
Definition initDownloadPage (pathname hash : string)
  : option (string * string) :=
  let fileId := List.last (Js.split "/" pathname) EmptyString in
  let keyBase64Url :=
    match hash with
    | String _ r => r
    | EmptyString => EmptyString
    end in
  if String.eqb fileId "" || String.eqb keyBase64Url "" then None
  else Some (fileId, keyBase64Url).

End Download.

(** ** ui.ts: the time left to a file *)

Module Ui.

Definition plural (n : Z) : string := if n =? 1 then "" else "s".

(** [getTimeRemaining(dateString)], with [now] the reading of the clock and
    [expiry] the time value of [new Date(dateString)]. *)
Definition getTimeRemaining (now expiry : Z) : string :=
  let diff := expiry - now in
  if diff <=? 0 then "Expired"%string
  else
    let hours := diff / (1000 * 60 * 60) in
    let minutes := (diff mod (1000 * 60 * 60)) / (1000 * 60) in
    if 24 <? hours then
      let days := hours / 24 in
      (Client.numberToString days ++ " day" ++ plural days)%string
    else if 0 <? hours then
      (Client.numberToString hours ++ " hour" ++ plural hours ++ " "
         ++ Client.numberToString minutes ++ " min")%string
    else
      (Client.numberToString minutes ++ " minute" ++ plural minutes)%string.

End Ui.

(** ** crypto.ts: the keys kept in the session storage *)

Module KeyStore.





End KeyStore.

(** ** Characters the key decoder refuses *)

Module Foreign.

(** [c] is neither a character of the base64 alphabets (standard or
    URL-safe), nor [=], nor white space that [atob] skips. *)
Definition foreign (c : ascii) : bool :=
  negb (Base64Aux.isB64 c) && negb (Ascii.eqb c "-") && negb (Ascii.eqb c "_")
  && negb (Ascii.eqb c "=") && negb (Crypto.isAsciiWhitespace c).

End Foreign.

(** ** A concrete session of the browser, for the examples *)

Module Session.

(** Decryption for [Scenario.toyCipher], which is its own inverse. *)
Definition toyDecipher (key iv data : list byte) : option (list byte) :=
  Some (Scenario.toyCipher key iv data).

(** The state after the server served the upload request [Scenario.sent]. *)
Definition uploaded : Db.State :=
  fst (Server.serve Scenario.env Scenario.registered
         (Wire.upload (Scenario.anonymous Scenario.t0) Scenario.sent
            Scenario.fid)).

Definition created : Http.Response :=
  Http.json 201 (Http.Uploaded Scenario.fid "2026-11-02T12:00:00.000Z").

End Session.

(** ** More vocabulary of the properties *)

Module Limits.

(** The limiter of the upload route refuses the request [req]. *)
Definition uploadRefused (E : Http.Env) (s : Db.State) (req : Http.Request)
  : bool :=
  snd (RateLimit.consume (RateLimit.uploadLimiter E) (Db.uploadHits s)
         (RateLimit.keyGenerator req) (Http.now req)).

(** The limiter of the login route refuses the request [req]. *)
Definition loginRefused (E : Http.Env) (s : Db.State) (req : Http.Request)
  : bool :=
  snd (RateLimit.consume (RateLimit.authLimiter E) (Db.authHits s)
         (RateLimit.keyGenerator req) (Http.now req)).

End Limits.

Module Events.

(** The row that [logRequest] writes for the request [req]. *)
Definition row (req : Http.Request) (ev : Log.EventType)
           (fid : option string) (extra : option (list (string * Log.Json)))
  : Log.Log :=
  {| Log.timestamp := Http.now req; Log.ip := Logging.getClientIp req;
     Log.userAgent := Logging.getUserAgent req; Log.fileId := fid;
     Log.eventType := ev; Log.extra := extra |}.

End Events.

(** ** The constraints of the schema and of the upload directory *)

Module Inv.

(** Every row of [files] is keyed by its id, has the path the upload
    route gives to that id, an owner in [users] (the foreign key of
    [ownerId]) and bytes under its path. *)
Definition filesOk (E : Http.Env) (s : Db.State) : Prop :=
  forall k f, Db.files s !! k = Some f ->
    File.id f = k
    /\ File.path f = Upload.filePath E k
    /\ is_Some (Db.users s !! File.ownerId f)
    /\ is_Some (Db.disk s !! File.path f).

(** The foreign key of [logs.fileId]. *)
Definition logsOk (s : Db.State) : Prop :=
  forall l fid, In l (Db.logs s) -> Log.fileId l = Some fid ->
    is_Some (Db.files s !! fid).

(** The primary key of [users] and the uniqueness of [email]. *)
Definition usersOk (s : Db.State) : Prop :=
  (forall k u, Db.users s !! k = Some u -> User.id u = k)
  /\ (forall k1 k2 u1 u2,
         Db.users s !! k1 = Some u1 -> Db.users s !! k2 = Some u2 ->
         User.email u1 = User.email u2 -> k1 = k2).

Definition wf (E : Http.Env) (s : Db.State) : Prop :=
  filesOk E s /\ logsOk s /\ usersOk s.

End Inv.

(** ** A short history of the server, and the vocabulary of the log *)

Module History.

(** Alice and Bob register, then Alice uploads [Scenario.form None]. *)
Definition calls : list Server.Call :=
  [Server.Register (Scenario.anonymous Scenario.t0)
     (Some "alice@example.org"%string) (Some "correct horse"%string) "alice";
   Server.Register (Scenario.anonymous Scenario.t0)
     (Some "bob@example.org"%string) (Some "battery staple"%string) "bob";
   Server.PostUpload (Scenario.asAlice Scenario.t0) (Scenario.form None)
     Scenario.fid].

End History.

Module Audit.

(** The row [l'] is the row [l], except that its file id may have been
    set to null. *)
Definition sameEvent (l l' : Log.Log) : Prop :=
  Log.timestamp l' = Log.timestamp l /\ Log.ip l' = Log.ip l
  /\ Log.userAgent l' = Log.userAgent l
  /\ Log.eventType l' = Log.eventType l /\ Log.extra l' = Log.extra l
  /\ (Log.fileId l' = Log.fileId l \/ Log.fileId l' = None).

(** The kinds of event that the routes store. *)
Definition stored (ev : Log.EventType) : bool :=
  match ev with
  | Log.NOT_FOUND | Log.RATE_LIMITED => false
  | _ => true
  end.

(** One step of the log: the rows are kept in their order, each one the
    same event as before, and at most one row is appended, of a kind in
    [stored]. *)
Definition logStep (old new : list Log.Log) : Prop :=
  exists kept added,
    new = kept ++ added
    /\ Forall2 sameEvent old kept
    /\ (length added <= 1)%nat
    /\ Forall (fun l => stored (Log.eventType l) = true) added.

End Audit.

(** ** Bytes of the upload directory and the records that own them *)

Module Bytes.

(** No record of the table has the path [p]. *)
Definition unowned (s : Db.State) (p : string) : Prop :=
  forall k f, Db.files s !! k = Some f -> File.path f <> p.

(** The call is an upload for which the server draws an id whose path is
    [p]. *)
Definition draws (E : Http.Env) (p : string) (c : Server.Call) : bool :=
  match c with
  | Server.PostUpload _ _ fileId => String.eqb (Upload.filePath E fileId) p
  | _ => false
  end.

End Bytes.

(** ** The calendar of [toISOString], for the proofs about the order of
    ISO texts *)

Module Calendar.

(** The instants whose year [toISOString] writes with four digits:
    0000-01-01T00:00:00.000Z to 9999-12-31T23:59:59.999Z. *)
Definition firstInstant : Z := -62167219200000.
Definition lastInstant : Z := 253402300799999.

Definition fourDigitYear (t : Z) : Prop :=
  firstInstant <= t <= lastInstant.

(** Lexicographic combination of two comparisons. *)
Definition lex (c1 c2 : comparison) : comparison :=
  match c1 with
  | Eq => c2
  | _ => c1
  end.

(** The steps of [Dates.civil], one by one. *)
Definition era (day : Z) : Z := (day + 719468) / 146097.
Definition dayOfEra (day : Z) : Z := day + 719468 - era day * 146097.
Definition yearOfEra (doe : Z) : Z :=
  (doe - doe / 1460 + doe / 36524 - doe / 146096) / 365.
Definition dayOfYear (doe : Z) : Z :=
  doe - (365 * yearOfEra doe + yearOfEra doe / 4 - yearOfEra doe / 100).
Definition monthIndex (doy : Z) : Z := (5 * doy + 2) / 153.
Definition dayOfMonth (doy : Z) : Z :=
  doy - (153 * monthIndex doy + 2) / 5 + 1.

(** The rank of a day among the days, by year, month counted from March,
    and day of the month; and the rank of a civil date. *)
Definition marchRank (day : Z) : Z :=
  let doe := dayOfEra day in
  let doy := dayOfYear doe in
  ((yearOfEra doe + era day * 400) * 12 + monthIndex doy) * 32
  + dayOfMonth doy.

Definition rank (c : Z * Z * Z) : Z :=
  let '(y, m, d) := c in (y * 12 + (m - 1)) * 32 + d.

End Calendar.

(** ** A request behind a proxy *)

Module Proxy.

(** The request [req] with another [x-forwarded-for] header. *)
Definition withForwarded (h : option string) (req : Http.Request)
  : Http.Request :=
  {| Http.ip := Http.ip req; Http.remoteAddress := Http.remoteAddress req;
     Http.xForwardedFor := h; Http.userAgent := Http.userAgent req;
     Http.authorization := Http.authorization req;
     Http.now := Http.now req |}.

End Proxy.

(** ** The download counter and the log *)

Module Tally.

(** The row is a DOWNLOAD_OK event that names the file [fid]. *)
Definition counts (fid : string) (l : Log.Log) : bool :=
  match Log.eventType l, Log.fileId l with
  | Log.DOWNLOAD_OK, Some x => String.eqb x fid
  | _, _ => false
  end.

(** The number of DOWNLOAD_OK events of the log that name [fid]. *)
Definition downloadsLogged (s : Db.State) (fid : string) : Z :=
  Z.of_nat (length (List.filter (counts fid) (Db.logs s))).

(** The counter of every record is the number of its DOWNLOAD_OK events. *)
Definition consistent (s : Db.State) : Prop :=
  forall k f, Db.files s !! k = Some f ->
    File.downloadCount f = downloadsLogged s k.

End Tally.

(* ===================================================================== *)
(** * Part II: properties                                                 *)
(* ===================================================================== *)

(** ** Checks of the model of the platform functions *)

Example toBase64Url_ex1 :
  Crypto.toBase64Url [xfb; xff; xfe] = "-__-"%string.
Proof. reflexivity. Qed.

Example toBase64Url_ex2 :
  Crypto.toBase64Url [x66; x6f] = "Zm8"%string
  /\ Crypto.fromBase64Url "Zm8" = Some [x66; x6f].
Proof. split; reflexivity. Qed.

Example toISOString_epoch :
  Dates.toISOString 0 = "1970-01-01T00:00:00.000Z"%string.
Proof. reflexivity. Qed.

Example toISOString_2023 :
  Dates.toISOString 1700000000000 = "2023-11-14T22:13:20.000Z"%string.
Proof. reflexivity. Qed.

Example toISOString_leap :
  Dates.toISOString 1709210096789 = "2024-02-29T12:34:56.789Z"%string.
Proof. reflexivity. Qed.

Example toISOString_year10000 :
  Dates.toISOString 253402300800000 = "+010000-01-01T00:00:00.000Z"%string
  /\ Dates.toISOString 253402300799999 = "9999-12-31T23:59:59.999Z"%string.
Proof. split; reflexivity. Qed.

Example toISOString_before_year0 :
  Dates.toISOString (-62167219200001) = "-000001-12-31T23:59:59.999Z"%string.
Proof. reflexivity. Qed.

Example parseInt_examples :
  Js.parseInt "24" = Some 24 /\ Js.parseInt "0" = Some 0
  /\ Js.parseInt " -5h" = Some (-5) /\ Js.parseInt "abc" = None
  /\ Js.parseInt "0x1f" = Some 31.
Proof. repeat split; reflexivity. Qed.

Example uuidRegexTest_examples :
  Js.uuidRegexTest "3F2504E0-4f89-41d3-9a0c-0305e82c3301" = true
  /\ Js.uuidRegexTest "3f2504e0-4f89-41d3-9a0c-0305e82c330" = false
  /\ Js.uuidRegexTest "../../etc/passwd" = false.
Proof. repeat split; reflexivity. Qed.

(** ** The key encoding round trip *)

Section Base64Facts.
Import Crypto Base64Aux.

Lemma forallb_belowN (P : N -> bool) (n : nat) :
  forallb P (belowN n) = true ->
  forall a : N, (a < N.of_nat n)%N -> P a = true.
Proof.
  intros H a Ha. rewrite forallb_forall in H. apply H.
  unfold belowN. apply in_map_iff. exists (N.to_nat a). split.
  - apply N2Nat.id.
  - apply in_seq. lia.
Qed.

Lemma replaceAll_urlSafe (s : list ascii) :
  replaceAll "/" "_" (replaceAll "+" "-" s) = map urlSafe s.
Proof. unfold replaceAll. rewrite map_map. reflexivity. Qed.

Lemma replaceAll_urlUnsafe (s : list ascii) :
  replaceAll "_" "/" (replaceAll "-" "+" s) = map urlUnsafe s.
Proof. unfold replaceAll. rewrite map_map. reflexivity. Qed.

(** What the codec needs of an alphabet character, checked on all 256
    characters. *)
Lemma isB64_char_facts (c : ascii) :
  isB64 c = true ->
  isAsciiWhitespace c = false
  /\ Ascii.eqb c "=" = false
  /\ Ascii.eqb (urlSafe c) "=" = false
  /\ Ascii.eqb (urlSafe c) "+" = false
  /\ Ascii.eqb (urlSafe c) "/" = false
  /\ urlUnsafe (urlSafe c) = c.
Proof.
  destruct c as [[] [] [] [] [] [] [] []]; vm_compute; intros H;
    first [ discriminate H | repeat split ].
Qed.

Lemma b64char_isB64 (n : N) : isB64 (b64char n) = true.
Proof.
  destruct (N.lt_ge_cases n 64) as [Hlt | Hge].
  - revert n Hlt.
    apply (forallb_belowN (fun n => isB64 (b64char n)) 64).
    vm_compute. reflexivity.
  - unfold b64char. rewrite nth_overflow; [reflexivity |].
    change (length alphabet) with 64%nat. lia.
Qed.

Lemma b64index_b64char (n : N) :
  (n < 64)%N -> b64index (b64char n) = Some n.
Proof.
  intros Hlt.
  assert (H : (match b64index (b64char n) with
               | Some m => N.eqb m n | None => false end) = true).
  { revert n Hlt.
    apply (forallb_belowN
             (fun n => match b64index (b64char n) with
                       | Some m => N.eqb m n | None => false end) 64).
    vm_compute. reflexivity. }
  destruct (b64index (b64char n)) as [m |]; [| discriminate].
  apply N.eqb_eq in H. congruence.
Qed.

(** Bit-level facts on octets, by enumeration of one or two octets. *)
Lemma octet_facts1 (a : N) :
  (a < 256)%N ->
  (sextet1 a <? 64)%N && (sextet4 a <? 64)%N
  && (N.lor (N.shiftl (N.shiftr a 4) 4) (N.land a 15) =? a)%N
  && (N.lor (N.shiftl (N.shiftr a 6) 6) (N.land a 63) =? a)%N = true.
Proof.
  revert a.
  apply (forallb_belowN
    (fun a => (sextet1 a <? 64)%N && (sextet4 a <? 64)%N
      && (N.lor (N.shiftl (N.shiftr a 4) 4) (N.land a 15) =? a)%N
      && (N.lor (N.shiftl (N.shiftr a 6) 6) (N.land a 63) =? a)%N) 256).
  vm_compute. reflexivity.
Qed.

Lemma octet_facts2 (a b : N) :
  (a < 256)%N -> (b < 256)%N ->
  (sextet2 a b <? 64)%N && (sextet3 a b <? 64)%N
  && (octet1 (sextet1 a) (sextet2 a b) =? a)%N
  && (N.land (sextet2 a b) 15 =? N.shiftr b 4)%N
  && (N.shiftr (sextet3 a b) 2 =? N.land a 15)%N
  && (N.land (sextet3 a b) 3 =? N.shiftr b 6)%N = true.
Proof.
  intros Ha Hb.
  set (P := fun a b : N =>
      (sextet2 a b <? 64)%N && (sextet3 a b <? 64)%N
      && (octet1 (sextet1 a) (sextet2 a b) =? a)%N
      && (N.land (sextet2 a b) 15 =? N.shiftr b 4)%N
      && (N.shiftr (sextet3 a b) 2 =? N.land a 15)%N
      && (N.land (sextet3 a b) 3 =? N.shiftr b 6)%N).
  change (P a b = true).
  assert (H : forallb (P a) (belowN 256) = true).
  { revert a Ha.
    apply (forallb_belowN (fun a => forallb (P a) (belowN 256)) 256).
    vm_compute. reflexivity. }
  exact (forallb_belowN (P a) 256 H b Hb).
Qed.

Lemma list_ind3 {A : Type} (P : list A -> Prop) :
  P [] -> (forall a, P [a]) -> (forall a b, P [a; b]) ->
  (forall a b c l, P l -> P (a :: b :: c :: l)) ->
  forall l, P l.
Proof.
  intros H0 H1 H2 H3.
  assert (H : forall l, P l /\ (forall a, P (a :: l))
                        /\ (forall a b, P (a :: b :: l))).
  { induction l as [| x l [IH0 [IH1 IH2]]].
    - repeat split; auto.
    - repeat split; auto. }
  intros l. apply H.
Qed.

Ltac split_andb :=
  repeat match goal with
    | H : _ && _ = true |- _ => apply andb_prop in H; destruct H
    | H : (_ <? _)%N = true |- _ => apply N.ltb_lt in H
    | H : (_ =? _)%N = true |- _ => apply N.eqb_eq in H
    end.

Lemma sextet_bounds (a b : N) :
  (a < 256)%N -> (b < 256)%N ->
  (sextet1 a < 64)%N /\ (sextet2 a b < 64)%N
  /\ (sextet3 a b < 64)%N /\ (sextet4 a < 64)%N.
Proof.
  intros Ha Hb.
  pose proof (octet_facts1 a Ha) as H1.
  pose proof (octet_facts2 a b Ha Hb) as H2.
  split_andb. auto.
Qed.

Lemma octet1_sextets (a b : N) :
  (a < 256)%N -> (b < 256)%N -> octet1 (sextet1 a) (sextet2 a b) = a.
Proof.
  intros Ha Hb. pose proof (octet_facts2 a b Ha Hb) as H.
  split_andb. assumption.
Qed.

Lemma octet2_sextets (a b c : N) :
  (a < 256)%N -> (b < 256)%N -> (c < 256)%N ->
  octet2 (sextet2 a b) (sextet3 b c) = b.
Proof.
  intros Ha Hb Hc.
  pose proof (octet_facts2 a b Ha Hb) as H1.
  pose proof (octet_facts2 b c Hb Hc) as H2.
  pose proof (octet_facts1 b Hb) as H3.
  split_andb. unfold octet2.
  repeat match goal with
    | H : N.land (sextet2 a b) 15 = _ |- _ => rewrite H; clear H
    | H : N.shiftr (sextet3 b c) 2 = _ |- _ => rewrite H; clear H
    end.
  assumption.
Qed.

Lemma octet3_sextets (b c : N) :
  (b < 256)%N -> (c < 256)%N -> octet3 (sextet3 b c) (sextet4 c) = c.
Proof.
  intros Hb Hc.
  pose proof (octet_facts2 b c Hb Hc) as H2.
  pose proof (octet_facts1 c Hc) as H3.
  split_andb. unfold octet3.
  repeat match goal with
    | H : N.land (sextet3 b c) 3 = _ |- _ => rewrite H; clear H
    end.
  assumption.
Qed.

Lemma removeAll_cons_b64 (n : N) (l : list ascii) :
  removeAll "=" (urlSafe (b64char n) :: l)
  = urlSafe (b64char n) :: removeAll "=" l.
Proof.
  unfold removeAll. cbn [List.filter].
  destruct (isB64_char_facts _ (b64char_isB64 n)) as (_ & _ & H & _).
  rewrite H. reflexivity.
Qed.

Lemma removeAll_btoa (s : list ascii) :
  removeAll "=" (map urlSafe (btoa s)) = map urlSafe (btoaCore s).
Proof.
  induction s as [| a | a b | a b c l IH] using list_ind3;
    cbn [btoa btoaCore map]; rewrite ?removeAll_cons_b64;
    try reflexivity.
  rewrite IH. reflexivity.
Qed.

Lemma btoaCore_isB64 (s : list ascii) :
  Forall (fun c => isB64 c = true) (btoaCore s).
Proof.
  induction s as [| a | a b | a b c l IH] using list_ind3;
    cbn [btoaCore]; repeat (apply Forall_cons; split);
    auto using b64char_isB64, Forall_nil.
Qed.

Lemma btoaCore_length (s : list ascii) :
  (length (btoaCore s) mod 4 <> 1)%nat.
Proof.
  induction s as [| a | a b | a b c l IH] using list_ind3;
    cbn [btoaCore length]; try (vm_compute; discriminate).
  replace (S (S (S (S (length (btoaCore l))))))
    with (length (btoaCore l) + 1 * 4)%nat by lia.
  rewrite Nat.Div0.mod_add. exact IH.
Qed.

Lemma decodeGroups_btoaCore (s : list ascii) :
  decodeGroups (btoaCore s) = Some s.
Proof.
  induction s as [| a | a b | a b c l IH] using list_ind3;
    cbn [btoaCore decodeGroups]; [reflexivity | | |].
  - pose proof (N_ascii_bounded a) as Ha.
    destruct (sextet_bounds (N_of_ascii a) 0 Ha eq_refl) as (B1 & B2 & _).
    rewrite !b64index_b64char by assumption.
    rewrite octet1_sextets by (assumption || reflexivity).
    rewrite ascii_N_embedding. reflexivity.
  - pose proof (N_ascii_bounded a) as Ha.
    pose proof (N_ascii_bounded b) as Hb.
    destruct (sextet_bounds (N_of_ascii a) (N_of_ascii b) Ha Hb)
      as (B1 & B2 & _).
    destruct (sextet_bounds (N_of_ascii b) 0 Hb eq_refl) as (_ & _ & B3 & _).
    rewrite !b64index_b64char by assumption.
    rewrite octet1_sextets by assumption.
    rewrite octet2_sextets by (assumption || reflexivity).
    rewrite !ascii_N_embedding. reflexivity.
  - pose proof (N_ascii_bounded a) as Ha.
    pose proof (N_ascii_bounded b) as Hb.
    pose proof (N_ascii_bounded c) as Hc.
    destruct (sextet_bounds (N_of_ascii a) (N_of_ascii b) Ha Hb)
      as (B1 & B2 & _).
    destruct (sextet_bounds (N_of_ascii b) (N_of_ascii c) Hb Hc)
      as (_ & _ & B3 & _).
    destruct (sextet_bounds (N_of_ascii c) 0 Hc eq_refl) as (_ & _ & _ & B4).
    rewrite !b64index_b64char by assumption.
    rewrite IH.
    rewrite octet1_sextets, octet2_sextets, octet3_sextets by assumption.
    rewrite !ascii_N_embedding. reflexivity.
Qed.

Lemma urlUnsafe_urlSafe (x : list ascii) :
  Forall (fun c => isB64 c = true) x -> map urlUnsafe (map urlSafe x) = x.
Proof.
  induction 1 as [| c l Hc _ IH]; cbn [map]; [reflexivity |].
  destruct (isB64_char_facts c Hc) as (_ & _ & _ & _ & _ & H).
  rewrite H, IH. reflexivity.
Qed.

Lemma filter_whitespace_b64 (x : list ascii) :
  Forall (fun c => isB64 c = true) x ->
  List.filter (fun c => negb (isAsciiWhitespace c)) x = x.
Proof.
  induction 1 as [| c l Hc _ IH]; cbn [List.filter]; [reflexivity |].
  destruct (isB64_char_facts c Hc) as (H & _).
  rewrite H, IH. reflexivity.
Qed.

Lemma stripPadding_b64 (x : list ascii) :
  Forall (fun c => isB64 c = true) x ->
  stripPadding x = x
  /\ stripPadding (x ++ ["="%char]) = x
  /\ stripPadding (x ++ ["="%char] ++ ["="%char]) = x.
Proof.
  intros Hx. unfold stripPadding.
  rewrite !rev_app_distr. cbn [rev app].
  assert (Hlast : match rev x with
                  | c :: _ => Ascii.eqb c "=" = false
                  | [] => True
                  end).
  { destruct (rev x) as [| c r] eqn:E; [exact I |].
    assert (Hin : In c x) by (apply in_rev; rewrite E; left; reflexivity).
    rewrite Forall_forall in Hx.
    apply isB64_char_facts, Hx, list_elem_of_In, Hin. }
  change (Ascii.eqb "=" "=") with true. cbv iota.
  repeat split.
  - destruct (rev x) as [| c r]; [reflexivity |]. rewrite Hlast. reflexivity.
  - destruct (rev x) as [| c r] eqn:E.
    + apply (f_equal (@rev ascii)) in E. rewrite rev_involutive in E.
      symmetry. exact E.
    + rewrite Hlast, <- E. apply rev_involutive.
  - apply rev_involutive.
Qed.

Lemma length_snoc_mod4 (y : list ascii) (r : nat) :
  (length y mod 4 = r)%nat ->
  (length (y ++ ["="%char]) mod 4 = (r + 1) mod 4)%nat.
Proof.
  intros H. rewrite length_app. cbn [length].
  rewrite <- Nat.Div0.add_mod_idemp_l, H. reflexivity.
Qed.

(** The padding loop stops with a length that is a multiple of four. *)
Lemma addPadding_length (x : list ascii) :
  (length (addPadding x) mod 4 = 0)%nat.
Proof.
  unfold addPadding. cbn [padLoop].
  destruct (Nat.eqb_spec (length x mod 4) 0) as [E0 | N0]; [exact E0 |].
  pose proof (length_snoc_mod4 x _ eq_refl) as E1.
  destruct (Nat.eqb_spec (length (x ++ ["="%char]) mod 4) 0)
    as [E | N1]; [exact E |].
  pose proof (length_snoc_mod4 _ _ E1) as E2.
  destruct (Nat.eqb_spec (length ((x ++ ["="%char]) ++ ["="%char]) mod 4) 0)
    as [E | N2]; [exact E |].
  pose proof (length_snoc_mod4 _ _ E2) as E3.
  rewrite E3. rewrite E2 in N2. rewrite E1 in N1.
  pose proof (Nat.mod_upper_bound (length x) 4 ltac:(lia)) as Hr.
  remember (length x mod 4)%nat as r.
  destruct r as [| [| [| [| r]]]]; try lia; try reflexivity;
    exfalso; (apply N1; reflexivity) || (apply N2; reflexivity).
Qed.

Lemma addPadding_cases (x : list ascii) :
  ((length x mod 4 = 0)%nat -> addPadding x = x)
  /\ ((length x mod 4 = 2)%nat ->
      addPadding x = x ++ ["="%char] ++ ["="%char])
  /\ ((length x mod 4 = 3)%nat -> addPadding x = x ++ ["="%char]).
Proof.
  unfold addPadding. cbn [padLoop]. repeat split; intros H.
  - rewrite H. reflexivity.
  - rewrite H. cbn [Nat.eqb].
    rewrite (length_snoc_mod4 x 2 H).
    rewrite (length_snoc_mod4 _ _ (length_snoc_mod4 x 2 H)).
    rewrite <- app_assoc. reflexivity.
  - rewrite H. cbn [Nat.eqb].
    rewrite (length_snoc_mod4 x 3 H). reflexivity.
Qed.

Lemma atob_addPadding (x : list ascii) :
  Forall (fun c => isB64 c = true) x ->
  (length x mod 4 <> 1)%nat ->
  atob (addPadding x) = decodeGroups x.
Proof.
  intros Hx Hlen.
  destruct (stripPadding_b64 x Hx) as (S0 & S1 & S2).
  destruct (addPadding_cases x) as (P0 & P2 & P3).
  pose proof (addPadding_length x) as HL.
  assert (Hr : (length x mod 4 < 4)%nat) by (apply Nat.mod_upper_bound; lia).
  assert (Hcase : (length x mod 4 = 0 \/ length x mod 4 = 2
                   \/ length x mod 4 = 3)%nat) by lia.
  assert (HF : List.filter (fun c => negb (isAsciiWhitespace c))
                 (addPadding x) = addPadding x).
  { destruct Hcase as [H | [H | H]];
      [rewrite (P0 H) | rewrite (P2 H) | rewrite (P3 H)];
      rewrite ?List.filter_app, (filter_whitespace_b64 x Hx); reflexivity. }
  unfold atob. rewrite HF, HL. cbn [Nat.eqb].
  assert (HS : stripPadding (addPadding x) = x).
  { destruct Hcase as [H | [H | H]];
      [rewrite (P0 H) | rewrite (P2 H) | rewrite (P3 H)]; assumption. }
  rewrite HS.
  destruct (Nat.eqb_spec (length x mod 4) 1) as [E | _];
    [contradiction | reflexivity].
Qed.

(** The encoding and decoding, for every byte sequence. *)
Lemma fromBase64Url_toBase64Url (b : list byte) :
  fromBase64Url (toBase64Url b) = Some b.
Proof.
  unfold fromBase64Url, toBase64Url.
  rewrite list_ascii_of_string_of_list_ascii.
  rewrite replaceAll_urlSafe, replaceAll_urlUnsafe, removeAll_btoa.
  rewrite urlUnsafe_urlSafe by apply btoaCore_isB64.
  rewrite atob_addPadding by (apply btoaCore_isB64 || apply btoaCore_length).
  rewrite decodeGroups_btoaCore.
  unfold charCodes, fromCharCode. rewrite map_map.
  f_equal. rewrite <- (map_id b) at 2. apply map_ext.
  intros x. apply byte_of_ascii_of_byte.
Qed.

Lemma toBase64Url_chars (b : list byte) (c : ascii) :
  In c (list_ascii_of_string (toBase64Url b)) ->
  c <> "+"%char /\ c <> "/"%char /\ c <> "="%char.
Proof.
  unfold toBase64Url. rewrite list_ascii_of_string_of_list_ascii.
  rewrite replaceAll_urlSafe, removeAll_btoa.
  intros Hin. apply in_map_iff in Hin. destruct Hin as (d & <- & Hd).
  pose proof (btoaCore_isB64 (fromCharCode b)) as HF.
  rewrite Forall_forall in HF.
  apply list_elem_of_In, HF in Hd.
  destruct (isB64_char_facts d Hd) as (_ & _ & E1 & E2 & E3 & _).
  repeat split; intros E; rewrite E in *; discriminate.
Qed.
End Base64Facts.

(** ** Frame lemmas: what logging and the limiters leave alone *)

Section Frames.

Lemma logEvent_frame (s : Db.State) t i u fid ev ex :
  let s' := Logging.logEvent s t i u fid ev ex in
  Db.files s' = Db.files s /\ Db.users s' = Db.users s
  /\ Db.disk s' = Db.disk s /\ Db.downloadHits s' = Db.downloadHits s
  /\ Db.uploadHits s' = Db.uploadHits s /\ Db.authHits s' = Db.authHits s.
Proof.
  unfold Logging.logEvent, Db.insertLog. cbn [Log.fileId].
  destruct (Js.orElse fid None) as [x |]; [destruct (Db.files s !! x) |];
    repeat split; reflexivity.
Qed.

Lemma logRequest_frame (s : Db.State) req ev fid ex :
  let s' := Logging.logRequest s req ev fid ex in
  Db.files s' = Db.files s /\ Db.users s' = Db.users s
  /\ Db.disk s' = Db.disk s /\ Db.downloadHits s' = Db.downloadHits s
  /\ Db.uploadHits s' = Db.uploadHits s /\ Db.authHits s' = Db.authHits s.
Proof. apply logEvent_frame. Qed.

Lemma logRequest_files (s : Db.State) req ev fid ex :
  Db.files (Logging.logRequest s req ev fid ex) = Db.files s.
Proof. apply logRequest_frame. Qed.

Lemma logRequest_disk (s : Db.State) req ev fid ex :
  Db.disk (Logging.logRequest s req ev fid ex) = Db.disk s.
Proof. apply logRequest_frame. Qed.

(** An event is appended, or the log is left as it was; no row is changed. *)
Lemma logRequest_logs (s : Db.State) req ev fid ex :
  Db.logs (Logging.logRequest s req ev fid ex) = Db.logs s
  \/ exists l, Log.eventType l = ev
               /\ Db.logs (Logging.logRequest s req ev fid ex)
                  = Db.logs s ++ [l].
Proof.
  unfold Logging.logRequest, Logging.logEvent, Db.insertLog. cbn [Log.fileId].
  destruct (Js.orElse fid None) as [x |]; [destruct (Db.files s !! x) |];
    first [ left; reflexivity
          | right; eexists; split; [| reflexivity]; reflexivity ].
Qed.

End Frames.

(** ** Owner deletion *)

Section Ownership.

Lemma delete_not_owner (E : Http.Env) (s : Db.State) req fid user f :
  AuthMw.authenticateToken E req = inr user ->
  Db.files s !! fid = Some f ->
  File.ownerId f <> AuthMw.id user ->
  MyFiles.delete E s req fid
  = (s, Http.json 404
          (Http.Error "File not found or you do not own this file")).
Proof.
  intros Ha Hf Hne. unfold MyFiles.delete. rewrite Ha, Hf.
  destruct (String.eqb_spec (File.ownerId f) (AuthMw.id user));
    [contradiction | reflexivity].
Qed.

Lemma delete_missing (E : Http.Env) (s : Db.State) req fid user :
  AuthMw.authenticateToken E req = inr user ->
  Db.files s !! fid = None ->
  MyFiles.delete E s req fid
  = (s, Http.json 404
          (Http.Error "File not found or you do not own this file")).
Proof.
  intros Ha Hf. unfold MyFiles.delete. rewrite Ha, Hf. reflexivity.
Qed.

End Ownership.

(** C4, as amended: a requester who is authenticated and is not the owner of
    an existing record gets the answer 404 (not found) from the owner-delete
    route, the answer it gives for an absent id, and the state (the record,
    its bytes and everything else) is left as it was. *)
Theorem C4_delete_by_non_owner_refused
        (E : Http.Env) (s : Db.State) req fid user f :
  AuthMw.authenticateToken E req = inr user ->
  Db.files s !! fid = Some f ->
  File.ownerId f <> AuthMw.id user ->
  Spec.outcome (snd (MyFiles.delete E s req fid)) = Spec.NotFound
  /\ fst (MyFiles.delete E s req fid) = s
  /\ Db.files (fst (MyFiles.delete E s req fid)) !! fid = Some f
  /\ Db.disk (fst (MyFiles.delete E s req fid)) = Db.disk s.
Proof.
  intros Ha Hf Hne. rewrite (delete_not_owner E s req fid user f Ha Hf Hne).
  cbn [fst snd]. repeat split; assumption || reflexivity.
Qed.

Lemma C4_delete_by_non_owner_refused_witness :
  Spec.outcome
    (snd (MyFiles.delete Scenario.env (Scenario.uploadBy None)
            (Scenario.asBob Scenario.t0) Scenario.fid)) = Spec.NotFound
  /\ fst (MyFiles.delete Scenario.env (Scenario.uploadBy None)
            (Scenario.asBob Scenario.t0) Scenario.fid)
     = Scenario.uploadBy None
  /\ Db.files
       (fst (MyFiles.delete Scenario.env (Scenario.uploadBy None)
               (Scenario.asBob Scenario.t0) Scenario.fid)) !! Scenario.fid
     = Some (Scenario.aliceFile (Scenario.t0 + 86400000))
  /\ Db.disk
       (fst (MyFiles.delete Scenario.env (Scenario.uploadBy None)
               (Scenario.asBob Scenario.t0) Scenario.fid))
     = Db.disk (Scenario.uploadBy None).
Proof.
  apply (C4_delete_by_non_owner_refused Scenario.env (Scenario.uploadBy None)
           (Scenario.asBob Scenario.t0) Scenario.fid Scenario.bob
           (Scenario.aliceFile (Scenario.t0 + 86400000))).
  - vm_compute. reflexivity.
  - vm_compute. reflexivity.
  - vm_compute. intros H. discriminate H.
Defined.

(** C4 as stated fails: Bob, authenticated, deletes the file of Alice and the
    answer is not a Forbidden one. *)
Lemma C4_counterexample :
  Db.files (Scenario.uploadBy None) !! Scenario.fid
  = Some (Scenario.aliceFile (Scenario.t0 + 86400000))
  /\ AuthMw.authenticateToken Scenario.env (Scenario.asBob Scenario.t0)
     = inr Scenario.bob
  /\ File.ownerId (Scenario.aliceFile (Scenario.t0 + 86400000))
     <> AuthMw.id Scenario.bob
  /\ Http.status
       (snd (MyFiles.delete Scenario.env (Scenario.uploadBy None)
               (Scenario.asBob Scenario.t0) Scenario.fid)) = 404
  /\ Spec.outcome
       (snd (MyFiles.delete Scenario.env (Scenario.uploadBy None)
               (Scenario.asBob Scenario.t0) Scenario.fid))
     <> Spec.Forbidden.
Proof.
  vm_compute. repeat split; try reflexivity; intros H; discriminate H.
Qed.

(** C10: on the owner-delete route, a requester who does not own an existing
    file gets exactly the response, and leaves exactly the state, that the
    same requester gets for an id with no record. *)
Theorem C10_delete_does_not_reveal_existence
        (E : Http.Env) (s : Db.State) req fid fid' user f :
  AuthMw.authenticateToken E req = inr user ->
  Db.files s !! fid = Some f ->
  File.ownerId f <> AuthMw.id user ->
  Db.files s !! fid' = None ->
  MyFiles.delete E s req fid = MyFiles.delete E s req fid'
  /\ fst (MyFiles.delete E s req fid) = s
  /\ fst (MyFiles.delete E s req fid') = s.
Proof.
  intros Ha Hf Hne Hnone.
  rewrite (delete_not_owner E s req fid user f Ha Hf Hne).
  rewrite (delete_missing E s req fid' user Ha Hnone).
  repeat split; reflexivity.
Qed.

Lemma C10_delete_does_not_reveal_existence_witness :
  MyFiles.delete Scenario.env (Scenario.uploadBy None)
    (Scenario.asBob Scenario.t0) Scenario.fid
  = MyFiles.delete Scenario.env (Scenario.uploadBy None)
      (Scenario.asBob Scenario.t0) Scenario.otherFid
  /\ fst (MyFiles.delete Scenario.env (Scenario.uploadBy None)
            (Scenario.asBob Scenario.t0) Scenario.fid)
     = Scenario.uploadBy None
  /\ fst (MyFiles.delete Scenario.env (Scenario.uploadBy None)
            (Scenario.asBob Scenario.t0) Scenario.otherFid)
     = Scenario.uploadBy None.
Proof.
  apply (C10_delete_does_not_reveal_existence Scenario.env
           (Scenario.uploadBy None) (Scenario.asBob Scenario.t0)
           Scenario.fid Scenario.otherFid Scenario.bob
           (Scenario.aliceFile (Scenario.t0 + 86400000))).
  - vm_compute. reflexivity.
  - vm_compute. reflexivity.
  - vm_compute. intros H. discriminate H.
  - vm_compute. reflexivity.
Defined.

(** ** The blob route *)

Section BlobRoute.

Lemma getBlob_refused (E : Http.Env) (s : Db.State) req fid :
  Spec.downloadRefused E s req = true ->
  FileRoutes.getBlob E s req fid
  = (Db.setDownloadHits s
       (fst (RateLimit.consume (RateLimit.downloadLimiter E)
               (Db.downloadHits s) (RateLimit.keyGenerator req)
               (Http.now req))),
     RateLimit.refuse (RateLimit.downloadLimiter E)).
Proof.
  unfold FileRoutes.getBlob, Spec.downloadRefused.
  destruct (RateLimit.consume _ _ _ _) as [hits refused]. cbn [fst snd].
  intros ->. reflexivity.
Qed.

Lemma getBlob_admitted (E : Http.Env) (s : Db.State) req fid :
  Spec.downloadRefused E s req = false ->
  FileRoutes.getBlob E s req fid
  = FileRoutes.blobHandler E
      (Db.setDownloadHits s
         (fst (RateLimit.consume (RateLimit.downloadLimiter E)
                 (Db.downloadHits s) (RateLimit.keyGenerator req)
                 (Http.now req))))
      req fid.
Proof.
  unfold FileRoutes.getBlob, Spec.downloadRefused.
  destruct (RateLimit.consume _ _ _ _) as [hits refused]. cbn [fst snd].
  intros ->. reflexivity.
Qed.

Lemma blobHandler_not_found (E : Http.Env) (s : Db.State) req fid :
  Js.uuidRegexTest fid = true ->
  Db.files s !! fid = None ->
  snd (FileRoutes.blobHandler E s req fid)
  = Http.json 404 (Http.Error "File not found").
Proof.
  intros Hu Hf. unfold FileRoutes.blobHandler. rewrite Hu, Hf. reflexivity.
Qed.

Lemma blobHandler_expired (E : Http.Env) (s : Db.State) req fid f :
  Js.uuidRegexTest fid = true ->
  Db.files s !! fid = Some f ->
  File.expiryTime f < Http.now req ->
  snd (FileRoutes.blobHandler E s req fid)
  = Http.json 410 (Http.Error "File has expired").
Proof.
  intros Hu Hf Hlt. unfold FileRoutes.blobHandler. rewrite Hu, Hf.
  cbn [negb]. apply Z.ltb_lt in Hlt. rewrite Hlt. reflexivity.
Qed.

Lemma blobHandler_served (E : Http.Env) (s : Db.State) req fid f data :
  Js.uuidRegexTest fid = true ->
  Db.files s !! fid = Some f ->
  Http.now req <= File.expiryTime f ->
  Db.disk s !! File.path f = Some data ->
  Http.status (snd (FileRoutes.blobHandler E s req fid)) = 200.
Proof.
  intros Hu Hf Hle Hd. unfold FileRoutes.blobHandler. rewrite Hu, Hf.
  cbn [negb]. apply Z.ltb_ge in Hle. rewrite Hle, Hd. reflexivity.
Qed.

End BlobRoute.

(** ** The upload route *)

Section UploadRoute.

Lemma authenticate_rejected (E : Http.Env) req r :
  AuthMw.authenticateToken E req = inl r ->
  Http.status r = 401 \/ Http.status r = 403.
Proof.
  unfold AuthMw.authenticateToken.
  destruct (negb (Js.truthy (AuthMw.bearerToken req))).
  - intros [= <-]. left. reflexivity.
  - destruct (AuthMw.bearerToken req) as [t |].
    + destruct (Http.jwtVerify E t) as [[i e] |]; intros [= <-].
      right. reflexivity.
    + intros [= <-]. left. reflexivity.
Qed.

(** A 201 answer of the upload route: who uploaded, with which time to
    live, and the row that was committed. *)
Lemma post_created (E : Http.Env) (s0 s : Db.State) req form fid r :
  Upload.post E s0 req form fid = (s, r) ->
  Http.status r = 201 ->
  exists user buffer h,
    AuthMw.authenticateToken E req = inr user
    /\ Upload.file form = Some buffer
    /\ Upload.hoursUntilExpiry E form = Some h
    /\ Db.files s0 !! fid = None
    /\ Db.files s
       = <[fid := Upload.record E user form fid buffer (Http.now req)
                    (Http.now req + h * 60 * 60 * 1000)]> (Db.files s0).
Proof.
  intros H Hst. unfold Upload.post in H.
  destruct (AuthMw.authenticateToken E req) as [r0 | user] eqn:Ha.
  { injection H as <- <-.
    destruct (authenticate_rejected _ _ _ Ha) as [X | X];
      rewrite X in Hst; discriminate Hst. }
  destruct (RateLimit.consume _ _ _ _) as [hits refused].
  destruct refused.
  { injection H as <- <-. discriminate Hst. }
  destruct (Upload.file form) as [buffer |] eqn:Hfile.
  2:{ unfold Upload.handler in H. rewrite Hfile in H.
      injection H as <- <-. discriminate Hst. }
  destruct (_ <? _).
  { injection H as <- <-. discriminate Hst. }
  unfold Upload.handler in H. rewrite Hfile in H.
  destruct (negb (Js.truthy (Upload.iv form)) || _ || _).
  { injection H as <- <-. discriminate Hst. }
  cbv zeta in H. unfold Upload.expiryDate, Dates.newDate in H.
  destruct (Upload.hoursUntilExpiry E form) as [h |] eqn:Hh.
  2:{ injection H as <- <-. discriminate Hst. }
  destruct ((- Dates.maxTime <=? _) && _).
  2:{ injection H as <- <-. discriminate Hst. }
  unfold Db.insertFile in H. cbn [File.id File.ownerId Upload.record] in H.
  cbn [Db.files Db.users Db.writeFile Db.setDisk Db.setUploadHits] in H.
  destruct (Db.files s0 !! fid) eqn:Hnone.
  { injection H as <- <-. discriminate Hst. }
  destruct (Db.users s0 !! AuthMw.id user).
  2:{ injection H as <- <-. discriminate Hst. }
  injection H as <- <-.
  exists user, buffer, h. repeat split; try assumption; try reflexivity.
  rewrite logRequest_files. reflexivity.
Qed.

End UploadRoute.

(** ** Lookup for download, and the expiry of a new record *)

(** C3, as amended: for an id of the UUID shape and a request the limiter
    admits, the blob route answers NotFound (404) when no record has the id,
    and Expired (410), which is another outcome, when the record has
    [expiryTime < now].  A record committed with a time to live of 0 hours has
    [expiryTime = createdAt], so the next download is Expired as soon as the
    clock has moved past the instant of the upload. *)
Theorem C3_blob_not_found_or_expired
        (E : Http.Env) (s : Db.State) req fid :
  Js.uuidRegexTest fid = true ->
  Spec.downloadRefused E s req = false ->
  (Db.files s !! fid = None ->
   Spec.outcome (snd (FileRoutes.getBlob E s req fid)) = Spec.NotFound)
  /\ (forall f, Db.files s !! fid = Some f ->
                File.expiryTime f < Http.now req ->
                Spec.outcome (snd (FileRoutes.getBlob E s req fid))
                = Spec.Expired)
  /\ Spec.Expired <> Spec.NotFound
  /\ (forall s0 up form r x,
         Upload.post E s0 up form fid = (s, r) ->
         Http.status r = 201 ->
         Upload.expiresIn form = Some x ->
         Js.truthy (Some x) = true ->
         Js.parseInt x = Some 0 ->
         exists f,
           Db.files s !! fid = Some f
           /\ File.expiryTime f = File.createdAt f
           /\ File.createdAt f = Http.now up
           /\ (Http.now up < Http.now req ->
               Spec.outcome (snd (FileRoutes.getBlob E s req fid))
               = Spec.Expired)).
Proof.
  intros Hu Hadm. rewrite (getBlob_admitted E s req fid Hadm).
  set (s1 := Db.setDownloadHits s _).
  assert (Hfiles : Db.files s1 = Db.files s) by reflexivity.
  assert (Hexp : forall f, Db.files s !! fid = Some f ->
                           File.expiryTime f < Http.now req ->
                           Spec.outcome (snd (FileRoutes.blobHandler E s1 req fid))
                           = Spec.Expired).
  { intros f Hf Hlt.
    rewrite (blobHandler_expired E s1 req fid f Hu); [reflexivity | | exact Hlt].
    rewrite Hfiles. exact Hf. }
  split; [| split; [exact Hexp | split; [discriminate |]]].
  - intros Hf. rewrite (blobHandler_not_found E s1 req fid Hu); [reflexivity |].
    rewrite Hfiles. exact Hf.
  - intros s0 up form r x Hpost Hst Hx Htruthy Hparse.
    destruct (post_created E s0 s up form fid r Hpost Hst)
      as (user & buffer & h & _ & _ & Hh & _ & Hs).
    unfold Upload.hoursUntilExpiry in Hh. rewrite Hx, Htruthy, Hparse in Hh.
    injection Hh as <-.
    eexists. split; [rewrite Hs; apply lookup_insert_eq |].
    cbn [File.expiryTime File.createdAt Upload.record].
    split; [lia | split; [reflexivity |]].
    intros Hlt. apply (Hexp _ ltac:(rewrite Hs; apply lookup_insert_eq)).
    cbn [File.expiryTime Upload.record]. lia.
Qed.

Lemma C3_blob_not_found_or_expired_witness :
  Js.uuidRegexTest Scenario.fid = true
  /\ Spec.downloadRefused Scenario.env (Scenario.uploadBy (Some "0"%string))
       (Scenario.anonymous (Scenario.t0 + 1)) = false
  /\ Db.files (Scenario.uploadBy (Some "0"%string)) !! Scenario.fid
     = Some (Scenario.aliceFile Scenario.t0)
  /\ Spec.outcome
       (snd (FileRoutes.getBlob Scenario.env
               (Scenario.uploadBy (Some "0"%string))
               (Scenario.anonymous (Scenario.t0 + 1)) Scenario.fid))
     = Spec.Expired.
Proof.
  assert (H1 : Js.uuidRegexTest Scenario.fid = true)
    by (vm_compute; reflexivity).
  assert (H2 : Spec.downloadRefused Scenario.env
                 (Scenario.uploadBy (Some "0"%string))
                 (Scenario.anonymous (Scenario.t0 + 1)) = false)
    by (vm_compute; reflexivity).
  assert (H3 : Db.files (Scenario.uploadBy (Some "0"%string)) !! Scenario.fid
               = Some (Scenario.aliceFile Scenario.t0))
    by (vm_compute; reflexivity).
  split; [exact H1 | split; [exact H2 | split; [exact H3 |]]].
  apply (proj1 (proj2 (C3_blob_not_found_or_expired Scenario.env
                         (Scenario.uploadBy (Some "0"%string))
                         (Scenario.anonymous (Scenario.t0 + 1))
                         Scenario.fid H1 H2))
           (Scenario.aliceFile Scenario.t0) H3).
  vm_compute. reflexivity.
Defined.

(** C3 as stated fails at [expiryTime = now]: the record uploaded with a time
    to live of 0 hours exists, its expiry is not after the clock of a
    download made in the same millisecond, and that download is served. *)
Lemma C3_counterexample :
  Db.files (Scenario.uploadBy (Some "0"%string)) !! Scenario.fid
  = Some (Scenario.aliceFile Scenario.t0)
  /\ File.expiryTime (Scenario.aliceFile Scenario.t0)
     <= Http.now (Scenario.anonymous Scenario.t0)
  /\ Http.status
       (snd (FileRoutes.getBlob Scenario.env
               (Scenario.uploadBy (Some "0"%string))
               (Scenario.anonymous Scenario.t0) Scenario.fid)) = 200
  /\ Spec.outcome
       (snd (FileRoutes.getBlob Scenario.env
               (Scenario.uploadBy (Some "0"%string))
               (Scenario.anonymous Scenario.t0) Scenario.fid))
     <> Spec.Expired.
Proof.
  vm_compute. repeat split; try reflexivity; intros H; discriminate H.
Qed.

(** C8, as amended: a record committed by the upload route has
    [createdAt] equal to the clock of the request and
    [expiryTime = createdAt + h * 3 600 000], where [h] is [parseInt] of the
    field [expiresIn] when that field is present and not empty, and the
    configured default otherwise; so [expiryTime > createdAt] holds exactly
    when [h] is positive. *)
Theorem C8_expiry_after_creation_iff_positive_ttl
        (E : Http.Env) (s0 s : Db.State) req form fid r :
  Upload.post E s0 req form fid = (s, r) ->
  Http.status r = 201 ->
  exists f h,
    Db.files s !! fid = Some f
    /\ Upload.hoursUntilExpiry E form = Some h
    /\ (Js.truthy (Upload.expiresIn form) = false ->
        Http.DEFAULT_EXPIRY_HOURS E = Some h)
    /\ File.createdAt f = Http.now req
    /\ File.expiryTime f = File.createdAt f + h * 60 * 60 * 1000
    /\ (File.createdAt f < File.expiryTime f <-> 0 < h).
Proof.
  intros Hpost Hst.
  destruct (post_created E s0 s req form fid r Hpost Hst)
    as (user & buffer & h & _ & _ & Hh & _ & Hs).
  eexists. exists h.
  split; [rewrite Hs; apply lookup_insert_eq |].
  split; [exact Hh |].
  split.
  { intros Hf. unfold Upload.hoursUntilExpiry in Hh. rewrite Hf in Hh.
    exact Hh. }
  cbn [File.expiryTime File.createdAt Upload.record].
  repeat split; lia.
Qed.

Lemma C8_expiry_after_creation_iff_positive_ttl_witness :
  Upload.post Scenario.env Scenario.registered (Scenario.asAlice Scenario.t0)
    (Scenario.form None) Scenario.fid
  = (Scenario.uploadBy None,
     Http.json 201 (Http.Uploaded Scenario.fid "2026-11-02T12:00:00.000Z"))
  /\ exists f h,
      Db.files (Scenario.uploadBy None) !! Scenario.fid = Some f
      /\ Upload.hoursUntilExpiry Scenario.env (Scenario.form None) = Some h
      /\ (Js.truthy (Upload.expiresIn (Scenario.form None)) = false ->
          Http.DEFAULT_EXPIRY_HOURS Scenario.env = Some h)
      /\ File.createdAt f = Http.now (Scenario.asAlice Scenario.t0)
      /\ File.expiryTime f = File.createdAt f + h * 60 * 60 * 1000
      /\ (File.createdAt f < File.expiryTime f <-> 0 < h).
Proof.
  assert (H : Upload.post Scenario.env Scenario.registered
                (Scenario.asAlice Scenario.t0) (Scenario.form None)
                Scenario.fid
              = (Scenario.uploadBy None,
                 Http.json 201
                   (Http.Uploaded Scenario.fid "2026-11-02T12:00:00.000Z")))
    by (vm_compute; reflexivity).
  split; [exact H |].
  exact (C8_expiry_after_creation_iff_positive_ttl Scenario.env
           Scenario.registered (Scenario.uploadBy None)
           (Scenario.asAlice Scenario.t0) (Scenario.form None) Scenario.fid
           _ H eq_refl).
Defined.

(** C8 as stated fails for [expiresIn = 0]: the upload is accepted and the
    committed record has [expiryTime = createdAt]. *)
Lemma C8_counterexample :
  Http.status
    (snd (Upload.post Scenario.env Scenario.registered
            (Scenario.asAlice Scenario.t0) (Scenario.form (Some "0"%string))
            Scenario.fid)) = 201
  /\ Db.files
       (fst (Upload.post Scenario.env Scenario.registered
               (Scenario.asAlice Scenario.t0)
               (Scenario.form (Some "0"%string)) Scenario.fid))
       !! Scenario.fid
     = Some (Scenario.aliceFile Scenario.t0)
  /\ File.expiryTime (Scenario.aliceFile Scenario.t0)
     = File.createdAt (Scenario.aliceFile Scenario.t0)
  /\ ~ (File.createdAt (Scenario.aliceFile Scenario.t0)
        < File.expiryTime (Scenario.aliceFile Scenario.t0)).
Proof.
  vm_compute. repeat split; try reflexivity; intros H; discriminate H.
Qed.

(** ** Rate limiting of the retrieval routes *)

Section Limits.

Lemma getMetadata_hits (E : Http.Env) (s : Db.State) req fid :
  Db.downloadHits (fst (FileRoutes.getMetadata E s req fid))
  = Db.downloadHits s.
Proof.
  unfold FileRoutes.getMetadata.
  destruct (negb (Js.uuidRegexTest fid)); [reflexivity |].
  destruct (Db.files s !! fid); [reflexivity |].
  cbn [fst]. apply logRequest_frame.
Qed.

Lemma getMetadata_status (E : Http.Env) (s : Db.State) req fid :
  Http.status (snd (FileRoutes.getMetadata E s req fid)) = 400
  \/ Http.status (snd (FileRoutes.getMetadata E s req fid)) = 404
  \/ Http.status (snd (FileRoutes.getMetadata E s req fid)) = 200.
Proof.
  unfold FileRoutes.getMetadata.
  destruct (negb (Js.uuidRegexTest fid)); [left; reflexivity |].
  destruct (Db.files s !! fid); [right; right | right; left]; reflexivity.
Qed.

(** A refused download: the answer, and what is left alone. *)
Lemma getBlob_refused_frame (E : Http.Env) (s : Db.State) req fid :
  Spec.downloadRefused E s req = true ->
  Spec.outcome (snd (FileRoutes.getBlob E s req fid)) = Spec.RateLimited
  /\ Db.files (fst (FileRoutes.getBlob E s req fid)) = Db.files s
  /\ Db.disk (fst (FileRoutes.getBlob E s req fid)) = Db.disk s
  /\ Db.logs (fst (FileRoutes.getBlob E s req fid)) = Db.logs s.
Proof.
  intros H. rewrite (getBlob_refused E s req fid H).
  repeat split; reflexivity.
Qed.

End Limits.

(** The window of the limiter: after one hundred admitted downloads the
    next one inside the window is refused, and one made when the window has
    elapsed is admitted again. *)
Example download_window :
  Spec.downloadRefused Scenario.env (Scenario.uploadBy None)
    (Scenario.anonymous (Scenario.t0 + 1)) = false
  /\ Spec.downloadRefused Scenario.env Scenario.busy
       (Scenario.anonymous (Scenario.t0 + 900000)) = true
  /\ Spec.downloadRefused Scenario.env Scenario.busy
       (Scenario.anonymous (Scenario.t0 + 1 + 900000)) = false.
Proof. vm_compute. repeat split; reflexivity. Qed.

(** C6, evaluated where the code departs from it: after one hundred
    downloads from one address the next download from that address, inside
    the window, is over the ceiling of 100.  It is answered RateLimited and
    neither the records nor the stored bytes are touched, but no event is
    appended to the log: the log is the one of before, and holds no
    RATE_LIMITED event. *)
Theorem C6_refused_download_is_not_logged :
  Spec.downloadRefused Scenario.env Scenario.busy
    (Scenario.anonymous (Scenario.t0 + 1)) = true
  /\ Spec.outcome
       (snd (FileRoutes.getBlob Scenario.env Scenario.busy
               (Scenario.anonymous (Scenario.t0 + 1)) Scenario.fid))
     = Spec.RateLimited
  /\ Db.files
       (fst (FileRoutes.getBlob Scenario.env Scenario.busy
               (Scenario.anonymous (Scenario.t0 + 1)) Scenario.fid))
     = Db.files Scenario.busy
  /\ Db.disk
       (fst (FileRoutes.getBlob Scenario.env Scenario.busy
               (Scenario.anonymous (Scenario.t0 + 1)) Scenario.fid))
     = Db.disk Scenario.busy
  /\ Db.logs
       (fst (FileRoutes.getBlob Scenario.env Scenario.busy
               (Scenario.anonymous (Scenario.t0 + 1)) Scenario.fid))
     = Db.logs Scenario.busy
  /\ List.existsb Spec.rateLimitedEvent
       (Db.logs
          (fst (FileRoutes.getBlob Scenario.env Scenario.busy
                  (Scenario.anonymous (Scenario.t0 + 1)) Scenario.fid)))
     = false.
Proof.
  assert (H : Spec.downloadRefused Scenario.env Scenario.busy
                (Scenario.anonymous (Scenario.t0 + 1)) = true)
    by (vm_compute; reflexivity).
  destruct (getBlob_refused_frame Scenario.env Scenario.busy
              (Scenario.anonymous (Scenario.t0 + 1)) Scenario.fid H)
    as (Hout & Hfiles & Hdisk & Hlogs).
  split; [exact H |].
  split; [exact Hout |].
  split; [exact Hfiles |].
  split; [exact Hdisk |].
  split; [exact Hlogs |].
  rewrite Hlogs. vm_compute. reflexivity.
Qed.

(** C7, as amended: the metadata route and the blob route do not look at the
    identity of the caller (the answer and the new state are the same under
    any [authorization] header); the blob route is behind the download
    limiter, so a request over the ceiling is answered RateLimited and
    changes neither records, bytes nor log; the metadata route is behind no
    limiter: it never answers RateLimited and leaves the counters alone. *)
Theorem C7_retrieval_public_and_blob_limited
        (E : Http.Env) (s : Db.State) req fid :
  (forall a,
      FileRoutes.getMetadata E s (Spec.withAuthorization a req) fid
      = FileRoutes.getMetadata E s req fid)
  /\ (forall a,
         FileRoutes.getBlob E s (Spec.withAuthorization a req) fid
         = FileRoutes.getBlob E s req fid)
  /\ (Spec.downloadRefused E s req = true ->
      Spec.outcome (snd (FileRoutes.getBlob E s req fid)) = Spec.RateLimited
      /\ Db.files (fst (FileRoutes.getBlob E s req fid)) = Db.files s
      /\ Db.disk (fst (FileRoutes.getBlob E s req fid)) = Db.disk s
      /\ Db.logs (fst (FileRoutes.getBlob E s req fid)) = Db.logs s)
  /\ Spec.outcome (snd (FileRoutes.getMetadata E s req fid))
     <> Spec.RateLimited
  /\ Db.downloadHits (fst (FileRoutes.getMetadata E s req fid))
     = Db.downloadHits s.
Proof.
  split; [intros a; reflexivity |].
  split; [intros a; reflexivity |].
  split.
  { apply getBlob_refused_frame. }
  split; [| apply getMetadata_hits].
  unfold Spec.outcome.
  destruct (getMetadata_status E s req fid) as [H | [H | H]];
    rewrite H; discriminate.
Qed.

(** C7 as stated fails on the metadata route: from the address that is over
    the download ceiling, inside the window, the blob route answers
    RateLimited and the metadata route still answers with the metadata. *)
Lemma C7_counterexample :
  Spec.downloadRefused Scenario.env Scenario.busy
    (Scenario.anonymous (Scenario.t0 + 1)) = true
  /\ Spec.outcome
       (snd (FileRoutes.getBlob Scenario.env Scenario.busy
               (Scenario.anonymous (Scenario.t0 + 1)) Scenario.fid))
     = Spec.RateLimited
  /\ Spec.outcome
       (snd (FileRoutes.getMetadata Scenario.env Scenario.busy
               (Scenario.anonymous (Scenario.t0 + 1)) Scenario.fid))
     = Spec.Ok
  /\ Spec.Ok <> Spec.RateLimited.
Proof.
  vm_compute. repeat split; try reflexivity; intros H; discriminate H.
Qed.

(** ** What each call does to the table of files *)

Section FilesTable.

Ltac route_cases :=
  repeat match goal with
    | |- context [match ?x with _ => _ end] =>
        lazymatch x with
        | context [match _ with _ => _ end] => fail
        | _ => destruct x eqn:?
        end
    end.

Ltac frame_simpl :=
  cbn [fst snd Db.files Db.users Db.disk Db.setFiles Db.setUsers Db.setLogs
       Db.setDisk Db.setDownloadHits Db.setUploadHits Db.setAuthHits
       Db.writeFile Db.deleteFile Db.incrementDownloads];
  rewrite ?logRequest_files;
  cbn [fst snd Db.files Db.users Db.disk Db.setFiles Db.setUsers Db.setLogs
       Db.setDisk Db.setDownloadHits Db.setUploadHits Db.setAuthHits
       Db.writeFile Db.deleteFile Db.incrementDownloads].

Lemma register_files (E : Http.Env) (s : Db.State) req e p uid :
  Db.files (fst (AuthRoutes.register E s req e p uid)) = Db.files s.
Proof.
  unfold AuthRoutes.register, Db.insertUser. route_cases; frame_simpl;
    reflexivity.
Qed.

Lemma login_files (E : Http.Env) (s : Db.State) req e p :
  Db.files (fst (AuthRoutes.login E s req e p)) = Db.files s.
Proof.
  unfold AuthRoutes.login, AuthRoutes.loginHandler.
  route_cases; frame_simpl; reflexivity.
Qed.

Lemma getMetadata_files (E : Http.Env) (s : Db.State) req fid :
  Db.files (fst (FileRoutes.getMetadata E s req fid)) = Db.files s.
Proof.
  unfold FileRoutes.getMetadata. route_cases; frame_simpl; reflexivity.
Qed.

Lemma list_files (E : Http.Env) (s : Db.State) req :
  Db.files (fst (MyFiles.list E s req)) = Db.files s.
Proof. unfold MyFiles.list. route_cases; reflexivity. Qed.

Lemma unlink_files (s : Db.State) p :
  Db.files (match Db.unlinkSync s p with inr s' => s' | inl _ => s end)
  = Db.files s.
Proof. unfold Db.unlinkSync. destruct (Db.disk s !! p); reflexivity. Qed.

Lemma delete_files (E : Http.Env) (s : Db.State) req fid :
  Db.files (fst (MyFiles.delete E s req fid)) = Db.files s
  \/ Db.files (fst (MyFiles.delete E s req fid)) = delete fid (Db.files s).
Proof.
  unfold MyFiles.delete.
  destruct (AuthMw.authenticateToken E req) as [r | user]; [left; reflexivity |].
  destruct (Db.files s !! fid) as [f |]; [| left; reflexivity].
  destruct (String.eqb (File.ownerId f) (AuthMw.id user)); [| left; reflexivity].
  right. frame_simpl. rewrite unlink_files. reflexivity.
Qed.

Lemma post_files (E : Http.Env) (s : Db.State) req form fid :
  Db.files (fst (Upload.post E s req form fid)) = Db.files s
  \/ (Db.files s !! fid = None
      /\ exists row, File.downloadCount row = 0
                     /\ File.id row = fid
                     /\ Db.files (fst (Upload.post E s req form fid))
                        = <[fid := row]> (Db.files s)).
Proof.
  unfold Upload.post.
  destruct (AuthMw.authenticateToken E req) as [r | user]; [left; reflexivity |].
  destruct (RateLimit.consume _ _ _ _) as [hits refused].
  destruct refused; [left; reflexivity |].
  destruct (match Upload.file form with Some _ => _ | None => _ end);
    [left; reflexivity |].
  unfold Upload.handler.
  destruct (Upload.file form) as [buffer |]; [| left; frame_simpl; reflexivity].
  destruct (negb _ || _ || _); [left; frame_simpl; reflexivity |].
  cbv zeta.
  destruct (Upload.expiryDate _ _) as [expiry |];
    [| left; frame_simpl; reflexivity].
  unfold Db.insertFile. cbn [File.id File.ownerId Upload.record].
  frame_simpl.
  destruct (Db.files s !! fid) eqn:Hnone; [left; frame_simpl; reflexivity |].
  destruct (Db.users s !! AuthMw.id user); [| left; frame_simpl; reflexivity].
  right. split; [reflexivity |]. eexists.
  split; [| split; [| frame_simpl; reflexivity]]; reflexivity.
Qed.

Lemma getBlob_files (E : Http.Env) (s : Db.State) req fid :
  (Http.status (snd (FileRoutes.getBlob E s req fid)) = 200
   /\ (exists f, Db.files s !! fid = Some f)
   /\ Db.files (fst (FileRoutes.getBlob E s req fid))
      = alter File.downloaded fid (Db.files s))
  \/ (Http.status (snd (FileRoutes.getBlob E s req fid)) <> 200
      /\ Db.files (fst (FileRoutes.getBlob E s req fid)) = Db.files s).
Proof.
  unfold FileRoutes.getBlob.
  destruct (RateLimit.consume _ _ _ _) as [hits refused].
  destruct refused; [right; split; [discriminate | reflexivity] |].
  unfold FileRoutes.blobHandler. frame_simpl.
  destruct (negb (Js.uuidRegexTest fid));
    [right; split; [discriminate | reflexivity] |].
  destruct (Db.files s !! fid) as [f |] eqn:Hf;
    [| right; split; [discriminate | frame_simpl; reflexivity]].
  destruct (File.expiryTime f <? Http.now req);
    [right; split; [discriminate | frame_simpl; reflexivity] |].
  frame_simpl.
  destruct (Db.disk s !! File.path f);
    [| right; split; [discriminate | reflexivity]].
  left. split; [reflexivity |]. split; [eauto |]. frame_simpl. reflexivity.
Qed.

Lemma shrinks_refl (m : gmap string File.EncryptedFile) : Spec.shrinks m m.
Proof. intros k. right. reflexivity. Qed.

Lemma shrinks_delete (m m' : gmap string File.EncryptedFile) (x : string) :
  Spec.shrinks m m' -> Spec.shrinks m (delete x m').
Proof.
  intros H k. destruct (decide (x = k)) as [-> | Hne].
  - left. apply lookup_delete_eq.
  - rewrite lookup_delete_ne by exact Hne. apply H.
Qed.

Lemma deleteOne_files (file : File.EncryptedFile) (s : Db.State) (c : Z * Z) :
  Db.files (fst (Cleanup.deleteOne file (s, c)))
  = delete (File.id file) (Db.files s).
Proof.
  unfold Cleanup.deleteOne. destruct c as [d e]. frame_simpl.
  rewrite unlink_files. reflexivity.
Qed.

Lemma cleanup_fold_shrinks (l : list File.EncryptedFile)
      (m : gmap string File.EncryptedFile) (acc : Db.State * (Z * Z)) :
  Spec.shrinks m (Db.files (fst acc)) ->
  Spec.shrinks m
    (Db.files (fst (fold_left (fun a file => Cleanup.deleteOne file a) l acc))).
Proof.
  revert acc. induction l as [| file l IH]; intros acc H; [exact H |].
  cbn [fold_left]. apply IH. destruct acc as [s c].
  rewrite deleteOne_files. apply shrinks_delete. exact H.
Qed.

Lemma cleanup_files (s : Db.State) (now : Z) :
  Spec.shrinks (Db.files s)
    (Db.files (fst (Cleanup.cleanupExpiredFiles s now))).
Proof.
  unfold Cleanup.cleanupExpiredFiles. apply cleanup_fold_shrinks.
  apply shrinks_refl.
Qed.

End FilesTable.

(** ** The download counter *)

Section Counter.

Lemma countStep_shrinks (m m' : gmap string File.EncryptedFile) fid :
  Spec.shrinks m m' -> Spec.countStep m m' false fid.
Proof.
  intros H. split.
  - intros f Hf. split; [discriminate |]. intros _.
    destruct (H fid) as [Hk | Hk]; [left; exact Hk |].
    right. rewrite Hk. exact Hf.
  - intros Hnone f' Hf'. destruct (H fid) as [Hk | Hk]; congruence.
Qed.

Lemma countStep_same (m m' : gmap string File.EncryptedFile) fid :
  m' = m -> Spec.countStep m m' false fid.
Proof. intros ->. apply countStep_shrinks. intros k. right. reflexivity. Qed.

Lemma countStep_insert (m m' : gmap string File.EncryptedFile) k row fid :
  m !! k = None -> File.downloadCount row = 0 -> m' = <[k := row]> m ->
  Spec.countStep m m' false fid.
Proof.
  intros Hk Hrow ->. split.
  - intros f Hf. split; [discriminate |]. intros _. right.
    rewrite lookup_insert_ne; [exact Hf | congruence].
  - intros Hnone f' Hf'. destruct (decide (k = fid)) as [-> | Hne].
    + rewrite lookup_insert_eq in Hf'. congruence.
    + rewrite lookup_insert_ne in Hf' by exact Hne. congruence.
Qed.

Lemma countStep_download (m m' : gmap string File.EncryptedFile) k f0 fid :
  m !! k = Some f0 -> m' = alter File.downloaded k m ->
  Spec.countStep m m' (String.eqb k fid) fid.
Proof.
  intros Hk ->. destruct (String.eqb_spec k fid) as [-> | Hne].
  - split.
    + intros f Hf. split; [| discriminate]. intros _.
      exists (File.downloaded f). rewrite lookup_alter_eq, Hf.
      split; [reflexivity |]. unfold Spec.sameBut.
      repeat split; reflexivity.
    + congruence.
  - split.
    + intros f Hf. split; [discriminate |]. intros _. right.
      rewrite lookup_alter_ne by exact Hne. exact Hf.
    + intros Hnone f'. rewrite lookup_alter_ne by exact Hne. congruence.
Qed.

End Counter.

(** C9: for every call to the server (any route, or a run of the cleanup
    script) and every id: a record that exists before the call either is gone
    after it or has all its fields but [downloadCount] as before; its
    [downloadCount] is one more when the call is a blob download of that id
    answered with 200, and is as before for any other call or answer; and a
    record that did not exist before the call and exists after it has
    [downloadCount = 0]. *)
Theorem C9_download_count_moves_only_on_download
        (E : Http.Env) (s : Db.State) (c : Server.Call) (fid : string) :
  (forall f, Db.files s !! fid = Some f ->
     (Spec.downloadOk c (snd (Server.serve E s c)) fid = true ->
      exists f', Db.files (fst (Server.serve E s c)) !! fid = Some f'
                 /\ Spec.sameBut f f' 1)
     /\ (Spec.downloadOk c (snd (Server.serve E s c)) fid = false ->
         Db.files (fst (Server.serve E s c)) !! fid = None
         \/ Db.files (fst (Server.serve E s c)) !! fid = Some f))
  /\ (Db.files s !! fid = None ->
      forall f', Db.files (fst (Server.serve E s c)) !! fid = Some f' ->
                 File.downloadCount f' = 0).
Proof.
  change (Spec.countStep (Db.files s) (Db.files (fst (Server.serve E s c)))
            (Spec.downloadOk c (snd (Server.serve E s c)) fid) fid).
  destruct c as [req e p uid | req e p | req form k | req k | req k | req
                | req k | now]; unfold Server.serve; cbn [fst snd Spec.downloadOk].
  - apply countStep_same, register_files.
  - apply countStep_same, login_files.
  - destruct (post_files E s req form k) as [H | (Hk & row & Hrow & _ & H)].
    + apply countStep_same, H.
    + apply (countStep_insert _ _ k row); assumption.
  - apply countStep_same, getMetadata_files.
  - destruct (getBlob_files E s req k) as [(Hst & (f0 & Hf0) & H) | (Hst & H)].
    + rewrite Hst. cbn [Z.eqb Pos.eqb]. rewrite andb_true_r.
      apply (countStep_download _ _ k f0); assumption.
    + apply Z.eqb_neq in Hst. rewrite Hst, andb_false_r.
      apply countStep_same, H.
  - apply countStep_same, list_files.
  - destruct (delete_files E s req k) as [H | H].
    + apply countStep_same, H.
    + apply countStep_shrinks. rewrite H. apply shrinks_delete.
      intros x. right. reflexivity.
  - pose proof (cleanup_files s now) as H.
    destruct (Cleanup.cleanupExpiredFiles s now) as [s' [d e]].
    cbn [fst snd] in *. apply countStep_shrinks, H.
Qed.

(** ** The cleanup script *)

Section Sweep.

Lemma fold_deleteOne_lookup (l : list File.EncryptedFile) (s : Db.State)
      (c : Z * Z) (k : string) :
  Db.files (fst (fold_left (fun a file => Cleanup.deleteOne file a) l (s, c)))
    !! k
  = if existsb (fun f => String.eqb (File.id f) k) l then None
    else Db.files s !! k.
Proof.
  revert s c. induction l as [| file l IH]; intros s c; [reflexivity |].
  cbn [fold_left existsb].
  destruct (Cleanup.deleteOne file (s, c)) as [s1 c1] eqn:E.
  rewrite IH. pose proof (deleteOne_files file s c) as H1.
  rewrite E in H1. cbn [fst] in H1. rewrite H1.
  destruct (String.eqb_spec (File.id file) k) as [-> | Hne].
  - rewrite lookup_delete_eq. cbn [orb].
    destruct (existsb _ l); reflexivity.
  - rewrite lookup_delete_ne by exact Hne. reflexivity.
Qed.

Lemma fold_deleteOne_counts (l : list File.EncryptedFile) (s : Db.State)
      (d e : Z) :
  snd (fold_left (fun a file => Cleanup.deleteOne file a) l (s, (d, e)))
  = (d + Z.of_nat (length l), e).
Proof.
  revert s d. induction l as [| file l IH]; intros s d.
  - cbn. f_equal. lia.
  - cbn [fold_left length]. unfold Cleanup.deleteOne at 2.
    rewrite IH. f_equal. lia.
Qed.

Lemma selectExpired_spec (s : Db.State) (nowText : string)
      (f : File.EncryptedFile) :
  In f (Cleanup.selectExpired s nowText)
  <-> (exists k, Db.files s !! k = Some f)
      /\ Cleanup.selected nowText f = true.
Proof.
  unfold Cleanup.selectExpired. rewrite filter_In, in_map_iff.
  split.
  - intros [[[k f'] [Heq Hin]] Hsel]. cbn [snd] in Heq. subst f'.
    split; [| exact Hsel]. exists k.
    apply elem_of_map_to_list, list_elem_of_In, Hin.
  - intros [[k Hk] Hsel]. split; [| exact Hsel]. exists (k, f).
    split; [reflexivity |].
    apply list_elem_of_In, elem_of_map_to_list, Hk.
Qed.

(** The rows the run deletes are the rows its query selects. *)
Lemma cleanup_lookup (s : Db.State) (now : Z) (k : string) :
  Spec.keyed s ->
  Db.files (fst (Cleanup.cleanupExpiredFiles s now)) !! k
  = match Db.files s !! k with
    | Some f =>
        if Cleanup.selected (Dates.toISOString now) f then None else Some f
    | None => None
    end.
Proof.
  intros Hkeyed. unfold Cleanup.cleanupExpiredFiles.
  rewrite fold_deleteOne_lookup.
  destruct (existsb _ _) eqn:Hex.
  - apply existsb_exists in Hex. destruct Hex as (f & Hin & Hid).
    apply selectExpired_spec in Hin. destruct Hin as [[k' Hk'] Hsel].
    apply String.eqb_eq in Hid. rewrite (Hkeyed _ _ Hk') in Hid. subst k'.
    rewrite Hk', Hsel. reflexivity.
  - destruct (Db.files s !! k) as [f |] eqn:Hk; [| reflexivity].
    destruct (Cleanup.selected (Dates.toISOString now) f) eqn:Hsel;
      [| reflexivity].
    exfalso. apply not_true_iff_false in Hex. apply Hex.
    apply existsb_exists. exists f. split.
    + apply selectExpired_spec. eauto.
    + apply String.eqb_eq, (Hkeyed _ _ Hk).
Qed.

Lemma cleanup_counts (s : Db.State) (now : Z) :
  snd (Cleanup.cleanupExpiredFiles s now)
  = (Z.of_nat (length (Cleanup.selectExpired s (Dates.toISOString now))), 0).
Proof. unfold Cleanup.cleanupExpiredFiles. apply fold_deleteOne_counts. Qed.

(** A run at the same clock reading right after a run selects no row, so it
    deletes nothing and leaves the state as it is. *)
Lemma cleanup_twice (s : Db.State) (now : Z) :
  Spec.keyed s ->
  Cleanup.cleanupExpiredFiles (fst (Cleanup.cleanupExpiredFiles s now)) now
  = (fst (Cleanup.cleanupExpiredFiles s now), (0, 0)).
Proof.
  intros Hkeyed.
  assert (Hnil : Cleanup.selectExpired
                   (fst (Cleanup.cleanupExpiredFiles s now))
                   (Dates.toISOString now) = []).
  { destruct (Cleanup.selectExpired _ _) as [| f l] eqn:E; [reflexivity |].
    exfalso.
    assert (Hin : In f (Cleanup.selectExpired
                          (fst (Cleanup.cleanupExpiredFiles s now))
                          (Dates.toISOString now)))
      by (rewrite E; left; reflexivity).
    apply selectExpired_spec in Hin. destruct Hin as [[k Hk] Hsel].
    rewrite (cleanup_lookup s now k Hkeyed) in Hk.
    destruct (Db.files s !! k) as [f0 |]; [| discriminate].
    destruct (Cleanup.selected (Dates.toISOString now) f0) eqn:Hsel0;
      [discriminate |].
    congruence. }
  unfold Cleanup.cleanupExpiredFiles at 1. rewrite Hnil. reflexivity.
Qed.

End Sweep.

(** C5, evaluated where the code departs from it: Alice uploads with
    [expiresIn = 70000000] hours, so the record expires in the year 10012 and
    its stored [expiryTime] is the text [+010012-05-25T04:00:00.000Z].  One
    millisecond after the upload the record is not expired and the blob route
    serves it, but the query of the cleanup script compares the stored text
    with the text of the current time, selects the record, and the run
    deletes it. *)
Theorem C5_cleanup_deletes_unexpired_record :
  Db.files (Scenario.uploadBy (Some "70000000"%string)) !! Scenario.fid
  = Some (Scenario.aliceFile 253793534400000)
  /\ Scenario.t0 + 1 < File.expiryTime (Scenario.aliceFile 253793534400000)
  /\ Http.status
       (snd (FileRoutes.getBlob Scenario.env
               (Scenario.uploadBy (Some "70000000"%string))
               (Scenario.anonymous (Scenario.t0 + 1)) Scenario.fid)) = 200
  /\ Dates.toISOString (File.expiryTime (Scenario.aliceFile 253793534400000))
     = "+010012-05-25T04:00:00.000Z"%string
  /\ Dates.toISOString (Scenario.t0 + 1) = "2026-11-01T12:00:00.001Z"%string
  /\ Cleanup.selected (Dates.toISOString (Scenario.t0 + 1))
       (Scenario.aliceFile 253793534400000) = true
  /\ Db.files
       (fst (Cleanup.cleanupExpiredFiles
               (Scenario.uploadBy (Some "70000000"%string))
               (Scenario.t0 + 1))) !! Scenario.fid = None
  /\ snd (Cleanup.cleanupExpiredFiles
            (Scenario.uploadBy (Some "70000000"%string)) (Scenario.t0 + 1))
     = (1, 0).
Proof.
  vm_compute. repeat split; reflexivity.
Qed.

(** ** The key stays in the fragment *)

Section KeyCustody.

Lemma list_ascii_of_string_app (a b : string) :
  list_ascii_of_string (a ++ b)
  = list_ascii_of_string a ++ list_ascii_of_string b.
Proof.
  induction a as [| c a IH]; [reflexivity |].
  simpl. rewrite IH. reflexivity.
Qed.

Lemma beforeHash_app (a b : list ascii) :
  ~ In "#"%char a -> Client.beforeHash (a ++ "#"%char :: b) = a.
Proof.
  induction a as [| c a IH]; intros Hn.
  - reflexivity.
  - cbn [app Client.beforeHash].
    destruct (Ascii.eqb_spec c "#") as [-> | Hc].
    + exfalso. apply Hn. left. reflexivity.
    + rewrite IH; [reflexivity |]. intros Hin. apply Hn. right. exact Hin.
Qed.

Lemma fromHash_app (a b : list ascii) :
  ~ In "#"%char a -> Client.fromHash (a ++ "#"%char :: b) = "#"%char :: b.
Proof.
  induction a as [| c a IH]; intros Hn.
  - reflexivity.
  - cbn [app Client.fromHash].
    destruct (Ascii.eqb_spec c "#") as [-> | Hc].
    + exfalso. apply Hn. left. reflexivity.
    + apply IH. intros Hin. apply Hn. right. exact Hin.
Qed.

Lemma shareLink_chars (origin fileId k : string) :
  list_ascii_of_string (Client.shareLink origin fileId k)
  = list_ascii_of_string (origin ++ "/file/" ++ fileId)
      ++ "#"%char :: list_ascii_of_string k.
Proof.
  unfold Client.shareLink. rewrite !list_ascii_of_string_app.
  rewrite <- !app_assoc. reflexivity.
Qed.

Lemma no_hash_in_path (origin fileId : string) :
  ~ In "#"%char (list_ascii_of_string origin) ->
  ~ In "#"%char (list_ascii_of_string fileId) ->
  ~ In "#"%char (list_ascii_of_string (origin ++ "/file/" ++ fileId)).
Proof.
  intros Ho Hf. rewrite !list_ascii_of_string_app, !in_app_iff.
  intros [H | [H | H]]; [exact (Ho H) | | exact (Hf H)].
  cbn in H. repeat (destruct H as [H | H]; [discriminate H |]). exact H.
Qed.

(** What the browser requests for a share link, and the key it keeps. *)
Lemma shareLink_split (origin fileId k : string) :
  ~ In "#"%char (list_ascii_of_string origin) ->
  ~ In "#"%char (list_ascii_of_string fileId) ->
  Client.requested (Client.shareLink origin fileId k)
  = (origin ++ "/file/" ++ fileId)%string
  /\ Client.keyOfLocation (Client.shareLink origin fileId k) = k.
Proof.
  intros Ho Hf. pose proof (no_hash_in_path origin fileId Ho Hf) as Hp.
  unfold Client.requested, Client.keyOfLocation, Client.locationHash.
  rewrite shareLink_chars, beforeHash_app, fromHash_app by exact Hp.
  split; [apply string_of_list_ascii_of_string |].
  destruct k as [| c k]; [reflexivity |].
  cbn [list_ascii_of_string string_of_list_ascii].
  rewrite string_of_list_ascii_of_string. reflexivity.
Qed.

(** The request of an upload, field by field. *)
Lemma uploadRequest_fields
      (encrypt : list byte -> list byte -> list byte -> list byte)
      (api : string) (token : option string) (file : Client.PickedFile)
      (key iv : list byte) (r : Client.FetchRequest) :
  Client.uploadRequest encrypt api token file key iv = Some r ->
  r = {| Client.method := "POST";
         Client.url := (api ++ "/api/upload")%string;
         Client.headers :=
           [("Authorization"%string,
             ("Bearer " ++ Js.orDefault token "")%string)];
         Client.body :=
           [("file"%string,
             Client.Binary (encrypt key iv (Client.content file)));
            ("iv"%string,
             Client.Text
               (string_of_list_ascii
                  (Crypto.btoa (Crypto.fromCharCode iv))));
            ("filename"%string, Client.Text (Client.name file));
            ("mimetype"%string,
             Client.Text
               (if String.eqb (Client.type file) ""
                then "application/octet-stream"%string
                else Client.type file));
            ("filesize"%string,
             Client.Text (Client.numberToString (Client.size file)))] |}.
Proof.
  unfold Client.uploadRequest, Client.uploadFile.
  destruct (negb (Js.truthy token)); [discriminate |].
  intros [= <-]. reflexivity.
Qed.

End KeyCustody.

(** C1: in the upload flow the request sent to the server is a POST to
    [/api/upload] whose only header is the bearer token and whose body has
    exactly the fields file (the ciphertext), iv, filename, mimetype and
    filesize; the share link is [origin/file/id#key]: what the browser
    requests for it stops before the [#], and the fragment is the URL-safe
    encoding from which the key is recovered (the link that the list of
    uploaded files rebuilds from a stored key splits the same way).  The key
    reaches the request only through the ciphertext: two uploads of files
    with the same name, type and size whose ciphertexts coincide send the
    same request, whatever their keys, and the server then gives the same
    outputs and reaches the same state on this call and on any calls that
    follow. *)
Theorem C1_key_only_in_fragment
        (encrypt : list byte -> list byte -> list byte -> list byte)
        (api origin : string) (token : option string)
        (file : Client.PickedFile) (key iv : list byte) (fileId : string)
        (r : Client.FetchRequest) :
  ~ In "#"%char (list_ascii_of_string origin) ->
  ~ In "#"%char (list_ascii_of_string fileId) ->
  Client.uploadRequest encrypt api token file key iv = Some r ->
  Client.url r = (api ++ "/api/upload")%string
  /\ map fst (Client.headers r) = ["Authorization"%string]
  /\ map fst (Client.body r)
     = ["file"; "iv"; "filename"; "mimetype"; "filesize"]%string
  /\ Wire.fileField "file" r = Some (encrypt key iv (Client.content file))
  /\ Client.requested (Client.uploadShareLink origin fileId key)
     = (origin ++ "/file/" ++ fileId)%string
  /\ Client.keyOfLocation (Client.uploadShareLink origin fileId key)
     = Crypto.toBase64Url key
  /\ Crypto.fromBase64Url
       (Client.keyOfLocation (Client.uploadShareLink origin fileId key))
     = Some key
  /\ (forall k : string,
         Client.requested (Client.shareLink origin fileId k)
         = (origin ++ "/file/" ++ fileId)%string
         /\ Client.keyOfLocation (Client.shareLink origin fileId k) = k)
  /\ (forall (key' : list byte) (file' : Client.PickedFile)
             (r' : Client.FetchRequest),
         Client.uploadRequest encrypt api token file' key' iv = Some r' ->
         Client.name file' = Client.name file ->
         Client.type file' = Client.type file ->
         Client.size file' = Client.size file ->
         encrypt key' iv (Client.content file')
         = encrypt key iv (Client.content file) ->
         r' = r
         /\ forall (E : Http.Env) (s : Db.State) (conn : Http.Request)
                   (uuid : string) (cs : list Server.Call),
             Server.run E s (Wire.upload conn r' uuid :: cs)
             = Server.run E s (Wire.upload conn r uuid :: cs)).
Proof.
  intros Ho Hf Hr.
  pose proof (uploadRequest_fields _ _ _ _ _ _ _ Hr) as Er.
  destruct (shareLink_split origin fileId (Crypto.toBase64Url key) Ho Hf)
    as [Hreq Hkey].
  unfold Client.uploadShareLink.
  split; [rewrite Er; reflexivity |].
  split; [rewrite Er; reflexivity |].
  split; [rewrite Er; reflexivity |].
  split; [rewrite Er; reflexivity |].
  split; [exact Hreq |].
  split; [exact Hkey |].
  split; [rewrite Hkey; apply fromBase64Url_toBase64Url |].
  split; [intros k; apply shareLink_split; assumption |].
  intros key' file' r' Hr' Hname Htype Hsize Hct.
  pose proof (uploadRequest_fields _ _ _ _ _ _ _ Hr') as Er'.
  assert (Heq : r' = r).
  { rewrite Er, Er', Hname, Htype, Hsize, Hct. reflexivity. }
  split; [exact Heq |]. intros E s conn uuid cs. rewrite Heq. reflexivity.
Qed.

Lemma C1_key_only_in_fragment_witness :
  ~ In "#"%char (list_ascii_of_string Scenario.origin)
  /\ ~ In "#"%char (list_ascii_of_string Scenario.fid)
  /\ Client.uploadRequest Scenario.toyCipher Scenario.api
       (Some "token-alice"%string) Scenario.picked Scenario.key32
       Scenario.iv12 = Some Scenario.sent
  /\ map fst (Client.body Scenario.sent)
     = ["file"; "iv"; "filename"; "mimetype"; "filesize"]%string
  /\ Client.requested
       (Client.uploadShareLink Scenario.origin Scenario.fid Scenario.key32)
     = ("https://share.example/file/" ++ Scenario.fid)%string
  /\ Crypto.fromBase64Url
       (Client.keyOfLocation
          (Client.uploadShareLink Scenario.origin Scenario.fid
             Scenario.key32))
     = Some Scenario.key32.
Proof.
  assert (H1 : ~ In "#"%char (list_ascii_of_string Scenario.origin)).
  { intros H. cbn in H.
    repeat (destruct H as [H | H]; [discriminate H |]). exact H. }
  assert (H2 : ~ In "#"%char (list_ascii_of_string Scenario.fid)).
  { intros H. cbn in H.
    repeat (destruct H as [H | H]; [discriminate H |]). exact H. }
  assert (H3 : Client.uploadRequest Scenario.toyCipher Scenario.api
                 (Some "token-alice"%string) Scenario.picked Scenario.key32
                 Scenario.iv12 = Some Scenario.sent)
    by (vm_compute; reflexivity).
  destruct (C1_key_only_in_fragment Scenario.toyCipher Scenario.api
              Scenario.origin (Some "token-alice"%string) Scenario.picked
              Scenario.key32 Scenario.iv12 Scenario.fid Scenario.sent
              H1 H2 H3)
    as (_ & _ & Hbody & _ & Hreq & _ & Hkey & _ & _).
  split; [exact H1 |]. split; [exact H2 |]. split; [exact H3 |].
  split; [exact Hbody |]. split; [exact Hreq |]. exact Hkey.
Defined.

(** C2: for every byte sequence of length 0 to 64, decoding the URL-safe
    encoding gives the sequence back, and the encoding holds none of the
    characters [+], [/] and [=]; the decoder pads the text it is given to a
    length that is a multiple of four before it decodes. *)
Theorem C2_base64url_round_trip (b : list byte) :
  (length b <= 64)%nat ->
  Crypto.fromBase64Url (Crypto.toBase64Url b) = Some b
  /\ (forall c : ascii,
         In c (list_ascii_of_string (Crypto.toBase64Url b)) ->
         c <> "+"%char /\ c <> "/"%char /\ c <> "="%char)
  /\ (length
        (Crypto.addPadding
           (Crypto.replaceAll "_" "/"
              (Crypto.replaceAll "-" "+"
                 (list_ascii_of_string (Crypto.toBase64Url b)))))
      mod 4 = 0)%nat.
Proof.
  intros _. split; [| split].
  - apply fromBase64Url_toBase64Url.
  - apply toBase64Url_chars.
  - apply addPadding_length.
Qed.

Lemma C2_base64url_round_trip_witness :
  (length Scenario.key32 <= 64)%nat
  /\ Crypto.toBase64Url Scenario.key32
     = "-__-AAECAwQFBgcICQoLDA0ODxAREhMUFRYXGBkaGz4"%string
  /\ Crypto.fromBase64Url (Crypto.toBase64Url Scenario.key32)
     = Some Scenario.key32.
Proof.
  assert (H : (length Scenario.key32 <= 64)%nat) by (cbn; lia).
  split; [exact H |]. split; [vm_compute; reflexivity |].
  exact (proj1 (C2_base64url_round_trip Scenario.key32 H)).
Defined.

(** ** The rows stay keyed by their id *)

Section Keyed.

Lemma keyed_empty : Spec.keyed Db.empty.
Proof. intros k f H. cbn in H. rewrite lookup_empty in H. discriminate H. Qed.

Lemma keyed_shrinks (s s' : Db.State) :
  Spec.keyed s -> Spec.shrinks (Db.files s) (Db.files s') -> Spec.keyed s'.
Proof.
  intros Hk Hs k f Hf. destruct (Hs k) as [H | H]; [congruence |].
  apply Hk. rewrite <- H. exact Hf.
Qed.

Lemma keyed_same (s s' : Db.State) :
  Spec.keyed s -> Db.files s' = Db.files s -> Spec.keyed s'.
Proof. intros Hk H k f Hf. apply Hk. rewrite <- H. exact Hf. Qed.

(** Every call keeps each row under the key that is its [id]. *)
Lemma serve_keyed (E : Http.Env) (s : Db.State) (c : Server.Call) :
  Spec.keyed s -> Spec.keyed (fst (Server.serve E s c)).
Proof.
  intros Hk.
  destruct c as [req e p uid | req e p | req form k | req k | req k | req
                | req k | now]; unfold Server.serve; cbn [fst snd].
  - apply (keyed_same s _ Hk), register_files.
  - apply (keyed_same s _ Hk), login_files.
  - destruct (post_files E s req form k) as [H | (Hnone & row & _ & Hid & H)].
    + apply (keyed_same s _ Hk), H.
    + intros x f Hf. rewrite H in Hf.
      destruct (decide (k = x)) as [-> | Hne].
      * rewrite lookup_insert_eq in Hf. congruence.
      * rewrite lookup_insert_ne in Hf by exact Hne. apply Hk, Hf.
  - apply (keyed_same s _ Hk), getMetadata_files.
  - destruct (getBlob_files E s req k) as [(_ & _ & H) | (_ & H)].
    + intros x f Hf. rewrite H in Hf.
      destruct (decide (k = x)) as [-> | Hne].
      * rewrite lookup_alter_eq in Hf.
        destruct (Db.files s !! x) as [f0 |] eqn:Hx; [| discriminate Hf].
        injection Hf as <-. apply (Hk x f0 Hx).
      * rewrite lookup_alter_ne in Hf by exact Hne. apply Hk, Hf.
    + apply (keyed_same s _ Hk), H.
  - apply (keyed_same s _ Hk), list_files.
  - destruct (delete_files E s req k) as [H | H].
    + apply (keyed_same s _ Hk), H.
    + apply (keyed_shrinks s _ Hk). rewrite H. apply shrinks_delete.
      intros x. right. reflexivity.
  - pose proof (cleanup_files s now) as H.
    destruct (Cleanup.cleanupExpiredFiles s now) as [s' [d e]].
    cbn [fst snd] in *. apply (keyed_shrinks s _ Hk H).
Qed.

End Keyed.

(** ** The life of one record, run on the model *)

Example lifecycle_one_hour :
  snd (Server.run Scenario.env Scenario.registered
         [Server.PostUpload (Scenario.asAlice Scenario.t0)
            (Scenario.form (Some "1"%string)) Scenario.fid;
          Server.GetMetadata (Scenario.anonymous Scenario.t0) Scenario.fid;
          Server.GetBlob (Scenario.anonymous Scenario.t0) Scenario.fid;
          Server.GetMetadata (Scenario.anonymous (Scenario.t0 + 3600001))
            Scenario.fid;
          Server.GetBlob (Scenario.anonymous (Scenario.t0 + 3600001))
            Scenario.fid;
          Server.RunCleanup (Scenario.t0 + 3600001);
          Server.RunCleanup (Scenario.t0 + 3600001);
          Server.GetBlob (Scenario.anonymous (Scenario.t0 + 3600002))
            Scenario.fid])
  = [Server.Reply
       (Http.json 201
          (Http.Uploaded Scenario.fid "2026-11-01T13:00:00.000Z"));
     Server.Reply
       (Http.json 200
          (Http.Metadata "a.txt" "text/plain" 3 "2026-11-01T12:00:00.000Z"
             "2026-11-01T13:00:00.000Z" 0 true false));
     Server.Reply
       (Http.json 200
          (Http.Blob "AQID" "AAECAwQFBgcICQoL" "a.txt" "text/plain" 3));
     Server.Reply
       (Http.json 200
          (Http.Metadata "a.txt" "text/plain" 3 "2026-11-01T12:00:00.000Z"
             "2026-11-01T13:00:00.000Z" 1 true true));
     Server.Reply (Http.json 410 (Http.Error "File has expired"));
     Server.Summary 1 0;
     Server.Summary 0 0;
     Server.Reply (Http.json 404 (Http.Error "File not found"))].
Proof. vm_compute. reflexivity. Qed.

Lemma C7_retrieval_public_and_blob_limited_witness :
  Spec.downloadRefused Scenario.env Scenario.busy
    (Scenario.anonymous (Scenario.t0 + 1)) = true
  /\ Spec.outcome
       (snd (FileRoutes.getBlob Scenario.env Scenario.busy
               (Scenario.anonymous (Scenario.t0 + 1)) Scenario.fid))
     = Spec.RateLimited
  /\ Spec.outcome
       (snd (FileRoutes.getMetadata Scenario.env Scenario.busy
               (Scenario.anonymous (Scenario.t0 + 1)) Scenario.fid))
     <> Spec.RateLimited.
Proof.
  assert (H : Spec.downloadRefused Scenario.env Scenario.busy
                (Scenario.anonymous (Scenario.t0 + 1)) = true)
    by (vm_compute; reflexivity).
  destruct (C7_retrieval_public_and_blob_limited Scenario.env Scenario.busy
              (Scenario.anonymous (Scenario.t0 + 1)) Scenario.fid)
    as (_ & _ & Hblob & Hmeta & _).
  split; [exact H |]. split; [exact (proj1 (Hblob H)) | exact Hmeta].
Defined.

Lemma C9_download_count_moves_only_on_download_witness :
  Db.files (Scenario.uploadBy None) !! Scenario.fid
  = Some (Scenario.aliceFile (Scenario.t0 + 86400000))
  /\ Spec.downloadOk
       (Server.GetBlob (Scenario.anonymous (Scenario.t0 + 1)) Scenario.fid)
       (snd (Server.serve Scenario.env (Scenario.uploadBy None)
               (Server.GetBlob (Scenario.anonymous (Scenario.t0 + 1))
                  Scenario.fid)))
       Scenario.fid = true
  /\ exists f',
      Db.files
        (fst (Server.serve Scenario.env (Scenario.uploadBy None)
                (Server.GetBlob (Scenario.anonymous (Scenario.t0 + 1))
                   Scenario.fid))) !! Scenario.fid = Some f'
      /\ Spec.sameBut (Scenario.aliceFile (Scenario.t0 + 86400000)) f' 1.
Proof.
  assert (H1 : Db.files (Scenario.uploadBy None) !! Scenario.fid
               = Some (Scenario.aliceFile (Scenario.t0 + 86400000)))
    by (vm_compute; reflexivity).
  assert (H2 : Spec.downloadOk
                 (Server.GetBlob (Scenario.anonymous (Scenario.t0 + 1))
                    Scenario.fid)
                 (snd (Server.serve Scenario.env (Scenario.uploadBy None)
                         (Server.GetBlob (Scenario.anonymous (Scenario.t0 + 1))
                            Scenario.fid)))
                 Scenario.fid = true)
    by (vm_compute; reflexivity).
  split; [exact H1 |]. split; [exact H2 |].
  exact (proj1 (proj1 (C9_download_count_moves_only_on_download Scenario.env
                         (Scenario.uploadBy None)
                         (Server.GetBlob (Scenario.anonymous (Scenario.t0 + 1))
                            Scenario.fid)
                         Scenario.fid)
                  (Scenario.aliceFile (Scenario.t0 + 86400000)) H1) H2).
Defined.

(** ** More on the base64 codec *)

Section Base64More.
Import Crypto Base64Aux.

Lemma length_cons4_mod4 {A : Type} (a b c d : A) (x : list A) :
  (length (a :: b :: c :: d :: x) mod 4 = length x mod 4)%nat.
Proof.
  cbn [length].
  replace (S (S (S (S (length x))))) with (length x + 1 * 4)%nat by lia.
  apply Nat.Div0.mod_add.
Qed.

Lemma padLoop_cons4 (fuel : nat) (a b c d : ascii) (x : list ascii) :
  padLoop fuel (a :: b :: c :: d :: x) = a :: b :: c :: d :: padLoop fuel x.
Proof.
  revert x. induction fuel as [| k IH]; intros x; [reflexivity |].
  cbn [padLoop]. rewrite length_cons4_mod4.
  destruct (length x mod 4 =? 0)%nat; [reflexivity |].
  change ((a :: b :: c :: d :: x) ++ ["="%char])
    with (a :: b :: c :: d :: (x ++ ["="%char])).
  apply IH.
Qed.

Lemma btoa_addPadding (s : list ascii) : btoa s = addPadding (btoaCore s).
Proof.
  induction s as [| a | a b | a b c l IH] using list_ind3;
    try reflexivity.
  cbn [btoa btoaCore]. unfold addPadding in *. rewrite padLoop_cons4, IH.
  reflexivity.
Qed.

(** [atob] undoes [btoa]. *)
Lemma atob_btoa (s : list ascii) : atob (btoa s) = Some s.
Proof.
  rewrite btoa_addPadding.
  rewrite atob_addPadding by (apply btoaCore_isB64 || apply btoaCore_length).
  apply decodeGroups_btoaCore.
Qed.

Lemma charCodes_fromCharCode (b : list byte) :
  charCodes (fromCharCode b) = b.
Proof.
  unfold charCodes, fromCharCode. rewrite map_map.
  rewrite <- (map_id b) at 2. apply map_ext. intros x.
  apply byte_of_ascii_of_byte.
Qed.

Lemma decodeBase64_base64 (data : list byte) :
  Download.decodeBase64 (FileRoutes.base64 data) = Some data.
Proof.
  unfold Download.decodeBase64, FileRoutes.base64.
  rewrite list_ascii_of_string_of_list_ascii, atob_btoa.
  rewrite charCodes_fromCharCode. reflexivity.
Qed.

Lemma btoaCore_length_eq (s : list ascii) :
  length (btoaCore s) = ((4 * length s + 2) / 3)%nat.
Proof.
  induction s as [| a | a b | a b c l IH] using list_ind3;
    try reflexivity.
  cbn [btoaCore length]. rewrite IH.
  replace (4 * S (S (S (length l))) + 2)%nat
    with (4 * length l + 2 + 4 * 3)%nat by lia.
  rewrite Nat.div_add by lia. lia.
Qed.

Lemma length_list_ascii_of_string (s : string) :
  length (list_ascii_of_string s) = String.length s.
Proof. induction s as [| c s IH]; cbn; [reflexivity | rewrite IH; reflexivity]. Qed.

End Base64More.

(** X1: the URL-safe encoding of [n] bytes has exactly the integer part of
    [(4 n + 2) / 3] characters (43 for a key of 32 bytes), and two byte
    sequences with the same encoding are equal. *)
Theorem X1_toBase64Url_length_and_injective (b : list byte) :
  String.length (Crypto.toBase64Url b) = ((4 * length b + 2) / 3)%nat
  /\ (length b = 32%nat -> String.length (Crypto.toBase64Url b) = 43%nat)
  /\ (forall b' : list byte,
         Crypto.toBase64Url b = Crypto.toBase64Url b' -> b = b').
Proof.
  assert (Hlen : String.length (Crypto.toBase64Url b)
                 = ((4 * length b + 2) / 3)%nat).
  { rewrite <- length_list_ascii_of_string. unfold Crypto.toBase64Url.
    rewrite list_ascii_of_string_of_list_ascii.
    rewrite replaceAll_urlSafe, removeAll_btoa, length_map.
    rewrite btoaCore_length_eq. unfold Crypto.fromCharCode.
    rewrite length_map. reflexivity. }
  split; [exact Hlen |]. split.
  - intros H. rewrite Hlen, H. reflexivity.
  - intros b' H.
    pose proof (fromBase64Url_toBase64Url b) as H1.
    pose proof (fromBase64Url_toBase64Url b') as H2.
    rewrite H in H1. congruence.
Qed.
Section DecoderErrors.
Import Crypto Base64Aux.

Lemma list_ind4 {A : Type} (P : list A -> Prop) :
  P [] -> (forall a, P [a]) -> (forall a b, P [a; b]) ->
  (forall a b c, P [a; b; c]) ->
  (forall a b c d l, P l -> P (a :: b :: c :: d :: l)) ->
  forall l, P l.
Proof.
  intros H0 H1 H2 H3 H4.
  assert (H : forall l, P l /\ (forall a, P (a :: l))
                        /\ (forall a b, P (a :: b :: l))
                        /\ (forall a b c, P (a :: b :: c :: l))).
  { induction l as [| x l (I0 & I1 & I2 & I3)]; repeat split; auto. }
  intros l. apply H.
Qed.

Lemma decodeGroups_foreign (d : list ascii) (c : ascii) :
  In c d -> b64index c = None -> decodeGroups d = None.
Proof.
  intros Hin Hc. revert Hin.
  induction d as [| x | x y | x y z | x y z w l IH] using list_ind4;
    cbn [In decodeGroups]; intros Hin.
  - contradiction.
  - reflexivity.
  - destruct Hin as [-> | [-> | []]]; rewrite Hc;
      [| destruct (b64index x)]; reflexivity.
  - destruct Hin as [-> | [-> | [-> | []]]]; rewrite Hc;
      [| destruct (b64index x)
       | destruct (b64index x); [destruct (b64index y) |]]; reflexivity.
  - destruct (b64index x) as [s1 |] eqn:Ex; [| reflexivity].
    destruct (b64index y) as [s2 |] eqn:Ey; [| reflexivity].
    destruct (b64index z) as [s3 |] eqn:Ez; [| reflexivity].
    destruct (b64index w) as [s4 |] eqn:Ew; [| reflexivity].
    destruct Hin as [-> | [-> | [-> | [-> | Hin]]]]; try congruence.
    rewrite (IH Hin). reflexivity.
Qed.

Lemma foreign_facts (c : ascii) :
  Foreign.foreign c = true ->
  b64index c = None /\ urlUnsafe c = c
  /\ isAsciiWhitespace c = false /\ Ascii.eqb c "=" = false.
Proof.
  destruct c as [[] [] [] [] [] [] [] []]; vm_compute; intros H;
    first [ discriminate H | repeat split ].
Qed.

Lemma In_padLoop (fuel : nat) (c : ascii) (x : list ascii) :
  In c x -> In c (padLoop fuel x).
Proof.
  revert x. induction fuel as [| k IH]; intros x H; [exact H |].
  cbn [padLoop]. destruct (length x mod 4 =? 0)%nat; [exact H |].
  apply IH, in_or_app. left. exact H.
Qed.

Lemma In_stripPadding (c : ascii) (d : list ascii) :
  In c d -> Ascii.eqb c "=" = false -> In c (stripPadding d).
Proof.
  intros Hin Hc. unfold stripPadding.
  assert (Hr : In c (rev d)) by (apply in_rev; rewrite rev_involutive; exact Hin).
  destruct (rev d) as [| c1 r]; [exact Hin |].
  destruct (Ascii.eqb_spec c1 "=") as [-> | _]; [| exact Hin].
  destruct Hr as [<- | Hr]; [discriminate Hc |].
  destruct r as [| c2 r2]; [contradiction |].
  destruct (Ascii.eqb_spec c2 "=") as [-> | _].
  - destruct Hr as [<- | Hr]; [discriminate Hc |].
    apply in_rev in Hr. exact Hr.
  - apply in_rev in Hr. exact Hr.
Qed.

Lemma atob_foreign (d : list ascii) (c : ascii) :
  In c d -> Foreign.foreign c = true -> atob d = None.
Proof.
  intros Hin Hf. destruct (foreign_facts c Hf) as (Hidx & _ & Hws & Heq).
  unfold atob.
  set (d1 := List.filter _ d).
  assert (H1 : In c d1).
  { apply filter_In. split; [exact Hin |]. rewrite Hws. reflexivity. }
  set (d2 := if (length d1 mod 4 =? 0)%nat then stripPadding d1 else d1).
  assert (H2 : In c d2).
  { unfold d2. destruct (length d1 mod 4 =? 0)%nat; [| exact H1].
    apply In_stripPadding; assumption. }
  destruct (length d2 mod 4 =? 1)%nat; [reflexivity |].
  apply (decodeGroups_foreign d2 c H2 Hidx).
Qed.

End DecoderErrors.

(** X2: the key decoder throws on a text that holds a character outside
    the base64 alphabets (standard and URL-safe), other than [=] and the
    white space [atob] skips: such a fragment is never decoded to a key. *)
Theorem X2_fromBase64Url_rejects_foreign (s : string) (c : ascii) :
  In c (list_ascii_of_string s) ->
  Foreign.foreign c = true ->
  Crypto.fromBase64Url s = None.
Proof.
  intros Hin Hf. unfold Crypto.fromBase64Url.
  rewrite replaceAll_urlUnsafe.
  rewrite (atob_foreign _ c); [reflexivity | | exact Hf].
  apply In_padLoop. apply in_map_iff. exists c. split; [| exact Hin].
  apply (foreign_facts c Hf).
Qed.

Lemma X2_fromBase64Url_rejects_foreign_witness :
  In "#"%char (list_ascii_of_string "Zm9v#YmFy")
  /\ Foreign.foreign "#" = true
  /\ Crypto.fromBase64Url "Zm9v#YmFy" = None.
Proof.
  assert (H1 : In "#"%char (list_ascii_of_string "Zm9v#YmFy"))
    by (cbn; auto 10).
  assert (H2 : Foreign.foreign "#" = true) by reflexivity.
  split; [exact H1 |]. split; [exact H2 |].
  exact (X2_fromBase64Url_rejects_foreign "Zm9v#YmFy" "#" H1 H2).
Defined.
(** ** The keys kept by the browser *)

Section StoredKeys.

Lemma toBase64Url_nonempty (key : list byte) :
  key <> [] -> Crypto.toBase64Url key <> ""%string.
Proof.
  intros Hk Heq.
  assert (H : Crypto.fromBase64Url (Crypto.toBase64Url key)
              = Crypto.fromBase64Url (Crypto.toBase64Url [])).
  { rewrite Heq. reflexivity. }
  rewrite !fromBase64Url_toBase64Url in H. congruence.
Qed.


End StoredKeys.



(** ** The time left, as the page words it *)

Section TimeLeft.

Lemma numberToString_head (n : Z) :
  exists c r, Client.numberToString n = String c r /\ c <> "E"%char.
Proof.
  unfold Client.numberToString, NilZero.string_of_int.
  destruct (Z.to_int n) as [d | d].
  - destruct d; cbn; eexists; eexists; (split; [reflexivity | discriminate]).
  - eexists; eexists; (split; [reflexivity | discriminate]).
Qed.

Lemma numbered_not_expired (n : Z) (rest : string) :
  (Client.numberToString n ++ rest)%string <> "Expired"%string.
Proof.
  destruct (numberToString_head n) as (c & r & -> & Hc).
  simpl. intros [= H _]. exact (Hc H).
Qed.

End TimeLeft.

(** X4: the page words the time left as "Expired" exactly when the expiry
    is not after the clock; a file with time left is never shown as
    expired. *)
Theorem X4_getTimeRemaining_expired (now expiry : Z) :
  Ui.getTimeRemaining now expiry = "Expired"%string <-> expiry <= now.
Proof.
  unfold Ui.getTimeRemaining. cbv zeta.
  destruct (Z.leb_spec (expiry - now) 0) as [Hle | Hgt].
  - split; [lia | reflexivity].
  - split; [| lia]. intros H. exfalso.
    destruct (24 <? _); [| destruct (0 <? _)];
      exact (numbered_not_expired _ _ H).
Qed.
(** ** From the upload to the download *)

Section EndToEnd.

(** A 201 answer of the upload route: the bytes are stored under the path of
    the record. *)
Lemma post_created_disk (E : Http.Env) (s0 s : Db.State) req form fid r :
  Upload.post E s0 req form fid = (s, r) ->
  Http.status r = 201 ->
  exists buffer,
    Upload.file form = Some buffer
    /\ Db.disk s = <[Upload.filePath E fid := buffer]> (Db.disk s0).
Proof.
  intros H Hst. unfold Upload.post in H.
  destruct (AuthMw.authenticateToken E req) as [r0 | user] eqn:Ha.
  { injection H as <- <-.
    destruct (authenticate_rejected _ _ _ Ha) as [X | X];
      rewrite X in Hst; discriminate Hst. }
  destruct (RateLimit.consume _ _ _ _) as [hits refused].
  destruct refused.
  { injection H as <- <-. discriminate Hst. }
  destruct (Upload.file form) as [buffer |] eqn:Hfile.
  2:{ unfold Upload.handler in H. rewrite Hfile in H.
      injection H as <- <-. discriminate Hst. }
  destruct (_ <? _).
  { injection H as <- <-. discriminate Hst. }
  unfold Upload.handler in H. rewrite Hfile in H.
  destruct (negb (Js.truthy (Upload.iv form)) || _ || _).
  { injection H as <- <-. discriminate Hst. }
  cbv zeta in H.
  destruct (Upload.expiryDate _ _) as [expiry |].
  2:{ injection H as <- <-. discriminate Hst. }
  destruct (Db.insertFile _ _) as [msg | s2] eqn:Hins.
  { injection H as <- <-. discriminate Hst. }
  injection H as <- <-. exists buffer. split; [reflexivity |].
  rewrite logRequest_disk.
  unfold Db.insertFile in Hins.
  destruct (Db.files _ !! _); [discriminate Hins |].
  destruct (Db.users _ !! _); [| discriminate Hins].
  injection Hins as <-. reflexivity.
Qed.

(** A 200 answer of the blob route: the record and the bytes it sends. *)
Lemma getBlob_200 (E : Http.Env) (s : Db.State) req fid :
  Http.status (snd (FileRoutes.getBlob E s req fid)) = 200 ->
  exists f data,
    Db.files s !! fid = Some f
    /\ Db.disk s !! File.path f = Some data
    /\ Http.now req <= File.expiryTime f
    /\ snd (FileRoutes.getBlob E s req fid)
       = Http.json 200
           (Http.Blob (FileRoutes.base64 data) (File.iv f) (File.filename f)
              (File.mimetype f) (File.filesize f)).
Proof.
  unfold FileRoutes.getBlob.
  destruct (RateLimit.consume _ _ _ _) as [hits refused].
  destruct refused; [discriminate |].
  unfold FileRoutes.blobHandler.
  cbn [Db.files Db.disk Db.setDownloadHits].
  destruct (negb (Js.uuidRegexTest fid)); [discriminate |].
  destruct (Db.files s !! fid) as [f |] eqn:Hf; [| discriminate].
  destruct (Z.ltb_spec (File.expiryTime f) (Http.now req)); [discriminate |].
  destruct (Db.disk s !! File.path f) as [data |] eqn:Hd; [| discriminate].
  intros _. exists f, data.
  split; [reflexivity |]. split; [exact Hd |].
  split; [assumption | reflexivity].
Qed.

Lemma orDefault_empty (o : string) : Js.orDefault (Some o) "" = o.
Proof.
  unfold Js.orDefault. destruct (String.eqb_spec o ""); congruence.
Qed.

End EndToEnd.

(** X5: end to end.  A file is encrypted and uploaded by the upload flow,
    the server answers 201, and a download of the id of the share link is
    answered 200.  Then the download page, given the fragment of the share
    link, hands to the decryption the key, the IV and the ciphertext of the
    upload, and so shows the uploaded content whenever decryption undoes
    encryption for that key and IV. *)
Theorem X5_download_recovers_upload
        (encrypt : list byte -> list byte -> list byte -> list byte)
        (decrypt : list byte -> list byte -> list byte -> option (list byte))
        (E : Http.Env) (s0 s1 : Db.State) (conn req : Http.Request)
        (api origin : string) (token : option string)
        (file : Client.PickedFile) (key iv : list byte) (fileId : string)
        (r : Client.FetchRequest) (resp : Http.Response) :
  decrypt key iv (encrypt key iv (Client.content file))
  = Some (Client.content file) ->
  ~ In "#"%char (list_ascii_of_string origin) ->
  ~ In "#"%char (list_ascii_of_string fileId) ->
  Client.uploadRequest encrypt api token file key iv = Some r ->
  Server.serve E s0 (Wire.upload conn r fileId) = (s1, Server.Reply resp) ->
  Http.status resp = 201 ->
  Http.status (snd (FileRoutes.getBlob E s1 req fileId)) = 200 ->
  Download.downloadAndDecryptFile decrypt
    (Client.keyOfLocation (Client.uploadShareLink origin fileId key))
    (snd (FileRoutes.getBlob E s1 req fileId))
  = Some (Client.content file).
Proof.
  intros Hdec Ho Hf Hr Hserve H201 H200.
  rewrite (uploadRequest_fields _ _ _ _ _ _ _ Hr) in Hserve.
  unfold Wire.upload, Server.serve in Hserve. cbn [fst snd] in Hserve.
  destruct (Upload.post _ _ _ _ _) as [s1' resp'] eqn:Hpost.
  cbn [fst snd] in Hserve. injection Hserve as -> ->.
  destruct (post_created _ _ _ _ _ _ _ Hpost H201)
    as (user & buffer & h & _ & Hfile & _ & _ & Hfiles).
  destruct (post_created_disk _ _ _ _ _ _ _ Hpost H201)
    as (buffer' & Hfile' & Hdisk).
  rewrite Hfile in Hfile'. injection Hfile' as <-.
  cbn in Hfile. injection Hfile as <-.
  destruct (getBlob_200 _ _ _ _ H200) as (f & data & Hf1 & Hd1 & _ & Hbody).
  rewrite Hfiles, lookup_insert_eq in Hf1. injection Hf1 as <-.
  cbn [File.path File.iv Upload.record Upload.iv] in Hd1, Hbody.
  rewrite Hdisk, lookup_insert_eq in Hd1. injection Hd1 as <-.
  rewrite Hbody. unfold Download.downloadAndDecryptFile, Download.downloadFile.
  cbn [Http.status Http.body Http.json Z.leb Z.compare Pos.compare
       Pos.compare_cont andb].
  unfold Client.uploadShareLink.
  rewrite (proj2 (shareLink_split origin fileId _ Ho Hf)).
  rewrite fromBase64Url_toBase64Url.
  change (Wire.textField "iv"
            {| Client.method := _; Client.url := _; Client.headers := _;
               Client.body := _ |})
    with (Some (string_of_list_ascii
                  (Crypto.btoa (Crypto.fromCharCode iv)))).
  rewrite orDefault_empty.
  change (string_of_list_ascii (Crypto.btoa (Crypto.fromCharCode iv)))
    with (FileRoutes.base64 iv).
  rewrite !decodeBase64_base64. exact Hdec.
Qed.

Lemma X5_download_recovers_upload_witness :
  Download.downloadAndDecryptFile Session.toyDecipher
    (Client.keyOfLocation
       (Client.uploadShareLink Scenario.origin Scenario.fid Scenario.key32))
    (snd (FileRoutes.getBlob Scenario.env Session.uploaded
            (Scenario.anonymous (Scenario.t0 + 1)) Scenario.fid))
  = Some (Client.content Scenario.picked).
Proof.
  apply (X5_download_recovers_upload Scenario.toyCipher Session.toyDecipher
           Scenario.env Scenario.registered Session.uploaded
           (Scenario.anonymous Scenario.t0)
           (Scenario.anonymous (Scenario.t0 + 1))
           Scenario.api Scenario.origin (Some "token-alice"%string)
           Scenario.picked Scenario.key32 Scenario.iv12 Scenario.fid
           Scenario.sent Session.created).
  - vm_compute. reflexivity.
  - intros H. cbn in H.
    repeat (destruct H as [H | H]; [discriminate H |]). exact H.
  - intros H. cbn in H.
    repeat (destruct H as [H | H]; [discriminate H |]). exact H.
  - vm_compute. reflexivity.
  - vm_compute. reflexivity.
  - reflexivity.
  - vm_compute. reflexivity.
Defined.

(** ** The upload route, case by case *)

Section UploadCases.

Lemma logRequest_null (s : Db.State) req ev ex :
  Logging.logRequest s req ev None ex
  = Db.setLogs s (Db.logs s ++ [Events.row req ev None ex]).
Proof. reflexivity. Qed.

Lemma logRequest_present (s : Db.State) req ev fid ex f :
  fid <> ""%string ->
  Db.files s !! fid = Some f ->
  Logging.logRequest s req ev (Some fid) ex
  = Db.setLogs s (Db.logs s ++ [Events.row req ev (Some fid) ex]).
Proof.
  intros Hne Hf.
  unfold Logging.logRequest, Logging.logEvent, Db.insertLog, Events.row.
  cbn [Log.fileId]. unfold Js.orElse, Js.truthy.
  destruct (String.eqb_spec fid ""); [contradiction |]. cbn [negb].
  rewrite Hf. reflexivity.
Qed.

Lemma logRequest_absent (s : Db.State) req ev fid ex :
  fid <> ""%string ->
  Db.files s !! fid = None ->
  Logging.logRequest s req ev (Some fid) ex = s.
Proof.
  intros Hne Hf.
  unfold Logging.logRequest, Logging.logEvent, Db.insertLog.
  cbn [Log.fileId]. unfold Js.orElse, Js.truthy.
  destruct (String.eqb_spec fid ""); [contradiction |]. cbn [negb].
  rewrite Hf. reflexivity.
Qed.

End UploadCases.

(** X6: the upload route answers 201 exactly when the token is verified,
    the upload limiter admits the request, a file of at most the configured
    size is given, iv, filename and mimetype are not empty, the time to live
    is a number that puts the expiry inside the range of dates, the drawn id
    is not yet a record, and the user of the token is in the table of
    users. *)
Theorem X6_upload_created_iff
        (E : Http.Env) (s : Db.State) req form fid :
  Http.status (snd (Upload.post E s req form fid)) = 201
  <-> exists user buffer h,
      AuthMw.authenticateToken E req = inr user
      /\ Limits.uploadRefused E s req = false
      /\ Upload.file form = Some buffer
      /\ Z.of_nat (length buffer) <= Http.MAX_FILE_SIZE_MB E * 1024 * 1024
      /\ Js.truthy (Upload.iv form) = true
      /\ Js.truthy (Upload.filename form) = true
      /\ Js.truthy (Upload.mimetype form) = true
      /\ Upload.hoursUntilExpiry E form = Some h
      /\ - Dates.maxTime <= Http.now req + h * 60 * 60 * 1000 <= Dates.maxTime
      /\ Db.files s !! fid = None
      /\ is_Some (Db.users s !! AuthMw.id user).
Proof.
  unfold Upload.post, Limits.uploadRefused.
  destruct (AuthMw.authenticateToken E req) as [r0 | user] eqn:Ha.
  { split.
    - cbn [snd]. intros H.
      destruct (authenticate_rejected _ _ _ Ha) as [X | X];
        rewrite X in H; discriminate H.
    - intros (u & b & h & Hu & _). discriminate Hu. }
  destruct (RateLimit.consume _ _ _ _) as [hits refused]. cbn [snd].
  destruct refused.
  { split; [discriminate |]. intros (u & b & h & _ & Hr & _). discriminate Hr. }
  destruct (Upload.file form) as [buffer |] eqn:Hfile.
  2:{ unfold Upload.handler. rewrite Hfile. split; [discriminate |].
      intros (u & b & h & _ & _ & Hb & _). discriminate Hb. }
  destruct (Z.ltb_spec (Http.MAX_FILE_SIZE_MB E * 1024 * 1024)
              (Z.of_nat (length buffer))) as [Hbig | Hsmall].
  { split; [discriminate |].
    intros (u & b & h & _ & _ & [= <-] & Hle & _). lia. }
  unfold Upload.handler. rewrite Hfile.
  destruct (Js.truthy (Upload.iv form)) eqn:Hiv; cbn [negb orb].
  2:{ split; [discriminate |].
      intros (u & b & h & _ & _ & _ & _ & Hx & _). discriminate Hx. }
  destruct (Js.truthy (Upload.filename form)) eqn:Hfn; cbn [negb orb].
  2:{ split; [discriminate |].
      intros (u & b & h & _ & _ & _ & _ & _ & Hx & _). discriminate Hx. }
  destruct (Js.truthy (Upload.mimetype form)) eqn:Hmt; cbn [negb orb].
  2:{ split; [discriminate |].
      intros (u & b & h & _ & _ & _ & _ & _ & _ & Hx & _). discriminate Hx. }
  cbv zeta. unfold Upload.expiryDate, Dates.newDate.
  destruct (Upload.hoursUntilExpiry E form) as [h |] eqn:Hh.
  2:{ split; [discriminate |].
      intros (u & b & h & _ & _ & _ & _ & _ & _ & _ & Hx & _). discriminate Hx. }
  destruct ((- Dates.maxTime <=? Http.now req + h * 60 * 60 * 1000)
            && (Http.now req + h * 60 * 60 * 1000 <=? Dates.maxTime)) eqn:Hrange.
  2:{ split; [discriminate |].
      intros (u & b & h' & _ & _ & _ & _ & _ & _ & _ & [= <-] & Hx & _).
      apply andb_false_iff in Hrange. rewrite !Z.leb_nle in Hrange. lia. }
  apply andb_true_iff in Hrange. rewrite !Z.leb_le in Hrange.
  unfold Db.insertFile. cbn [File.id File.ownerId Upload.record].
  cbn [Db.files Db.users Db.writeFile Db.setDisk Db.setUploadHits].
  destruct (Db.files s !! fid) eqn:Hnone.
  { split; [discriminate |].
    intros (u & b & h' & _ & _ & _ & _ & _ & _ & _ & _ & _ & Hx & _).
    discriminate Hx. }
  destruct (Db.users s !! AuthMw.id user) eqn:Huser.
  2:{ split; [discriminate |].
      intros (u & b & h' & [= <-] & _ & _ & _ & _ & _ & _ & _ & _ & _ & Hx).
      rewrite Huser in Hx. destruct Hx as [? Hx]. discriminate Hx. }
  split; [| reflexivity]. intros _.
  exists user, buffer, h. repeat split; try assumption; try reflexivity; try lia.
  rewrite Huser. eauto.
Qed.
(** X7: what a 201 answer of the upload route has committed: the record
    under the drawn id, with the fields of the form, the user of the token
    as owner, the clock of the request as [createdAt] and no download; the
    bytes under the path of the record; one UPLOAD_OK event that names the
    id; and the answer holds the id and the ISO text of the expiry.  The
    table of users is as before. *)
Theorem X7_upload_commits
        (E : Http.Env) (s : Db.State) req form fid :
  fid <> ""%string ->
  Http.status (snd (Upload.post E s req form fid)) = 201 ->
  exists user buffer h,
    AuthMw.authenticateToken E req = inr user
    /\ Upload.file form = Some buffer
    /\ Upload.hoursUntilExpiry E form = Some h
    /\ Db.files (fst (Upload.post E s req form fid))
       = <[fid := Upload.record E user form fid buffer (Http.now req)
                    (Http.now req + h * 60 * 60 * 1000)]> (Db.files s)
    /\ Db.disk (fst (Upload.post E s req form fid))
       = <[Upload.filePath E fid := buffer]> (Db.disk s)
    /\ Db.logs (fst (Upload.post E s req form fid))
       = Db.logs s
         ++ [Events.row req Log.UPLOAD_OK (Some fid)
               (Some [("filename"%string,
                       Log.JStr (Js.orDefault (Upload.filename form) ""));
                      ("filesize"%string,
                       Log.JNum (Z.of_nat (length buffer)));
                      ("expiryHours"%string, Log.JNum h)])]
    /\ Db.users (fst (Upload.post E s req form fid)) = Db.users s
    /\ snd (Upload.post E s req form fid)
       = Http.json 201
           (Http.Uploaded fid
              (Dates.toISOString (Http.now req + h * 60 * 60 * 1000))).
Proof.
  intros Hfid. unfold Upload.post.
  destruct (AuthMw.authenticateToken E req) as [r0 | user] eqn:Ha.
  { cbn [snd]. intros H.
    destruct (authenticate_rejected _ _ _ Ha) as [X | X];
      rewrite X in H; discriminate H. }
  destruct (RateLimit.consume _ _ _ _) as [hits refused].
  destruct refused; [discriminate |].
  destruct (Upload.file form) as [buffer |] eqn:Hfile.
  2:{ unfold Upload.handler. rewrite Hfile. discriminate. }
  destruct (_ <? _); [discriminate |].
  unfold Upload.handler. rewrite Hfile.
  destruct (negb _ || _ || _); [discriminate |].
  cbv zeta. unfold Upload.expiryDate, Dates.newDate.
  destruct (Upload.hoursUntilExpiry E form) as [h |] eqn:Hh; [| discriminate].
  destruct (_ && _); [| discriminate].
  unfold Db.insertFile. cbn [File.id File.ownerId Upload.record].
  cbn [Db.files Db.users Db.writeFile Db.setDisk Db.setUploadHits].
  destruct (Db.files s !! fid) eqn:Hnone; [discriminate |].
  destruct (Db.users s !! AuthMw.id user); [| discriminate].
  intros _. exists user, buffer, h.
  erewrite logRequest_present;
    [| exact Hfid | cbn [Db.files Db.setFiles]; apply lookup_insert_eq].
  cbn [fst snd Db.files Db.disk Db.logs Db.users Db.setLogs Db.setFiles
       File.filename File.filesize].
  repeat split; reflexivity.
Qed.

Lemma X7_upload_commits_witness :
  Scenario.fid <> ""%string
  /\ Http.status
       (snd (Upload.post Scenario.env Scenario.registered
               (Scenario.asAlice Scenario.t0) (Scenario.form None)
               Scenario.fid)) = 201
  /\ exists user buffer h,
      AuthMw.authenticateToken Scenario.env (Scenario.asAlice Scenario.t0)
      = inr user
      /\ Upload.file (Scenario.form None) = Some buffer
      /\ Upload.hoursUntilExpiry Scenario.env (Scenario.form None) = Some h
      /\ Db.files
           (fst (Upload.post Scenario.env Scenario.registered
                   (Scenario.asAlice Scenario.t0) (Scenario.form None)
                   Scenario.fid))
         = <[Scenario.fid :=
               Upload.record Scenario.env user (Scenario.form None)
                 Scenario.fid buffer (Http.now (Scenario.asAlice Scenario.t0))
                 (Http.now (Scenario.asAlice Scenario.t0)
                  + h * 60 * 60 * 1000)]>
             (Db.files Scenario.registered).
Proof.
  assert (H1 : Scenario.fid <> ""%string) by discriminate.
  assert (H2 : Http.status
                 (snd (Upload.post Scenario.env Scenario.registered
                         (Scenario.asAlice Scenario.t0) (Scenario.form None)
                         Scenario.fid)) = 201)
    by (vm_compute; reflexivity).
  split; [exact H1 |]. split; [exact H2 |].
  destruct (X7_upload_commits Scenario.env Scenario.registered
              (Scenario.asAlice Scenario.t0) (Scenario.form None)
              Scenario.fid H1 H2)
    as (user & buffer & h & Ha & Hf & Hh & Hfiles & _).
  exists user, buffer, h.
  split; [exact Ha |]. split; [exact Hf |]. split; [exact Hh | exact Hfiles].
Defined.

(** X8: an upload that passes authentication, the limiter and the checks of
    its fields, but whose time to live is not a number or puts the expiry
    outside the range of dates, is answered 500.  No record is committed,
    but the bytes have already been written under the path of the drawn id,
    and one UPLOAD_FAILED event with no file id is logged. *)
Theorem X8_upload_invalid_expiry_leaves_bytes
        (E : Http.Env) (s : Db.State) req form fid user buffer :
  AuthMw.authenticateToken E req = inr user ->
  Limits.uploadRefused E s req = false ->
  Upload.file form = Some buffer ->
  Z.of_nat (length buffer) <= Http.MAX_FILE_SIZE_MB E * 1024 * 1024 ->
  Js.truthy (Upload.iv form) = true ->
  Js.truthy (Upload.filename form) = true ->
  Js.truthy (Upload.mimetype form) = true ->
  Upload.expiryDate (Http.now req) (Upload.hoursUntilExpiry E form) = None ->
  snd (Upload.post E s req form fid)
  = Http.json 500 (Http.Error "Failed to upload file")
  /\ Db.files (fst (Upload.post E s req form fid)) = Db.files s
  /\ Db.disk (fst (Upload.post E s req form fid))
     = <[Upload.filePath E fid := buffer]> (Db.disk s)
  /\ Db.logs (fst (Upload.post E s req form fid))
     = Db.logs s
       ++ [Events.row req Log.UPLOAD_FAILED None
             (Some [("error"%string, Log.JStr "Invalid time value")])].
Proof.
  intros Ha Hadm Hfile Hsize Hiv Hfn Hmt Hexp.
  unfold Upload.post, Limits.uploadRefused in *. rewrite Ha.
  destruct (RateLimit.consume _ _ _ _) as [hits refused].
  cbn [snd] in Hadm. subst refused. rewrite Hfile.
  apply Z.ltb_ge in Hsize. rewrite Hsize.
  unfold Upload.handler. rewrite Hfile, Hiv, Hfn, Hmt. cbn [negb orb].
  cbv zeta. rewrite Hexp. rewrite logRequest_null.
  repeat split; reflexivity.
Qed.

Lemma X8_upload_invalid_expiry_leaves_bytes_witness :
  snd (Upload.post Scenario.env Scenario.registered
         (Scenario.asAlice Scenario.t0) (Scenario.form (Some "soon"%string))
         Scenario.fid)
  = Http.json 500 (Http.Error "Failed to upload file")
  /\ Db.files
       (fst (Upload.post Scenario.env Scenario.registered
               (Scenario.asAlice Scenario.t0)
               (Scenario.form (Some "soon"%string)) Scenario.fid))
     = Db.files Scenario.registered
  /\ Db.disk
       (fst (Upload.post Scenario.env Scenario.registered
               (Scenario.asAlice Scenario.t0)
               (Scenario.form (Some "soon"%string)) Scenario.fid))
     = <[Upload.filePath Scenario.env Scenario.fid := [x01; x02; x03]]>
         (Db.disk Scenario.registered)
  /\ Db.logs
       (fst (Upload.post Scenario.env Scenario.registered
               (Scenario.asAlice Scenario.t0)
               (Scenario.form (Some "soon"%string)) Scenario.fid))
     = Db.logs Scenario.registered
       ++ [Events.row (Scenario.asAlice Scenario.t0) Log.UPLOAD_FAILED None
             (Some [("error"%string, Log.JStr "Invalid time value")])].
Proof.
  apply (X8_upload_invalid_expiry_leaves_bytes Scenario.env
           Scenario.registered (Scenario.asAlice Scenario.t0)
           (Scenario.form (Some "soon"%string)) Scenario.fid Scenario.alice
           [x01; x02; x03]).
  - vm_compute. reflexivity.
  - vm_compute. reflexivity.
  - reflexivity.
  - vm_compute. intros H. discriminate H.
  - reflexivity.
  - reflexivity.
  - reflexivity.
  - vm_compute. reflexivity.
Defined.

(** X9: an upload that passes authentication and the limiter but brings no
    file, or brings a file of accepted size with an empty or missing iv,
    filename or mimetype, is answered 400; records and bytes are as before,
    and one UPLOAD_FAILED event with no file id is logged. *)
Theorem X9_upload_missing_input
        (E : Http.Env) (s : Db.State) req form fid user :
  AuthMw.authenticateToken E req = inr user ->
  Limits.uploadRefused E s req = false ->
  Upload.file form = None
  \/ (exists buffer,
         Upload.file form = Some buffer
         /\ Z.of_nat (length buffer) <= Http.MAX_FILE_SIZE_MB E * 1024 * 1024
         /\ (Js.truthy (Upload.iv form) = false
             \/ Js.truthy (Upload.filename form) = false
             \/ Js.truthy (Upload.mimetype form) = false)) ->
  Spec.outcome (snd (Upload.post E s req form fid)) = Spec.InvalidInput
  /\ Db.files (fst (Upload.post E s req form fid)) = Db.files s
  /\ Db.disk (fst (Upload.post E s req form fid)) = Db.disk s
  /\ exists reason,
      Db.logs (fst (Upload.post E s req form fid))
      = Db.logs s
        ++ [Events.row req Log.UPLOAD_FAILED None
              (Some [("reason"%string, Log.JStr reason)])].
Proof.
  intros Ha Hadm Hcase.
  unfold Upload.post, Limits.uploadRefused in *. rewrite Ha.
  destruct (RateLimit.consume _ _ _ _) as [hits refused].
  cbn [snd] in Hadm. subst refused.
  destruct Hcase as [Hnone | (buffer & Hfile & Hsize & Hmiss)].
  - rewrite Hnone. unfold Upload.handler. rewrite Hnone.
    rewrite logRequest_null. repeat split; try reflexivity.
    eexists. reflexivity.
  - rewrite Hfile. apply Z.ltb_ge in Hsize. rewrite Hsize.
    unfold Upload.handler. rewrite Hfile.
    assert (Hor : negb (Js.truthy (Upload.iv form))
                  || negb (Js.truthy (Upload.filename form))
                  || negb (Js.truthy (Upload.mimetype form)) = true).
    { destruct Hmiss as [H | [H | H]]; rewrite H; cbn [negb orb];
        rewrite ?orb_true_r; reflexivity. }
    rewrite Hor. rewrite logRequest_null. repeat split; try reflexivity.
    eexists. reflexivity.
Qed.

Lemma X9_upload_missing_input_witness :
  Spec.outcome
    (snd (Upload.post Scenario.env Scenario.registered
            (Scenario.asAlice Scenario.t0)
            {| Upload.file := None; Upload.iv := None;
               Upload.filename := None; Upload.mimetype := None;
               Upload.expiresIn := None |} Scenario.fid))
  = Spec.InvalidInput
  /\ Db.files
       (fst (Upload.post Scenario.env Scenario.registered
               (Scenario.asAlice Scenario.t0)
               {| Upload.file := None; Upload.iv := None;
                  Upload.filename := None; Upload.mimetype := None;
                  Upload.expiresIn := None |} Scenario.fid))
     = Db.files Scenario.registered.
Proof.
  destruct (X9_upload_missing_input Scenario.env Scenario.registered
              (Scenario.asAlice Scenario.t0)
              {| Upload.file := None; Upload.iv := None;
                 Upload.filename := None; Upload.mimetype := None;
                 Upload.expiresIn := None |} Scenario.fid Scenario.alice)
    as (H1 & H2 & _).
  - vm_compute. reflexivity.
  - vm_compute. reflexivity.
  - left. reflexivity.
  - split; [exact H1 | exact H2].
Defined.

(** ** middleware/auth.ts: which part of the header is the token *)

Section Bearer.

Lemma splitAux_word (c : ascii) (a b cur : list ascii) :
  ~ In c a ->
  Js.splitAux c (a ++ c :: b) cur
  = string_of_list_ascii (rev cur ++ a) :: Js.splitAux c b [].
Proof.
  revert cur. induction a as [| x a IH]; intros cur Hna.
  - cbn [app Js.splitAux]. rewrite Ascii.eqb_refl, app_nil_r. reflexivity.
  - cbn [app Js.splitAux].
    destruct (Ascii.eqb x c) eqn:Hx.
    + apply Ascii.eqb_eq in Hx. subst x. exfalso. apply Hna. left. reflexivity.
    + rewrite IH by (intros H; apply Hna; right; exact H).
      cbn [rev]. rewrite <- app_assoc. reflexivity.
Qed.

Lemma splitAux_last (c : ascii) (a cur : list ascii) :
  ~ In c a ->
  Js.splitAux c a cur = [string_of_list_ascii (rev cur ++ a)].
Proof.
  revert cur. induction a as [| x a IH]; intros cur Hna.
  - cbn [Js.splitAux]. rewrite app_nil_r. reflexivity.
  - cbn [Js.splitAux].
    destruct (Ascii.eqb x c) eqn:Hx.
    + apply Ascii.eqb_eq in Hx. subst x. exfalso. apply Hna. left. reflexivity.
    + rewrite IH by (intros H; apply Hna; right; exact H).
      cbn [rev]. rewrite <- app_assoc. reflexivity.
Qed.

Lemma split_second_word (scheme token tail : string) :
  ~ In " "%char (list_ascii_of_string scheme) ->
  ~ In " "%char (list_ascii_of_string token) ->
  tail = ""%string \/ (exists t, tail = String " " t) ->
  nth_error (Js.split " " (scheme ++ " " ++ token ++ tail)) 1 = Some token.
Proof.
  intros Hs Ht Htail. unfold Js.split.
  rewrite list_ascii_of_string_app.
  change (list_ascii_of_string (" " ++ token ++ tail))
    with (" "%char :: list_ascii_of_string (token ++ tail)).
  rewrite splitAux_word by exact Hs.
  rewrite list_ascii_of_string_app.
  destruct Htail as [-> | [t ->]].
  - cbn [list_ascii_of_string]. rewrite app_nil_r.
    rewrite splitAux_last by exact Ht.
    cbn [nth_error rev app]. rewrite string_of_list_ascii_of_string.
    reflexivity.
  - cbn [list_ascii_of_string]. rewrite splitAux_word by exact Ht.
    cbn [nth_error rev app]. rewrite string_of_list_ascii_of_string.
    reflexivity.
Qed.

Lemma append_nonempty (a b : string) :
  b <> ""%string -> (a ++ b)%string <> ""%string.
Proof.
  intros Hb H. destruct a as [| x a]; [exact (Hb H) | discriminate H].
Qed.

End Bearer.

(** X10: [authenticateToken] takes the second word of the [authorization]
    header as the token, whatever the first word is: with a header
    [scheme token], possibly followed by a space and more, the request is
    authenticated as the user of [token] when [jwt.verify] accepts it, and
    answered 403 otherwise.  A header with no space in it, such as a bare
    token, is answered 401 even when the token would verify. *)
Theorem X10_token_is_second_word
        (E : Http.Env) (req : Http.Request) (h : string) :
  Http.authorization req = Some h ->
  (forall scheme token tail,
      h = (scheme ++ " " ++ token ++ tail)%string ->
      ~ In " "%char (list_ascii_of_string scheme) ->
      ~ In " "%char (list_ascii_of_string token) ->
      token <> ""%string ->
      tail = ""%string \/ (exists t, tail = String " " t) ->
      AuthMw.authenticateToken E req
      = match Http.jwtVerify E token with
        | Some (i, e) => inr {| AuthMw.id := i; AuthMw.email := e |}
        | None => inl (Http.json 403 (Http.Error "Invalid or expired token"))
        end)
  /\ (~ In " "%char (list_ascii_of_string h) ->
      AuthMw.authenticateToken E req
      = inl (Http.json 401 (Http.Error "Access token required"))).
Proof.
  intros Hh. split.
  - intros scheme token tail -> Hs Ht Hne Htail.
    unfold AuthMw.authenticateToken, AuthMw.bearerToken. rewrite Hh.
    assert (Htr : Js.truthy (Some (scheme ++ " " ++ token ++ tail)%string)
                  = true).
    { cbn [Js.truthy]. apply negb_true_iff, String.eqb_neq.
      apply append_nonempty. discriminate. }
    rewrite Htr. rewrite split_second_word by assumption.
    assert (Htok : Js.truthy (Some token) = true).
    { cbn [Js.truthy]. apply negb_true_iff, String.eqb_neq. exact Hne. }
    rewrite Htok. cbn [negb]. reflexivity.
  - intros Hno.
    unfold AuthMw.authenticateToken, AuthMw.bearerToken. rewrite Hh.
    destruct (Js.truthy (Some h)); [| reflexivity].
    unfold Js.split. rewrite splitAux_last by exact Hno.
    reflexivity.
Qed.

Lemma X10_token_is_second_word_witness :
  AuthMw.authenticateToken Scenario.env
    (Scenario.request (Some "Basic token-bob extra"%string) Scenario.t0)
  = inr Scenario.bob
  /\ AuthMw.authenticateToken Scenario.env
       (Scenario.request (Some "token-bob"%string) Scenario.t0)
     = inl (Http.json 401 (Http.Error "Access token required")).
Proof.
  split.
  - apply (proj1 (X10_token_is_second_word Scenario.env
                    (Scenario.request (Some "Basic token-bob extra"%string)
                       Scenario.t0)
                    "Basic token-bob extra" eq_refl)
             "Basic"%string "token-bob"%string " extra"%string).
    + reflexivity.
    + vm_compute. intros H.
      repeat (destruct H as [H | H]; [discriminate H |]). exact H.
    + vm_compute. intros H.
      repeat (destruct H as [H | H]; [discriminate H |]). exact H.
    + discriminate.
    + right. exists "extra"%string. reflexivity.
  - apply (proj2 (X10_token_is_second_word Scenario.env
                    (Scenario.request (Some "token-bob"%string) Scenario.t0)
                    "token-bob" eq_refl)).
    vm_compute. intros H.
      repeat (destruct H as [H | H]; [discriminate H |]). exact H.
Defined.
(** ** routes/auth.ts: accounts *)

Section Accounts.

Lemma In_users (s : Db.State) (u : User.User) :
  In u (map snd (map_to_list (Db.users s)))
  <-> exists k, Db.users s !! k = Some u.
Proof.
  rewrite in_map_iff. split.
  - intros [[k u'] [Heq Hin]]. cbn [snd] in Heq. subst u'. exists k.
    apply elem_of_map_to_list, list_elem_of_In, Hin.
  - intros [k Hk]. exists (k, u). split; [reflexivity |].
    apply list_elem_of_In, elem_of_map_to_list, Hk.
Qed.

Lemma findUser_some (s : Db.State) (e : string) (u : User.User) :
  Db.findUserByEmail s e = Some u ->
  (exists k, Db.users s !! k = Some u) /\ User.email u = e.
Proof.
  unfold Db.findUserByEmail. intros H. apply find_some in H.
  destruct H as [Hin He]. split.
  - apply In_users, Hin.
  - apply String.eqb_eq, He.
Qed.

Lemma findUser_none (s : Db.State) (e : string) :
  Db.findUserByEmail s e = None ->
  forall k u, Db.users s !! k = Some u -> User.email u <> e.
Proof.
  unfold Db.findUserByEmail. intros H k u Hk.
  apply String.eqb_neq.
  apply (find_none _ _ H u). apply In_users. exists k. exact Hk.
Qed.

Lemma findUser_insert (s : Db.State) (u : User.User) :
  Db.findUserByEmail s (User.email u) = None ->
  Db.findUserByEmail (Db.setUsers s (<[User.id u := u]> (Db.users s)))
                     (User.email u) = Some u.
Proof.
  intros Hnone.
  destruct (Db.findUserByEmail (Db.setUsers s _) (User.email u))
    as [u' |] eqn:Hf.
  - apply findUser_some in Hf. destruct Hf as [[k Hk] He].
    cbn [Db.users Db.setUsers] in Hk.
    destruct (decide (k = User.id u)) as [-> | Hne].
    + rewrite lookup_insert_eq in Hk. congruence.
    + rewrite lookup_insert_ne in Hk by congruence.
      exfalso. exact (findUser_none s _ Hnone k u' Hk He).
  - exfalso.
    apply (findUser_none _ _ Hf (User.id u) u); [| reflexivity].
    cbn [Db.users Db.setUsers]. apply lookup_insert_eq.
Qed.

(** What a 201 answer of the registration says about its input and
    leaves in the state. *)
Lemma register_created (E : Http.Env) (s : Db.State) req email password uid :
  Http.status (snd (AuthRoutes.register E s req email password uid)) = 201 ->
  Js.truthy email = true /\ Js.truthy password = true
  /\ AuthRoutes.emailRegexTest (Js.orDefault email "") = true
  /\ (8 <= String.length (Js.orDefault password ""))%nat
  /\ Db.findUserByEmail s (Js.orDefault email "") = None
  /\ Db.users s !! uid = None
  /\ AuthRoutes.register E s req email password uid
     = (Db.setUsers s
          (<[uid := {| User.id := uid; User.email := Js.orDefault email "";
                       User.passwordHash :=
                         Http.bcryptHash E (Js.orDefault password "");
                       User.createdAt := Http.now req |}]> (Db.users s)),
        Http.json 201
          (Http.Auth (Http.jwtSign E uid (Js.orDefault email "")
                        (Http.now req))
                     uid (Js.orDefault email ""))).
Proof.
  unfold AuthRoutes.register.
  destruct (Js.truthy email); [| intros H; discriminate H].
  destruct (Js.truthy password); [| intros H; discriminate H].
  cbn [negb orb]. cbv zeta.
  destruct (AuthRoutes.emailRegexTest _); [| intros H; discriminate H].
  cbn [negb].
  destruct (String.length _ <? 8)%nat eqn:Hlen; [intros H; discriminate H |].
  apply Nat.ltb_ge in Hlen.
  destruct (Db.findUserByEmail s _) eqn:Hfind; [intros H; discriminate H |].
  unfold Db.insertUser. cbn [User.id User.email]. rewrite Hfind.
  destruct (Db.users s !! uid) eqn:Hu; [intros H; discriminate H |].
  intros _. repeat split; try reflexivity. exact Hlen.
Qed.

End Accounts.

(** X11: a registration answered 201 has stored one new user under the
    drawn id, with the email of the request and the bcrypt hash of the
    password (not the password), and nothing else has changed.  If bcrypt
    accepts a password against its own hash, a login with the same email and
    password that the limiter admits is then answered 200 with the id and
    the email of that user. *)
Theorem X11_register_then_login
        (E : Http.Env) (s : Db.State) req req' email password uid :
  Http.status (snd (AuthRoutes.register E s req email password uid)) = 201 ->
  Http.bcryptCompare E (Js.orDefault password "")
    (Http.bcryptHash E (Js.orDefault password "")) = true ->
  Limits.loginRefused E (fst (AuthRoutes.register E s req email password uid))
    req' = false ->
  Db.users (fst (AuthRoutes.register E s req email password uid))
  = <[uid := {| User.id := uid; User.email := Js.orDefault email "";
                User.passwordHash :=
                  Http.bcryptHash E (Js.orDefault password "");
                User.createdAt := Http.now req |}]> (Db.users s)
  /\ Db.users s !! uid = None
  /\ Db.files (fst (AuthRoutes.register E s req email password uid))
     = Db.files s
  /\ Db.disk (fst (AuthRoutes.register E s req email password uid))
     = Db.disk s
  /\ Db.logs (fst (AuthRoutes.register E s req email password uid))
     = Db.logs s
  /\ snd (AuthRoutes.login E
            (fst (AuthRoutes.register E s req email password uid))
            req' email password)
     = Http.json 200
         (Http.Auth (Http.jwtSign E uid (Js.orDefault email "")
                       (Http.now req'))
                    uid (Js.orDefault email "")).
Proof.
  intros H201 Hbcrypt Hadm.
  destruct (register_created _ _ _ _ _ _ H201)
    as (Hte & Htp & _ & _ & Hfind & Hu & Heq).
  rewrite Heq in *. cbn [fst Db.users Db.files Db.disk Db.logs Db.setUsers].
  repeat (split; [first [reflexivity | exact Hu] |]).
  unfold AuthRoutes.login. unfold Limits.loginRefused in Hadm.
  cbn [fst] in Hadm.
  destruct (RateLimit.consume _ _ _ _) as [hits refused].
  cbn [snd] in Hadm. subst refused.
  unfold AuthRoutes.loginHandler. rewrite Hte, Htp. cbn [negb orb]. cbv zeta.
  set (u := {| User.id := uid; User.email := Js.orDefault email "";
               User.passwordHash :=
                 Http.bcryptHash E (Js.orDefault password "");
               User.createdAt := Http.now req |}).
  assert (Hf : Db.findUserByEmail
                 (Db.setAuthHits
                    (Db.setUsers s (<[uid := u]> (Db.users s))) hits)
                 (Js.orDefault email "") = Some u).
  { exact (findUser_insert s u Hfind). }
  rewrite Hf. cbn [User.passwordHash User.id User.email u].
  rewrite Hbcrypt. reflexivity.
Qed.

Lemma X11_register_then_login_witness :
  Db.users Scenario.registered !! "carol"%string = None
  /\ snd (AuthRoutes.login Scenario.env
            (fst (AuthRoutes.register Scenario.env Scenario.registered
                    (Scenario.anonymous Scenario.t0)
                    (Some "carol@example.org"%string)
                    (Some "open sesame"%string) "carol"))
            (Scenario.anonymous (Scenario.t0 + 5))
            (Some "carol@example.org"%string) (Some "open sesame"%string))
     = Http.json 200
         (Http.Auth "token-carol" "carol" "carol@example.org").
Proof.
  destruct (X11_register_then_login Scenario.env Scenario.registered
              (Scenario.anonymous Scenario.t0)
              (Scenario.anonymous (Scenario.t0 + 5))
              (Some "carol@example.org"%string) (Some "open sesame"%string)
              "carol")
    as (_ & H2 & _ & _ & _ & H6).
  - vm_compute. reflexivity.
  - vm_compute. reflexivity.
  - vm_compute. reflexivity.
  - split; [exact H2 | exact H6].
Defined.

(** X12: a login that the limiter admits, with an email and a password,
    is answered with the same 401 'Invalid credentials' whether no user has
    the email or the password does not match: the answer does not tell
    which.  Users, records and bytes are as before; one AUTH_FAILED event is
    logged, with the reason and the email that was tried. *)
Theorem X12_login_failure_is_uniform
        (E : Http.Env) (s : Db.State) req email password :
  Js.truthy email = true ->
  Js.truthy password = true ->
  Limits.loginRefused E s req = false ->
  (forall u, Db.findUserByEmail s (Js.orDefault email "") = Some u ->
             Http.bcryptCompare E (Js.orDefault password "")
               (User.passwordHash u) = false) ->
  snd (AuthRoutes.login E s req email password)
  = Http.json 401 (Http.Error "Invalid credentials")
  /\ Db.users (fst (AuthRoutes.login E s req email password)) = Db.users s
  /\ Db.files (fst (AuthRoutes.login E s req email password)) = Db.files s
  /\ Db.disk (fst (AuthRoutes.login E s req email password)) = Db.disk s
  /\ exists reason,
      Db.logs (fst (AuthRoutes.login E s req email password))
      = Db.logs s
        ++ [Events.row req Log.AUTH_FAILED None
              (Some [("reason"%string, Log.JStr reason);
                     ("email"%string, Log.JStr (Js.orDefault email ""))])].
Proof.
  intros Hte Htp Hadm Hbad.
  unfold AuthRoutes.login. unfold Limits.loginRefused in Hadm.
  destruct (RateLimit.consume _ _ _ _) as [hits refused].
  cbn [snd] in Hadm. subst refused.
  unfold AuthRoutes.loginHandler. rewrite Hte, Htp. cbn [negb orb]. cbv zeta.
  change (Db.findUserByEmail (Db.setAuthHits s hits) (Js.orDefault email ""))
    with (Db.findUserByEmail s (Js.orDefault email "")).
  destruct (Db.findUserByEmail s (Js.orDefault email "")) as [u |] eqn:Hf.
  - rewrite (Hbad u eq_refl). cbn [negb]. rewrite logRequest_null.
    repeat split; try reflexivity. eexists. reflexivity.
  - rewrite logRequest_null.
    repeat split; try reflexivity. eexists. reflexivity.
Qed.

Lemma X12_login_failure_is_uniform_witness :
  snd (AuthRoutes.login Scenario.env Scenario.registered
         (Scenario.anonymous Scenario.t0)
         (Some "bob@example.org"%string) (Some "correct horse"%string))
  = Http.json 401 (Http.Error "Invalid credentials")
  /\ snd (AuthRoutes.login Scenario.env Scenario.registered
            (Scenario.anonymous Scenario.t0)
            (Some "nobody@example.org"%string) (Some "correct horse"%string))
     = Http.json 401 (Http.Error "Invalid credentials").
Proof.
  split.
  - apply (X12_login_failure_is_uniform Scenario.env Scenario.registered
             (Scenario.anonymous Scenario.t0)
             (Some "bob@example.org"%string) (Some "correct horse"%string)).
    + reflexivity.
    + reflexivity.
    + vm_compute. reflexivity.
    + vm_compute. intros u H. injection H as <-. reflexivity.
  - apply (X12_login_failure_is_uniform Scenario.env Scenario.registered
             (Scenario.anonymous Scenario.t0)
             (Some "nobody@example.org"%string)
             (Some "correct horse"%string)).
    + reflexivity.
    + reflexivity.
    + vm_compute. reflexivity.
    + vm_compute. intros u H. discriminate H.
Defined.

(** X13: once a registration has been answered 201, a later registration
    with the same email changes nothing, whatever password and id it
    brings: it is answered 409 when its password has eight characters or
    more, and 400 otherwise. *)
Theorem X13_email_is_registered_once
        (E : Http.Env) (s : Db.State) req req' email password password'
        uid uid' :
  Http.status (snd (AuthRoutes.register E s req email password uid)) = 201 ->
  fst (AuthRoutes.register E
         (fst (AuthRoutes.register E s req email password uid))
         req' email password' uid')
  = fst (AuthRoutes.register E s req email password uid)
  /\ snd (AuthRoutes.register E
            (fst (AuthRoutes.register E s req email password uid))
            req' email password' uid')
     = if Js.truthy password'
          && (8 <=? String.length (Js.orDefault password' ""))%nat
       then Http.json 409 (Http.Error "User with this email already exists")
       else if Js.truthy password'
       then Http.json 400
              (Http.Error "Password must be at least 8 characters")
       else Http.json 400 (Http.Error "Email and password are required").
Proof.
  intros H201.
  destruct (register_created _ _ _ _ _ _ H201)
    as (Hte & _ & Hre & _ & Hfind & _ & Heq).
  rewrite Heq. cbn [fst].
  unfold AuthRoutes.register. rewrite Hte. cbn [negb orb].
  destruct (Js.truthy password'); cbn [negb andb];
    [| split; reflexivity].
  cbv zeta. rewrite Hre. cbn [negb].
  rewrite Nat.ltb_antisym.
  destruct (8 <=? String.length (Js.orDefault password' ""))%nat;
    cbn [negb]; [| split; reflexivity].
  set (u := {| User.id := uid; User.email := Js.orDefault email "";
               User.passwordHash :=
                 Http.bcryptHash E (Js.orDefault password "");
               User.createdAt := Http.now req |}).
  assert (Hf : Db.findUserByEmail
                 (Db.setUsers s (<[uid := u]> (Db.users s)))
                 (Js.orDefault email "") = Some u)
    by exact (findUser_insert s u Hfind).
  rewrite Hf. split; reflexivity.
Qed.

Lemma X13_email_is_registered_once_witness :
  fst (AuthRoutes.register Scenario.env
         (fst (AuthRoutes.register Scenario.env Scenario.registered
                 (Scenario.anonymous Scenario.t0)
                 (Some "carol@example.org"%string)
                 (Some "open sesame"%string) "carol"))
         (Scenario.anonymous (Scenario.t0 + 9))
         (Some "carol@example.org"%string) (Some "another one"%string)
         "carol2")
  = fst (AuthRoutes.register Scenario.env Scenario.registered
           (Scenario.anonymous Scenario.t0)
           (Some "carol@example.org"%string)
           (Some "open sesame"%string) "carol")
  /\ Http.status
       (snd (AuthRoutes.register Scenario.env Scenario.registered
               (Scenario.anonymous Scenario.t0)
               (Some "carol@example.org"%string)
               (Some "open sesame"%string) "carol")) = 201.
Proof.
  assert (H : Http.status
                (snd (AuthRoutes.register Scenario.env Scenario.registered
                        (Scenario.anonymous Scenario.t0)
                        (Some "carol@example.org"%string)
                        (Some "open sesame"%string) "carol")) = 201)
    by (vm_compute; reflexivity).
  split; [| exact H].
  exact (proj1 (X13_email_is_registered_once Scenario.env Scenario.registered
                  (Scenario.anonymous Scenario.t0)
                  (Scenario.anonymous (Scenario.t0 + 9))
                  (Some "carol@example.org"%string)
                  (Some "open sesame"%string) (Some "another one"%string)
                  "carol" "carol2" H)).
Defined.

(** ** routes/myfiles.ts: the owner's delete and the owner's list *)

Section OwnerRoutes.

Lemma uuid_nonempty (fid : string) :
  Js.uuidRegexTest fid = true -> fid <> ""%string.
Proof. intros H ->. discriminate H. Qed.

Lemma unlink_disk (s : Db.State) (p : string) :
  Db.disk (match Db.unlinkSync s p with inr s' => s' | inl _ => s end)
  = delete p (Db.disk s).
Proof.
  unfold Db.unlinkSync. destruct (Db.disk s !! p) eqn:Hp.
  - reflexivity.
  - symmetry. apply delete_id. exact Hp.
Qed.

Lemma unlink_logs (s : Db.State) (p : string) :
  Db.logs (match Db.unlinkSync s p with inr s' => s' | inl _ => s end)
  = Db.logs s.
Proof. unfold Db.unlinkSync. destruct (Db.disk s !! p); reflexivity. Qed.

Lemma unlink_users (s : Db.State) (p : string) :
  Db.users (match Db.unlinkSync s p with inr s' => s' | inl _ => s end)
  = Db.users s.
Proof. unfold Db.unlinkSync. destruct (Db.disk s !! p); reflexivity. Qed.

(** The metadata route never changes the state: the only write it tries
    is the NOT_FOUND event of an id that matches the pattern and has no
    record, and that insertion violates the foreign key of [logs.fileId]. *)
Lemma getMetadata_state (E : Http.Env) (s : Db.State) req fid :
  fst (FileRoutes.getMetadata E s req fid) = s.
Proof.
  unfold FileRoutes.getMetadata.
  destruct (Js.uuidRegexTest fid) eqn:Hu; cbn [negb]; [| reflexivity].
  destruct (Db.files s !! fid) eqn:Hf; [reflexivity |].
  cbn [fst]. apply logRequest_absent; [apply uuid_nonempty, Hu | exact Hf].
Qed.

Lemma insertBy_In {A : Type} (before : A -> A -> bool) (x y : A) (l : list A) :
  In y (MyFiles.insertBy before x l) <-> y = x \/ In y l.
Proof.
  induction l as [| z l IH]; cbn [MyFiles.insertBy In].
  - intuition congruence.
  - destruct (before z x); cbn [In]; [rewrite IH |]; intuition congruence.
Qed.

Lemma insertBy_ids (before : File.EncryptedFile -> File.EncryptedFile -> bool)
      (x : File.EncryptedFile) (l : list File.EncryptedFile) :
  ~ In (File.id x) (map File.id l) ->
  List.NoDup (map File.id l) ->
  List.NoDup (map File.id (MyFiles.insertBy before x l)).
Proof.
  induction l as [| z l IH]; cbn [MyFiles.insertBy map]; intros Hx Hnd.
  - constructor; [intros [] | constructor].
  - destruct (before z x); cbn [map].
    + inversion Hnd as [| ? ? Hz Hl]; subst. constructor.
      * rewrite in_map_iff. intros [w [Hw Hin]].
        apply insertBy_In in Hin. destruct Hin as [-> | Hin].
        -- apply Hx. left. symmetry. exact Hw.
        -- apply Hz. apply in_map_iff. exists w. split; assumption.
      * apply IH; [| exact Hl]. intros H. apply Hx. right. exact H.
    + constructor; assumption.
Qed.

Lemma insertBy_sorted {A : Type} (key : A -> string) (x : A) (l : list A) :
  Sorted.Sorted (fun a b => Dates.textLt (key a) (key b) = false) l ->
  Sorted.Sorted (fun a b => Dates.textLt (key a) (key b) = false)
    (MyFiles.insertBy (fun a b => Dates.textLt (key b) (key a)) x l).
Proof.
  induction l as [| z l IH]; cbn [MyFiles.insertBy]; intros Hs.
  - constructor; constructor.
  - destruct (Dates.textLt (key x) (key z)) eqn:Hxz.
    + inversion Hs as [| ? ? Hl Hhd]; subst. constructor.
      * apply IH, Hl.
      * destruct l as [| w l]; cbn [MyFiles.insertBy].
        -- constructor. unfold Dates.textLt, String.ltb in *.
           rewrite String.compare_antisym.
           destruct (String.compare (key x) (key z)); try discriminate Hxz.
           reflexivity.
        -- destruct (Dates.textLt (key x) (key w)).
           ++ constructor. inversion Hhd; subst. assumption.
           ++ constructor. unfold Dates.textLt, String.ltb in *.
              rewrite String.compare_antisym.
              destruct (String.compare (key x) (key z));
                try discriminate Hxz.
              reflexivity.
    + constructor; [exact Hs |]. constructor. exact Hxz.
Qed.

Lemma In_files (s : Db.State) (f : File.EncryptedFile) :
  In f (map snd (map_to_list (Db.files s)))
  <-> exists k, Db.files s !! k = Some f.
Proof.
  rewrite in_map_iff. split.
  - intros [[k f'] [Heq Hin]]. cbn [snd] in Heq. subst f'. exists k.
    apply elem_of_map_to_list, list_elem_of_In, Hin.
  - intros [k Hk]. exists (k, f). split; [reflexivity |].
    apply list_elem_of_In, elem_of_map_to_list, Hk.
Qed.

Lemma keyed_ids (s : Db.State) :
  Spec.keyed s ->
  map File.id (map snd (map_to_list (Db.files s)))
  = map fst (map_to_list (Db.files s)).
Proof.
  intros Hk. rewrite map_map. apply map_ext_in.
  intros [k f] Hin. cbn [snd fst]. apply Hk.
  apply elem_of_map_to_list, list_elem_of_In, Hin.
Qed.

Lemma NoDup_ids_filter (P : File.EncryptedFile -> bool)
      (l : list File.EncryptedFile) :
  List.NoDup (map File.id l) -> List.NoDup (map File.id (List.filter P l)).
Proof.
  induction l as [| x l IH]; cbn [List.filter map]; intros Hnd.
  - constructor.
  - inversion Hnd as [| ? ? Hx Hl]; subst.
    destruct (P x); cbn [map]; [| apply IH, Hl].
    constructor; [| apply IH, Hl].
    rewrite in_map_iff. intros [w [Hw Hin]]. apply filter_In in Hin.
    apply Hx. apply in_map_iff. exists w. tauto.
Qed.

Lemma selectByOwner_spec (s : Db.State) (owner : string) :
  Spec.keyed s ->
  (forall f, In f (MyFiles.selectByOwner s owner)
             <-> Db.files s !! File.id f = Some f /\ File.ownerId f = owner)
  /\ List.NoDup (map File.id (MyFiles.selectByOwner s owner))
  /\ Sorted.Sorted
       (fun a b =>
          Dates.textLt (Dates.toISOString (File.createdAt a))
                       (Dates.toISOString (File.createdAt b)) = false)
       (MyFiles.selectByOwner s owner).
Proof.
  intros Hk. unfold MyFiles.selectByOwner. cbv zeta.
  assert (Hnd : List.NoDup (map File.id
                         (List.filter
                            (fun f => String.eqb (File.ownerId f) owner)
                            (map snd (map_to_list (Db.files s)))))).
  { apply NoDup_ids_filter. rewrite keyed_ids by exact Hk.
    apply NoDup_ListNoDup, NoDup_fst_map_to_list. }
  assert (Hin : forall f,
             In f (List.filter (fun f => String.eqb (File.ownerId f) owner)
                     (map snd (map_to_list (Db.files s))))
             <-> Db.files s !! File.id f = Some f /\ File.ownerId f = owner).
  { intros f. rewrite filter_In, In_files, String.eqb_eq. split.
    - intros [[k Hf] Ho]. split; [| exact Ho].
      rewrite (Hk _ _ Hf). exact Hf.
    - intros [Hf Ho]. split; [eauto | exact Ho]. }
  revert Hnd Hin.
  generalize (List.filter (fun f => String.eqb (File.ownerId f) owner)
                (map snd (map_to_list (Db.files s)))).
  intros rows Hnd Hin.
  assert (H : (forall f, In f (foldr (MyFiles.insertBy
                 (fun a b =>
                    Dates.textLt (Dates.toISOString (File.createdAt b))
                                 (Dates.toISOString (File.createdAt a))))
                 [] rows) <-> In f rows)
              /\ List.NoDup (map File.id (foldr (MyFiles.insertBy
                 (fun a b =>
                    Dates.textLt (Dates.toISOString (File.createdAt b))
                                 (Dates.toISOString (File.createdAt a))))
                 [] rows))
              /\ Sorted.Sorted
                   (fun a b =>
                      Dates.textLt (Dates.toISOString (File.createdAt a))
                                   (Dates.toISOString (File.createdAt b))
                      = false)
                   (foldr (MyFiles.insertBy
                 (fun a b =>
                    Dates.textLt (Dates.toISOString (File.createdAt b))
                                 (Dates.toISOString (File.createdAt a))))
                 [] rows)).
  { clear Hin. induction rows as [| x rows IH]; cbn [foldr].
    - split; [tauto |]. split; constructor.
    - inversion Hnd as [| ? ? Hx Hl]; subst.
      destruct (IH Hl) as (IH1 & IH2 & IH3). split; [| split].
      + intros f. rewrite insertBy_In, IH1. cbn [In]. intuition congruence.
      + apply insertBy_ids; [| exact IH2].
        rewrite in_map_iff. intros [w [Hw Hin]]. apply IH1 in Hin.
        apply Hx. apply in_map_iff. exists w. tauto.
      + apply (insertBy_sorted
                 (fun f => Dates.toISOString (File.createdAt f))).
        exact IH3. }
  destruct H as (H1 & H2 & H3). split; [| split; assumption].
  intros f. rewrite H1. apply Hin.
Qed.

End OwnerRoutes.

(** X14: the owner's delete of an existing record is answered 200; the
    record is gone, the bytes under its path are gone, and every log row
    that named the file is kept with its file id set to null; users are as
    before.  After it the metadata route answers 404 (or 400 for an id that
    does not match the pattern) and stores nothing, and the blob route
    answers 404, 400 or 429. *)
Theorem X14_owner_delete_removes_record_and_bytes
        (E : Http.Env) (s : Db.State) req req' fid user f :
  AuthMw.authenticateToken E req = inr user ->
  Db.files s !! fid = Some f ->
  File.ownerId f = AuthMw.id user ->
  snd (MyFiles.delete E s req fid)
  = Http.json 200 (Http.Message "File deleted successfully")
  /\ Db.files (fst (MyFiles.delete E s req fid)) = delete fid (Db.files s)
  /\ Db.disk (fst (MyFiles.delete E s req fid))
     = delete (File.path f) (Db.disk s)
  /\ Db.logs (fst (MyFiles.delete E s req fid))
     = map (Log.setNull fid) (Db.logs s)
  /\ Db.users (fst (MyFiles.delete E s req fid)) = Db.users s
  /\ fst (FileRoutes.getMetadata E (fst (MyFiles.delete E s req fid)) req' fid)
     = fst (MyFiles.delete E s req fid)
  /\ (Http.status
        (snd (FileRoutes.getMetadata E (fst (MyFiles.delete E s req fid))
                req' fid)) = 404
      \/ Http.status
           (snd (FileRoutes.getMetadata E (fst (MyFiles.delete E s req fid))
                   req' fid)) = 400)
  /\ (Http.status
        (snd (FileRoutes.getBlob E (fst (MyFiles.delete E s req fid))
                req' fid)) = 404
      \/ Http.status
           (snd (FileRoutes.getBlob E (fst (MyFiles.delete E s req fid))
                   req' fid)) = 400
      \/ Http.status
           (snd (FileRoutes.getBlob E (fst (MyFiles.delete E s req fid))
                   req' fid)) = 429).
Proof.
  intros Ha Hf Ho.
  assert (Hfiles : Db.files (fst (MyFiles.delete E s req fid))
                   = delete fid (Db.files s)).
  { unfold MyFiles.delete. rewrite Ha, Hf, Ho, String.eqb_refl.
    cbn [fst Db.deleteFile Db.files Db.setLogs Db.setFiles].
    rewrite unlink_files. reflexivity. }
  split; [| split; [exact Hfiles | split; [| split; [| split; [| split;
    [apply getMetadata_state | split]]]]]].
  - unfold MyFiles.delete. rewrite Ha, Hf, Ho, String.eqb_refl. reflexivity.
  - unfold MyFiles.delete. rewrite Ha, Hf, Ho, String.eqb_refl.
    cbn [fst Db.deleteFile Db.disk Db.setLogs Db.setFiles].
    apply unlink_disk.
  - unfold MyFiles.delete. rewrite Ha, Hf, Ho, String.eqb_refl.
    cbn [fst Db.deleteFile Db.logs Db.setLogs Db.setFiles].
    rewrite unlink_logs. reflexivity.
  - unfold MyFiles.delete. rewrite Ha, Hf, Ho, String.eqb_refl.
    cbn [fst Db.deleteFile Db.users Db.setLogs Db.setFiles].
    apply unlink_users.
  - unfold FileRoutes.getMetadata.
    destruct (Js.uuidRegexTest fid); cbn [negb]; [| right; reflexivity].
    rewrite Hfiles, lookup_delete_eq. left. reflexivity.
  - unfold FileRoutes.getBlob.
    destruct (RateLimit.consume _ _ _ _) as [hits refused].
    destruct refused; [right; right; reflexivity |].
    unfold FileRoutes.blobHandler.
    destruct (Js.uuidRegexTest fid); cbn [negb]; [| right; left; reflexivity].
    change (Db.files (Db.setDownloadHits (fst (MyFiles.delete E s req fid))
                        hits))
      with (Db.files (fst (MyFiles.delete E s req fid))).
    rewrite Hfiles, lookup_delete_eq. left. reflexivity.
Qed.

Lemma X14_owner_delete_removes_record_and_bytes_witness :
  snd (MyFiles.delete Scenario.env (Scenario.uploadBy None)
         (Scenario.asAlice (Scenario.t0 + 1)) Scenario.fid)
  = Http.json 200 (Http.Message "File deleted successfully")
  /\ Db.files
       (fst (MyFiles.delete Scenario.env (Scenario.uploadBy None)
               (Scenario.asAlice (Scenario.t0 + 1)) Scenario.fid))
     = delete Scenario.fid (Db.files (Scenario.uploadBy None)).
Proof.
  destruct (X14_owner_delete_removes_record_and_bytes Scenario.env
              (Scenario.uploadBy None) (Scenario.asAlice (Scenario.t0 + 1))
              (Scenario.anonymous (Scenario.t0 + 2)) Scenario.fid
              Scenario.alice (Scenario.aliceFile (Scenario.t0 + 86400000)))
    as (H1 & H2 & _).
  - vm_compute. reflexivity.
  - vm_compute. reflexivity.
  - reflexivity.
  - split; [exact H1 | exact H2].
Defined.

(** X15: the list of an authenticated user holds exactly the records of
    the table whose owner is that user, each one once, in an order where
    no row has a [createdAt] text smaller than that of the row after it;
    the state is left as it was. *)
Theorem X15_list_is_the_owners_records
        (E : Http.Env) (s : Db.State) req user :
  Spec.keyed s ->
  AuthMw.authenticateToken E req = inr user ->
  fst (MyFiles.list E s req) = s
  /\ exists rows,
      snd (MyFiles.list E s req)
      = Http.json 200 (Http.Files (map (MyFiles.info (Http.now req)) rows))
      /\ (forall f, In f rows
                    <-> Db.files s !! File.id f = Some f
                        /\ File.ownerId f = AuthMw.id user)
      /\ List.NoDup (map File.id rows)
      /\ Sorted.Sorted
           (fun a b =>
              Dates.textLt (Dates.toISOString (File.createdAt a))
                           (Dates.toISOString (File.createdAt b)) = false)
           rows.
Proof.
  intros Hk Ha. unfold MyFiles.list. rewrite Ha. split; [reflexivity |].
  exists (MyFiles.selectByOwner s (AuthMw.id user)).
  split; [reflexivity |]. apply selectByOwner_spec, Hk.
Qed.

Lemma X15_list_is_the_owners_records_witness :
  Spec.keyed (Scenario.uploadBy None)
  /\ fst (MyFiles.list Scenario.env (Scenario.uploadBy None)
            (Scenario.asBob (Scenario.t0 + 1)))
     = Scenario.uploadBy None.
Proof.
  assert (Hk : Spec.keyed (Scenario.uploadBy None)).
  { unfold Scenario.uploadBy, Scenario.registered.
    apply serve_keyed.
    change (fst (Server.run Scenario.env Db.empty ?l))
      with (fst (Server.run Scenario.env Db.empty l)).
    cbn [Server.run].
    destruct (Server.serve Scenario.env Db.empty _) as [s1 o1] eqn:E1.
    destruct (Server.serve Scenario.env s1 _) as [s2 o2] eqn:E2.
    cbn [fst].
    replace s2 with (fst (Server.serve Scenario.env s1
      (Server.Register (Scenario.anonymous Scenario.t0)
         (Some "bob@example.org"%string) (Some "battery staple"%string)
         "bob"))) by (rewrite E2; reflexivity).
    apply serve_keyed.
    replace s1 with (fst (Server.serve Scenario.env Db.empty
      (Server.Register (Scenario.anonymous Scenario.t0)
         (Some "alice@example.org"%string) (Some "correct horse"%string)
         "alice"))) by (rewrite E1; reflexivity).
    apply serve_keyed, keyed_empty. }
  split; [exact Hk |].
  exact (proj1 (X15_list_is_the_owners_records Scenario.env
                  (Scenario.uploadBy None) (Scenario.asBob (Scenario.t0 + 1))
                  Scenario.bob Hk eq_refl)).
Defined.

(** ** The constraints hold in every state the server reaches *)

Section WellFormed.

Variable E : Http.Env.

Lemma append_inj_l (p x y : string) :
  (p ++ x)%string = (p ++ y)%string -> x = y.
Proof.
  induction p as [| c p IH]; cbn [String.append]; intros H.
  - exact H.
  - injection H as H. exact (IH H).
Qed.

Lemma append_inj_r (q x y : string) :
  (x ++ q)%string = (y ++ q)%string -> x = y.
Proof.
  intros H. apply (f_equal list_ascii_of_string) in H.
  rewrite !list_ascii_of_string_app in H. apply app_inv_tail in H.
  rewrite <- (string_of_list_ascii_of_string x),
          <- (string_of_list_ascii_of_string y), H.
  reflexivity.
Qed.

Lemma filePath_inj (a b : string) :
  Upload.filePath E a = Upload.filePath E b -> a = b.
Proof.
  unfold Upload.filePath. intros H.
  apply append_inj_l in H. apply append_inj_l in H.
  exact (append_inj_r _ _ _ H).
Qed.

Lemma wf_empty : Inv.wf E Db.empty.
Proof.
  unfold Inv.wf, Inv.filesOk, Inv.logsOk, Inv.usersOk.
  cbn [Db.files Db.logs Db.users Db.empty].
  split; [| split; [| split]].
  - intros k f H. rewrite lookup_empty in H. discriminate H.
  - intros l fid [].
  - intros k u H. rewrite lookup_empty in H. discriminate H.
  - intros k1 k2 u1 u2 H. rewrite lookup_empty in H. discriminate H.
Qed.

Lemma wf_frame (s s' : Db.State) :
  Db.files s' = Db.files s -> Db.users s' = Db.users s ->
  Db.disk s' = Db.disk s -> Db.logs s' = Db.logs s ->
  Inv.wf E s -> Inv.wf E s'.
Proof.
  unfold Inv.wf, Inv.filesOk, Inv.logsOk, Inv.usersOk.
  intros -> -> -> ->. tauto.
Qed.

Lemma wf_log (s : Db.State) (l : Log.Log) :
  (forall fid, Log.fileId l = Some fid -> is_Some (Db.files s !! fid)) ->
  Inv.wf E s -> Inv.wf E (Db.setLogs s (Db.logs s ++ [l])).
Proof.
  intros Hl (Hf & Hlogs & Hu). split; [exact Hf | split; [| exact Hu]].
  intros l' fid Hin Hfid. cbn [Db.logs Db.files Db.setLogs] in *.
  apply in_app_or in Hin. destruct Hin as [Hin | [<- | []]].
  - exact (Hlogs l' fid Hin Hfid).
  - exact (Hl fid Hfid).
Qed.

Lemma wf_logRequest (s : Db.State) req ev fid ex :
  Inv.wf E s -> Inv.wf E (Logging.logRequest s req ev fid ex).
Proof.
  intros Hwf. unfold Logging.logRequest, Logging.logEvent, Db.insertLog.
  cbn [Log.fileId].
  destruct (Js.orElse fid None) as [x |] eqn:Hx.
  - destruct (Db.files s !! x) eqn:Hfx; [| exact Hwf].
    apply wf_log; [| exact Hwf]. cbn [Log.fileId]. intros y Hy.
    injection Hy as <-. rewrite Hfx. eauto.
  - apply wf_log; [| exact Hwf]. cbn [Log.fileId]. intros y Hy.
    discriminate Hy.
Qed.

Lemma wf_writeFile (s : Db.State) (p : string) (d : list byte) :
  Inv.wf E s -> Inv.wf E (Db.writeFile s p d).
Proof.
  intros (Hf & Hlogs & Hu). split; [| split; [exact Hlogs | exact Hu]].
  intros k f Hk. cbn [Db.files Db.users Db.disk Db.writeFile Db.setDisk] in *.
  destruct (Hf k f Hk) as (H1 & H2 & H3 & H4).
  repeat split; try assumption.
  destruct (decide (p = File.path f)) as [-> | Hne].
  - rewrite lookup_insert_eq. eauto.
  - rewrite lookup_insert_ne by exact Hne. exact H4.
Qed.

Lemma wf_insertFile (s s2 : Db.State) (row : File.EncryptedFile) :
  Inv.wf E s ->
  Db.insertFile s row = inr s2 ->
  File.path row = Upload.filePath E (File.id row) ->
  is_Some (Db.disk s !! File.path row) ->
  Inv.wf E s2.
Proof.
  intros (Hf & Hlogs & Hu). unfold Db.insertFile.
  destruct (Db.files s !! File.id row) eqn:Hrow; [discriminate |].
  destruct (Db.users s !! File.ownerId row) eqn:Hown; [| discriminate].
  intros Heq Hpath Hdisk. injection Heq as <-.
  split; [| split; [| exact Hu]].
  - intros k f. cbn [Db.files Db.users Db.disk Db.setFiles].
    destruct (decide (File.id row = k)) as [<- | Hne].
    + rewrite lookup_insert_eq. intros Hk. injection Hk as <-.
      repeat split; try assumption. rewrite Hown. eauto.
    + rewrite lookup_insert_ne by exact Hne. apply Hf.
  - intros l fid Hin Hfid. cbn [Db.files Db.logs Db.setFiles] in *.
    destruct (decide (File.id row = fid)) as [<- | Hne].
    + rewrite lookup_insert_eq. eauto.
    + rewrite lookup_insert_ne by exact Hne. exact (Hlogs l fid Hin Hfid).
Qed.

Lemma wf_increment (s : Db.State) (fid : string) :
  Inv.wf E s -> Inv.wf E (Db.incrementDownloads s fid).
Proof.
  intros (Hf & Hlogs & Hu). split; [| split; [| exact Hu]].
  - intros k f.
    cbn [Db.files Db.users Db.disk Db.incrementDownloads Db.setFiles].
    destruct (decide (fid = k)) as [-> | Hne].
    + rewrite lookup_alter_eq.
      destruct (Db.files s !! k) as [f0 |] eqn:Hk; [| discriminate].
      intros H. injection H as <-. exact (Hf k f0 Hk).
    + rewrite lookup_alter_ne by exact Hne. apply Hf.
  - intros l x Hin Hx.
    cbn [Db.files Db.logs Db.incrementDownloads Db.setFiles] in *.
    destruct (Hlogs l x Hin Hx) as [f0 Hf0].
    destruct (decide (fid = x)) as [-> | Hne].
    + rewrite lookup_alter_eq, Hf0. eauto.
    + rewrite lookup_alter_ne by exact Hne. eauto.
Qed.

Lemma setNull_fileId (x : string) (l : Log.Log) (fid : string) :
  Log.fileId (Log.setNull x l) = Some fid ->
  Log.fileId l = Some fid /\ fid <> x.
Proof.
  unfold Log.setNull. destruct (Log.fileId l) as [y |] eqn:Hy.
  - destruct (String.eqb_spec y x) as [-> | Hne].
    + discriminate.
    + rewrite Hy. intros H. injection H as <-. split; [reflexivity | exact Hne].
  - rewrite Hy. discriminate.
Qed.

(** One row goes: its bytes are unlinked and its record is deleted. *)
Lemma wf_deleteRow (s : Db.State) (file : File.EncryptedFile) :
  Inv.wf E s ->
  File.path file = Upload.filePath E (File.id file) ->
  Inv.wf E
    (Db.deleteFile
       (match Db.unlinkSync s (File.path file) with
        | inr s' => s'
        | inl _ => s
        end) (File.id file)).
Proof.
  intros (Hf & Hlogs & Hu) Hpath. split; [| split].
  - intros k f.
    cbn [Db.files Db.users Db.disk Db.deleteFile Db.setFiles Db.setLogs].
    rewrite unlink_files, unlink_users, unlink_disk.
    destruct (decide (File.id file = k)) as [<- | Hne].
    + rewrite lookup_delete_eq. discriminate.
    + rewrite lookup_delete_ne by exact Hne. intros Hk.
      destruct (Hf k f Hk) as (H1 & H2 & H3 & H4).
      repeat split; try assumption.
      rewrite lookup_delete_ne; [exact H4 |].
      rewrite Hpath, H2. intros H. apply Hne. exact (filePath_inj _ _ H).
  - intros l fid.
    cbn [Db.files Db.logs Db.deleteFile Db.setFiles Db.setLogs].
    rewrite unlink_files, unlink_logs. rewrite in_map_iff.
    intros [l0 [<- Hin]] Hfid. apply setNull_fileId in Hfid.
    destruct Hfid as [Hfid Hne].
    rewrite lookup_delete_ne by congruence. exact (Hlogs l0 fid Hin Hfid).
  - unfold Inv.usersOk.
    cbn [Db.users Db.deleteFile Db.setFiles Db.setLogs].
    rewrite unlink_users. exact Hu.
Qed.

Lemma wf_insertUser (s s' : Db.State) (u : User.User) :
  Inv.wf E s -> Db.insertUser s u = inr s' -> Inv.wf E s'.
Proof.
  intros (Hf & Hlogs & Hu1 & Hu2). unfold Db.insertUser.
  destruct (Db.users s !! User.id u) eqn:Hid.
  { destruct (Db.findUserByEmail s (User.email u)); discriminate. }
  destruct (Db.findUserByEmail s (User.email u)) eqn:Hfind; [discriminate |].
  intros H. injection H as <-. split; [| split; [exact Hlogs | split]].
  - intros k f Hk. cbn [Db.files Db.users Db.disk Db.setUsers] in *.
    destruct (Hf k f Hk) as (H1 & H2 & H3 & H4).
    repeat split; try assumption.
    destruct (decide (User.id u = File.ownerId f)) as [<- | Hne].
    + rewrite lookup_insert_eq. eauto.
    + rewrite lookup_insert_ne by exact Hne. exact H3.
  - intros k v. cbn [Db.users Db.setUsers].
    destruct (decide (User.id u = k)) as [<- | Hne].
    + rewrite lookup_insert_eq. intros H. injection H as <-. reflexivity.
    + rewrite lookup_insert_ne by exact Hne. apply Hu1.
  - intros k1 k2 u1 u2. cbn [Db.users Db.setUsers].
    pose proof (findUser_none s _ Hfind) as Hfresh.
    destruct (decide (User.id u = k1)) as [<- | Hne1];
      destruct (decide (User.id u = k2)) as [<- | Hne2];
      rewrite ?lookup_insert_eq, ?lookup_insert_ne by assumption.
    + reflexivity.
    + intros H1 H2 He. injection H1 as <-. exfalso.
      exact (Hfresh k2 u2 H2 (eq_sym He)).
    + intros H1 H2 He. injection H2 as <-. exfalso.
      exact (Hfresh k1 u1 H1 He).
    + apply Hu2.
Qed.

Lemma wf_register (s : Db.State) req e p uid :
  Inv.wf E s -> Inv.wf E (fst (AuthRoutes.register E s req e p uid)).
Proof.
  intros Hwf. unfold AuthRoutes.register.
  destruct (negb _ || negb _); [exact Hwf |]. cbv zeta.
  destruct (negb _); [exact Hwf |].
  destruct (_ <? _)%nat; [exact Hwf |].
  destruct (Db.findUserByEmail s _); [exact Hwf |].
  destruct (Db.insertUser s _) as [msg | s1] eqn:Hins; [exact Hwf |].
  exact (wf_insertUser _ _ _ Hwf Hins).
Qed.

Lemma wf_login (s : Db.State) req e p :
  Inv.wf E s -> Inv.wf E (fst (AuthRoutes.login E s req e p)).
Proof.
  intros Hwf. unfold AuthRoutes.login.
  destruct (RateLimit.consume _ _ _ _) as [hits refused].
  assert (H0 : Inv.wf E (Db.setAuthHits s hits))
    by (apply (wf_frame s); [reflexivity .. | exact Hwf]).
  destruct refused; [exact H0 |].
  unfold AuthRoutes.loginHandler.
  destruct (negb _ || negb _); [apply wf_logRequest, H0 |]. cbv zeta.
  destruct (Db.findUserByEmail _ _); [| apply wf_logRequest, H0].
  destruct (negb _); [apply wf_logRequest, H0 | exact H0].
Qed.

Lemma wf_post (s : Db.State) req form fid :
  Inv.wf E s -> Inv.wf E (fst (Upload.post E s req form fid)).
Proof.
  intros Hwf. unfold Upload.post.
  destruct (AuthMw.authenticateToken E req) as [r | user]; [exact Hwf |].
  destruct (RateLimit.consume _ _ _ _) as [hits refused].
  assert (H0 : Inv.wf E (Db.setUploadHits s hits))
    by (apply (wf_frame s); [reflexivity .. | exact Hwf]).
  destruct refused; [exact H0 |].
  destruct (match Upload.file form with Some _ => _ | None => _ end);
    [exact H0 |].
  unfold Upload.handler.
  destruct (Upload.file form) as [buffer |]; [| apply wf_logRequest, H0].
  destruct (negb _ || _ || _); [apply wf_logRequest, H0 |]. cbv zeta.
  pose proof (wf_writeFile _ (Upload.filePath E fid) buffer H0) as H1.
  destruct (Upload.expiryDate _ _) as [expiry |];
    [| apply wf_logRequest, H1].
  destruct (Db.insertFile _ _) as [msg | s2] eqn:Hins;
    [apply wf_logRequest, H1 |].
  apply wf_logRequest. apply (wf_insertFile _ _ _ H1 Hins).
  - reflexivity.
  - cbn [File.path Upload.record Db.disk Db.writeFile Db.setDisk].
    rewrite lookup_insert_eq. eauto.
Qed.

Lemma wf_getBlob (s : Db.State) req fid :
  Inv.wf E s -> Inv.wf E (fst (FileRoutes.getBlob E s req fid)).
Proof.
  intros Hwf. unfold FileRoutes.getBlob.
  destruct (RateLimit.consume _ _ _ _) as [hits refused].
  assert (H0 : Inv.wf E (Db.setDownloadHits s hits))
    by (apply (wf_frame s); [reflexivity .. | exact Hwf]).
  destruct refused; [exact H0 |].
  unfold FileRoutes.blobHandler.
  destruct (negb _); [exact H0 |].
  destruct (Db.files _ !! fid) as [f |]; [| apply wf_logRequest, H0].
  destruct (_ <? _); [apply wf_logRequest, H0 |].
  destruct (Db.disk _ !! _); [| exact H0].
  cbv zeta. apply wf_logRequest, wf_increment, H0.
Qed.

Lemma wf_delete (s : Db.State) req fid :
  Inv.wf E s -> Inv.wf E (fst (MyFiles.delete E s req fid)).
Proof.
  intros Hwf. unfold MyFiles.delete.
  destruct (AuthMw.authenticateToken E req) as [r | user]; [exact Hwf |].
  destruct (Db.files s !! fid) as [f |] eqn:Hf; [| exact Hwf].
  destruct (String.eqb _ _); [| exact Hwf].
  cbn [fst].
  destruct (proj1 Hwf fid f Hf) as (Hid & Hpath & _).
  rewrite <- Hid. apply wf_deleteRow; [exact Hwf |].
  rewrite Hid. exact Hpath.
Qed.

Lemma wf_fold_deleteOne (l : list File.EncryptedFile) (s : Db.State)
      (c : Z * Z) :
  (forall f, In f l -> File.path f = Upload.filePath E (File.id f)) ->
  Inv.wf E s ->
  Inv.wf E (fst (fold_left (fun acc file => Cleanup.deleteOne file acc) l
                   (s, c))).
Proof.
  revert s c. induction l as [| f l IH]; intros s [d e] Hl Hwf.
  - exact Hwf.
  - cbn [fold_left Cleanup.deleteOne]. apply IH.
    + intros g Hg. apply Hl. right. exact Hg.
    + apply wf_deleteRow; [exact Hwf |]. apply Hl. left. reflexivity.
Qed.

Lemma wf_cleanup (s : Db.State) (now : Z) :
  Inv.wf E s -> Inv.wf E (fst (Cleanup.cleanupExpiredFiles s now)).
Proof.
  intros Hwf. unfold Cleanup.cleanupExpiredFiles. cbv zeta.
  apply wf_fold_deleteOne; [| exact Hwf].
  intros f Hin. apply selectExpired_spec in Hin.
  destruct Hin as [[k Hk] _].
  destruct (proj1 Hwf k f Hk) as (Hid & Hpath & _).
  rewrite Hid. exact Hpath.
Qed.

Lemma wf_serve (s : Db.State) (c : Server.Call) :
  Inv.wf E s -> Inv.wf E (fst (Server.serve E s c)).
Proof.
  intros Hwf.
  destruct c as [req e p uid | req e p | req form k | req k | req k | req
                | req k | now]; unfold Server.serve; cbn [fst snd].
  - apply wf_register, Hwf.
  - apply wf_login, Hwf.
  - apply wf_post, Hwf.
  - rewrite getMetadata_state. exact Hwf.
  - apply wf_getBlob, Hwf.
  - unfold MyFiles.list. destruct (AuthMw.authenticateToken E req); exact Hwf.
  - apply wf_delete, Hwf.
  - pose proof (wf_cleanup s now Hwf) as H.
    destruct (Cleanup.cleanupExpiredFiles s now) as [s' [d e]]. exact H.
Qed.

Lemma wf_run (cs : list Server.Call) (s : Db.State) :
  Inv.wf E s -> Inv.wf E (fst (Server.run E s cs)).
Proof.
  revert s. induction cs as [| c cs IH]; intros s Hwf.
  - exact Hwf.
  - cbn [Server.run].
    pose proof (wf_serve s c Hwf) as H1.
    destruct (Server.serve E s c) as [s1 o]. cbn [fst] in H1.
    pose proof (IH s1 H1) as H2.
    destruct (Server.run E s1 cs) as [s2 os]. exact H2.
Qed.

End WellFormed.

(** X16: the constraints of the schema hold in every state the server
    reaches from the empty database, whatever the requests and cleanup runs
    were: every record is keyed by its id, has the path [UPLOAD_DIR/id.bin],
    an owner among the users and bytes under its path; every log row that
    names a file names an existing record; users are keyed by their id and
    no two users share an email. *)
Theorem X16_reachable_states_are_well_formed
        (E : Http.Env) (cs : list Server.Call) :
  Inv.wf E (fst (Server.run E Db.empty cs)).
Proof. apply wf_run, wf_empty. Qed.



(** ** The log only grows *)

Section LogSteps.

Variable E : Http.Env.

Lemma sameEvent_refl (l : Log.Log) : Audit.sameEvent l l.
Proof. unfold Audit.sameEvent. tauto. Qed.

Lemma sameEvent_trans (a b c : Log.Log) :
  Audit.sameEvent a b -> Audit.sameEvent b c -> Audit.sameEvent a c.
Proof.
  unfold Audit.sameEvent.
  intros (A1 & A2 & A3 & A4 & A5 & A6) (B1 & B2 & B3 & B4 & B5 & B6).
  repeat split; try congruence.
  destruct B6 as [B6 | B6]; [| right; exact B6].
  destruct A6 as [A6 | A6]; [left | right]; congruence.
Qed.

Lemma sameEvent_setNull (x : string) (l : Log.Log) :
  Audit.sameEvent l (Log.setNull x l).
Proof.
  unfold Audit.sameEvent, Log.setNull.
  destruct (Log.fileId l) as [y |] eqn:Hy; [destruct (String.eqb y x) |];
    cbn [Log.timestamp Log.ip Log.userAgent Log.eventType Log.extra
         Log.fileId]; tauto.
Qed.

Lemma sameEvents_refl (l : list Log.Log) : Forall2 Audit.sameEvent l l.
Proof. induction l; constructor; [apply sameEvent_refl | assumption]. Qed.

Lemma sameEvents_trans (a b c : list Log.Log) :
  Forall2 Audit.sameEvent a b -> Forall2 Audit.sameEvent b c ->
  Forall2 Audit.sameEvent a c.
Proof.
  intros H. revert c. induction H as [| x y a b Hxy Hab IH]; intros c Hc.
  - inversion Hc. constructor.
  - inversion Hc as [| ? z ? c' Hyz Hbc]; subst. constructor.
    + exact (sameEvent_trans _ _ _ Hxy Hyz).
    + exact (IH _ Hbc).
Qed.

Lemma sameEvents_setNull (x : string) (l : list Log.Log) :
  Forall2 Audit.sameEvent l (map (Log.setNull x) l).
Proof.
  induction l; cbn [map]; constructor;
    [apply sameEvent_setNull | assumption].
Qed.

Lemma logStep_kept (old new : list Log.Log) :
  Forall2 Audit.sameEvent old new -> Audit.logStep old new.
Proof.
  intros H. exists new, []. rewrite app_nil_r.
  repeat split; [exact H | cbn; lia | constructor].
Qed.

Lemma logStep_same (old new : list Log.Log) :
  new = old -> Audit.logStep old new.
Proof. intros ->. apply logStep_kept, sameEvents_refl. Qed.

Lemma logStep_logRequest (s : Db.State) req ev fid ex :
  Audit.stored ev = true ->
  Audit.logStep (Db.logs s) (Db.logs (Logging.logRequest s req ev fid ex)).
Proof.
  intros Hev.
  destruct (logRequest_logs s req ev fid ex) as [H | (l & Hl & H)].
  - apply logStep_same, H.
  - exists (Db.logs s), [l].
    repeat split; [exact H | apply sameEvents_refl | cbn; lia |].
    constructor; [| constructor]. rewrite Hl. exact Hev.
Qed.

Lemma register_logs (s : Db.State) req e p uid :
  Db.logs (fst (AuthRoutes.register E s req e p uid)) = Db.logs s.
Proof.
  unfold AuthRoutes.register.
  destruct (negb _ || negb _); [reflexivity |]. cbv zeta.
  destruct (negb _); [reflexivity |].
  destruct (_ <? _)%nat; [reflexivity |].
  destruct (Db.findUserByEmail s _); [reflexivity |].
  unfold Db.insertUser. cbn [User.id User.email].
  destruct (Db.users s !! uid); try reflexivity.
  destruct (Db.findUserByEmail s _); reflexivity.
Qed.

Lemma login_logStep (s : Db.State) req e p :
  Audit.logStep (Db.logs s) (Db.logs (fst (AuthRoutes.login E s req e p))).
Proof.
  unfold AuthRoutes.login.
  destruct (RateLimit.consume _ _ _ _) as [hits refused].
  change (Db.logs s) with (Db.logs (Db.setAuthHits s hits)).
  destruct refused; [apply logStep_same; reflexivity |].
  unfold AuthRoutes.loginHandler.
  destruct (negb _ || negb _);
    [apply logStep_logRequest; reflexivity |]. cbv zeta.
  destruct (Db.findUserByEmail _ _);
    [| apply logStep_logRequest; reflexivity].
  destruct (negb _);
    [apply logStep_logRequest; reflexivity | apply logStep_same; reflexivity].
Qed.

Lemma post_logStep (s : Db.State) req form fid :
  Audit.logStep (Db.logs s) (Db.logs (fst (Upload.post E s req form fid))).
Proof.
  unfold Upload.post.
  destruct (AuthMw.authenticateToken E req) as [r | user];
    [apply logStep_same; reflexivity |].
  destruct (RateLimit.consume _ _ _ _) as [hits refused].
  change (Db.logs s) with (Db.logs (Db.setUploadHits s hits)).
  destruct refused; [apply logStep_same; reflexivity |].
  destruct (match Upload.file form with Some _ => _ | None => _ end);
    [apply logStep_same; reflexivity |].
  unfold Upload.handler.
  destruct (Upload.file form) as [buffer |];
    [| apply logStep_logRequest; reflexivity].
  destruct (negb _ || _ || _); [apply logStep_logRequest; reflexivity |].
  cbv zeta.
  change (Db.logs (Db.setUploadHits s hits))
    with (Db.logs (Db.writeFile (Db.setUploadHits s hits)
                     (Upload.filePath E fid) buffer)).
  destruct (Upload.expiryDate _ _) as [expiry |];
    [| apply logStep_logRequest; reflexivity].
  unfold Db.insertFile.
  destruct (Db.files _ !! _); [apply logStep_logRequest; reflexivity |].
  destruct (Db.users _ !! _); [| apply logStep_logRequest; reflexivity].
  match goal with
  | |- Audit.logStep _ (Db.logs (fst (Logging.logRequest ?s2 _ _ _ _, _))) =>
      change (Db.logs (Db.writeFile (Db.setUploadHits s hits)
                         (Upload.filePath E fid) buffer))
        with (Db.logs s2)
  end.
  apply logStep_logRequest. reflexivity.
Qed.

Lemma getBlob_logStep (s : Db.State) req fid :
  Audit.logStep (Db.logs s) (Db.logs (fst (FileRoutes.getBlob E s req fid))).
Proof.
  unfold FileRoutes.getBlob.
  destruct (RateLimit.consume _ _ _ _) as [hits refused].
  change (Db.logs s) with (Db.logs (Db.setDownloadHits s hits)).
  destruct refused; [apply logStep_same; reflexivity |].
  unfold FileRoutes.blobHandler.
  destruct (Js.uuidRegexTest fid) eqn:Hu; cbn [negb];
    [| apply logStep_same; reflexivity].
  destruct (Db.files _ !! fid) as [f |] eqn:Hf.
  - destruct (_ <? _); [apply logStep_logRequest; reflexivity |].
    destruct (Db.disk _ !! _); [| apply logStep_same; reflexivity].
    cbv zeta.
    change (Db.logs (Db.setDownloadHits s hits))
      with (Db.logs (Db.incrementDownloads (Db.setDownloadHits s hits) fid)).
    apply logStep_logRequest. reflexivity.
  - apply logStep_same. cbn [fst].
    rewrite logRequest_absent; [reflexivity | apply uuid_nonempty, Hu
                                | exact Hf].
Qed.

Lemma delete_logStep (s : Db.State) req fid :
  Audit.logStep (Db.logs s) (Db.logs (fst (MyFiles.delete E s req fid))).
Proof.
  unfold MyFiles.delete.
  destruct (AuthMw.authenticateToken E req) as [r | user];
    [apply logStep_same; reflexivity |].
  destruct (Db.files s !! fid) as [f |];
    [| apply logStep_same; reflexivity].
  destruct (String.eqb _ _); [| apply logStep_same; reflexivity].
  cbn [fst Db.deleteFile Db.logs Db.setLogs]. rewrite unlink_logs.
  apply logStep_kept, sameEvents_setNull.
Qed.

Lemma fold_deleteOne_logs (l : list File.EncryptedFile) (s : Db.State)
      (c : Z * Z) :
  Forall2 Audit.sameEvent (Db.logs s)
    (Db.logs (fst (fold_left (fun acc file => Cleanup.deleteOne file acc) l
                     (s, c)))).
Proof.
  revert s c. induction l as [| f l IH]; intros s [d e].
  - apply sameEvents_refl.
  - cbn [fold_left Cleanup.deleteOne].
    eapply sameEvents_trans; [| apply IH].
    cbn [Db.deleteFile Db.logs Db.setLogs]. rewrite unlink_logs.
    apply sameEvents_setNull.
Qed.

Lemma serve_logStep (s : Db.State) (c : Server.Call) :
  Audit.logStep (Db.logs s) (Db.logs (fst (Server.serve E s c))).
Proof.
  destruct c as [req e p uid | req e p | req form k | req k | req k | req
                | req k | now]; unfold Server.serve; cbn [fst snd].
  - apply logStep_same, register_logs.
  - apply login_logStep.
  - apply post_logStep.
  - rewrite getMetadata_state. apply logStep_same. reflexivity.
  - apply getBlob_logStep.
  - apply logStep_same. unfold MyFiles.list.
    destruct (AuthMw.authenticateToken E req); reflexivity.
  - apply delete_logStep.
  - pose proof (fold_deleteOne_logs
                  (Cleanup.selectExpired s (Dates.toISOString now)) s (0, 0))
      as H.
    unfold Cleanup.cleanupExpiredFiles. cbv zeta.
    destruct (fold_left _ _ _) as [s' [d e]]. cbn [fst] in *.
    apply logStep_kept, H.
Qed.

Lemma logStep_stored (old new : list Log.Log) :
  Audit.logStep old new ->
  Forall (fun l => Audit.stored (Log.eventType l) = true) old ->
  Forall (fun l => Audit.stored (Log.eventType l) = true) new.
Proof.
  intros (kept & added & -> & Hkept & _ & Hadded) Hold.
  apply Forall_app. split; [| exact Hadded].
  clear Hadded. induction Hkept as [| x y a b Hxy Hab IH].
  - constructor.
  - inversion Hold as [| ? ? Hx Ha]; subst. constructor.
    + destruct Hxy as (_ & _ & _ & Hev & _). rewrite Hev. exact Hx.
    + exact (IH Ha).
Qed.

Lemma run_stored (cs : list Server.Call) (s : Db.State) :
  Forall (fun l => Audit.stored (Log.eventType l) = true) (Db.logs s) ->
  Forall (fun l => Audit.stored (Log.eventType l) = true)
         (Db.logs (fst (Server.run E s cs))).
Proof.
  revert s. induction cs as [| c cs IH]; intros s Hs.
  - exact Hs.
  - cbn [Server.run].
    pose proof (logStep_stored _ _ (serve_logStep s c) Hs) as H1.
    destruct (Server.serve E s c) as [s1 o]. cbn [fst] in H1.
    pose proof (IH s1 H1) as H2.
    destruct (Server.run E s1 cs) as [s2 os]. exact H2.
Qed.

End LogSteps.

(** X18: the log only grows.  Whatever the call (a request to any route
    or a run of the cleanup), the rows of the log before it are still there
    after it, in the same order and with the same timestamp, address, user
    agent, kind and extra; the only change to a row is that its file id may
    have become null.  At most one row is appended, and its kind is neither
    NOT_FOUND nor RATE_LIMITED. *)
Theorem X18_log_is_append_only
        (E : Http.Env) (s : Db.State) (c : Server.Call) :
  exists kept added,
    Db.logs (fst (Server.serve E s c)) = kept ++ added
    /\ Forall2 Audit.sameEvent (Db.logs s) kept
    /\ (length added <= 1)%nat
    /\ Forall (fun l => Log.eventType l <> Log.NOT_FOUND
                        /\ Log.eventType l <> Log.RATE_LIMITED) added.
Proof.
  destruct (serve_logStep E s c) as (kept & added & H1 & H2 & H3 & H4).
  exists kept, added. repeat split; try assumption.
  eapply List.Forall_impl; [| exact H4].
  intros l Hl. cbv beta in Hl.
  destruct (Log.eventType l); split; discriminate.
Qed.

(** X19: no event of kind NOT_FOUND or RATE_LIMITED is ever in the log
    of a state the server reaches from the empty database: the routes never
    emit RATE_LIMITED, and the NOT_FOUND event names an id with no record,
    so its insertion fails the foreign key and the failure is swallowed. *)
Theorem X19_not_found_and_rate_limited_never_logged
        (E : Http.Env) (cs : list Server.Call) :
  Forall (fun l => Log.eventType l <> Log.NOT_FOUND
                   /\ Log.eventType l <> Log.RATE_LIMITED)
         (Db.logs (fst (Server.run E Db.empty cs))).
Proof.
  eapply List.Forall_impl; [| apply run_stored; constructor].
  intros l Hl. cbv beta in Hl.
  destruct (Log.eventType l); split; discriminate.
Qed.

(** ** scripts/cleanup.ts and the bytes of the upload directory *)

Section DiskSteps.

Variable E : Http.Env.

Lemma fold_deleteOne_disk (l : list File.EncryptedFile) (s : Db.State)
      (c : Z * Z) (p : string) :
  Db.disk (fst (fold_left (fun a file => Cleanup.deleteOne file a) l (s, c)))
    !! p
  = if existsb (fun f => String.eqb (File.path f) p) l then None
    else Db.disk s !! p.
Proof.
  revert s c. induction l as [| file l IH]; intros s [d e]; [reflexivity |].
  cbn [fold_left existsb Cleanup.deleteOne]. rewrite IH.
  cbn [Db.deleteFile Db.disk Db.setLogs Db.setFiles]. rewrite unlink_disk.
  destruct (String.eqb_spec (File.path file) p) as [-> | Hne].
  - rewrite lookup_delete_eq. cbn [orb]. destruct (existsb _ l); reflexivity.
  - rewrite lookup_delete_ne by exact Hne. reflexivity.
Qed.

Lemma fold_deleteOne_users (l : list File.EncryptedFile) (s : Db.State)
      (c : Z * Z) :
  Db.users (fst (fold_left (fun a file => Cleanup.deleteOne file a) l (s, c)))
  = Db.users s.
Proof.
  revert s c. induction l as [| file l IH]; intros s [d e]; [reflexivity |].
  cbn [fold_left Cleanup.deleteOne]. rewrite IH.
  cbn [Db.deleteFile Db.users Db.setLogs Db.setFiles]. apply unlink_users.
Qed.

Lemma wf_keyed (s : Db.State) : Inv.wf E s -> Spec.keyed s.
Proof. intros Hwf k f Hk. apply (proj1 Hwf k f Hk). Qed.

(** The bytes under [p] survive a call when no record has the path [p]. *)
Lemma serve_disk (s : Db.State) (c : Server.Call) (p : string) :
  Bytes.unowned s p ->
  is_Some (Db.disk s !! p) ->
  is_Some (Db.disk (fst (Server.serve E s c)) !! p).
Proof.
  intros Hun Hp.
  destruct c as [req e pw uid | req e pw | req form k | req k | req k | req
                | req k | now]; unfold Server.serve; cbn [fst snd].
  - unfold AuthRoutes.register.
    destruct (negb _ || negb _); [exact Hp |]. cbv zeta.
    destruct (negb _); [exact Hp |].
    destruct (_ <? _)%nat; [exact Hp |].
    destruct (Db.findUserByEmail s _); [exact Hp |].
    unfold Db.insertUser. cbn [User.id User.email].
    destruct (Db.users s !! uid); [exact Hp |].
    destruct (Db.findUserByEmail s _); exact Hp.
  - unfold AuthRoutes.login.
    destruct (RateLimit.consume _ _ _ _) as [hits refused].
    destruct refused; [exact Hp |].
    unfold AuthRoutes.loginHandler.
    destruct (negb _ || negb _); [cbn [fst]; rewrite logRequest_disk; exact Hp |].
    cbv zeta.
    destruct (Db.findUserByEmail _ _); [| cbn [fst]; rewrite logRequest_disk; exact Hp].
    destruct (negb _); [cbn [fst]; rewrite logRequest_disk; exact Hp | exact Hp].
  - unfold Upload.post.
    destruct (AuthMw.authenticateToken E req) as [r | user]; [exact Hp |].
    destruct (RateLimit.consume _ _ _ _) as [hits refused].
    destruct refused; [exact Hp |].
    destruct (match Upload.file form with Some _ => _ | None => _ end);
      [exact Hp |].
    unfold Upload.handler.
    destruct (Upload.file form) as [buffer |];
      [| cbn [fst]; rewrite logRequest_disk; exact Hp].
    destruct (negb _ || _ || _); [cbn [fst]; rewrite logRequest_disk; exact Hp |].
    cbv zeta.
    assert (Hw : is_Some (Db.disk (Db.writeFile (Db.setUploadHits s hits)
                                     (Upload.filePath E k) buffer) !! p)).
    { cbn [Db.disk Db.writeFile Db.setDisk Db.setUploadHits].
      destruct (decide (Upload.filePath E k = p)) as [-> | Hne].
      - rewrite lookup_insert_eq. eauto.
      - rewrite lookup_insert_ne by exact Hne. exact Hp. }
    destruct (Upload.expiryDate _ _) as [expiry |];
      [| cbn [fst]; rewrite logRequest_disk; exact Hw].
    unfold Db.insertFile.
    destruct (Db.files (Db.writeFile _ _ _) !! _);
      [cbn [fst]; rewrite logRequest_disk; exact Hw |].
    destruct (Db.users (Db.writeFile _ _ _) !! _);
      cbn [fst]; rewrite logRequest_disk; exact Hw.
  - rewrite getMetadata_state. exact Hp.
  - unfold FileRoutes.getBlob.
    destruct (RateLimit.consume _ _ _ _) as [hits refused].
    destruct refused; [exact Hp |].
    unfold FileRoutes.blobHandler.
    destruct (negb _); [exact Hp |].
    destruct (Db.files _ !! k) as [f |];
      [| cbn [fst]; rewrite logRequest_disk; exact Hp].
    destruct (_ <? _); [cbn [fst]; rewrite logRequest_disk; exact Hp |].
    destruct (Db.disk (Db.setDownloadHits s hits) !! File.path f);
      [| exact Hp].
    cbv zeta. cbn [fst]. rewrite logRequest_disk. exact Hp.
  - unfold MyFiles.list. destruct (AuthMw.authenticateToken E req); exact Hp.
  - unfold MyFiles.delete.
    destruct (AuthMw.authenticateToken E req) as [r | user]; [exact Hp |].
    destruct (Db.files s !! k) as [f |] eqn:Hf; [| exact Hp].
    destruct (String.eqb _ _); [| exact Hp].
    cbn [fst Db.deleteFile Db.disk Db.setLogs Db.setFiles].
    rewrite unlink_disk, lookup_delete_ne; [exact Hp | exact (Hun k f Hf)].
  - pose proof (fold_deleteOne_disk
                  (Cleanup.selectExpired s (Dates.toISOString now)) s (0, 0) p)
      as H.
    unfold Cleanup.cleanupExpiredFiles. cbv zeta.
    destruct (fold_left _ _ _) as [s' [d e]]. cbn [fst] in *. rewrite H.
    destruct (existsb _ _) eqn:Hex; [| exact Hp]. exfalso.
    apply existsb_exists in Hex. destruct Hex as (f & Hin & Hpath).
    apply selectExpired_spec in Hin. destruct Hin as [[k Hk] _].
    apply String.eqb_eq in Hpath. exact (Hun k f Hk Hpath).
Qed.

(** A record after a call has the path of a record before it, or is the
    record of the upload, under the path of the drawn id. *)
Lemma serve_paths (s : Db.State) (c : Server.Call) (k : string)
      (f' : File.EncryptedFile) :
  Db.files (fst (Server.serve E s c)) !! k = Some f' ->
  (exists f, Db.files s !! k = Some f /\ File.path f = File.path f')
  \/ Bytes.draws E (File.path f') c = true.
Proof.
  destruct c as [req e pw uid | req e pw | req form x | req x | req x | req
                | req x | now]; unfold Server.serve; cbn [fst snd].
  - rewrite register_files. eauto.
  - rewrite login_files. eauto.
  - unfold Upload.post.
    destruct (AuthMw.authenticateToken E req) as [r | user]; [eauto |].
    destruct (RateLimit.consume _ _ _ _) as [hits refused].
    destruct refused; [eauto |].
    destruct (match Upload.file form with Some _ => _ | None => _ end);
      [eauto |].
    unfold Upload.handler.
    destruct (Upload.file form) as [buffer |];
      [| cbn [fst]; rewrite logRequest_files; eauto].
    destruct (negb _ || _ || _); [cbn [fst]; rewrite logRequest_files; eauto |].
    cbv zeta.
    destruct (Upload.expiryDate _ _) as [expiry |];
      [| cbn [fst]; rewrite logRequest_files; eauto].
    unfold Db.insertFile.
    destruct (Db.files (Db.writeFile _ _ _) !! _);
      [cbn [fst]; rewrite logRequest_files; eauto |].
    destruct (Db.users (Db.writeFile _ _ _) !! _);
      cbn [fst]; rewrite logRequest_files; [| eauto].
    cbn [Db.files Db.setFiles Db.writeFile Db.setDisk Db.setUploadHits
         File.id Upload.record].
    destruct (decide (x = k)) as [-> | Hne].
    + rewrite lookup_insert_eq. intros H. injection H as <-. right.
      cbn [Bytes.draws File.path Upload.record]. apply String.eqb_refl.
    + rewrite lookup_insert_ne by exact Hne. eauto.
  - rewrite getMetadata_files. eauto.
  - destruct (getBlob_files E s req x) as [(_ & _ & H) | (_ & H)];
      rewrite H; [| eauto].
    destruct (decide (x = k)) as [-> | Hne].
    + rewrite lookup_alter_eq.
      destruct (Db.files s !! k) as [f |]; [| discriminate].
      intros H'. injection H' as <-. left. eauto.
    + rewrite lookup_alter_ne by exact Hne. eauto.
  - rewrite list_files. eauto.
  - destruct (delete_files E s req x) as [H | H]; rewrite H; [eauto |].
    destruct (decide (x = k)) as [-> | Hne].
    + rewrite lookup_delete_eq. discriminate.
    + rewrite lookup_delete_ne by exact Hne. eauto.
  - pose proof (cleanup_files s now k) as H.
    destruct (Cleanup.cleanupExpiredFiles s now) as [s' [d e]].
    cbn [fst] in *. intros Hk. destruct H as [H | H]; [congruence |].
    rewrite H in Hk. eauto.
Qed.

Lemma run_disk (cs : list Server.Call) (s : Db.State) (p : string) :
  Bytes.unowned s p ->
  is_Some (Db.disk s !! p) ->
  Forall (fun c => Bytes.draws E p c = false) cs ->
  is_Some (Db.disk (fst (Server.run E s cs)) !! p)
  /\ Bytes.unowned (fst (Server.run E s cs)) p.
Proof.
  revert s. induction cs as [| c cs IH]; intros s Hun Hp Hcs.
  - split; assumption.
  - inversion Hcs as [| ? ? Hc Hrest]; subst. cbn [Server.run].
    pose proof (serve_disk s c p Hun Hp) as H1.
    assert (H2 : Bytes.unowned (fst (Server.serve E s c)) p).
    { intros k f' Hk Hpath.
      destruct (serve_paths s c k f' Hk) as [(f & Hf & Heq) | Hd].
      - apply (Hun k f Hf). congruence.
      - rewrite Hpath in Hd. congruence. }
    destruct (Server.serve E s c) as [s1 o]. cbn [fst] in H1, H2.
    pose proof (IH s1 H2 H1 Hrest) as H3.
    destruct (Server.run E s1 cs) as [s2 os]. exact H3.
Qed.

End DiskSteps.

(** X20: what one run of the cleanup script does to a state in which the
    constraints of the schema hold.  A record is gone exactly when the ISO
    text of its expiry is smaller than the ISO text of the clock, and the
    other records are as before; the bytes of a record that is gone are
    gone and those of a record that stays are as before; the summary counts
    the selected rows and no error; users are as before; and a second run
    at the same clock reading deletes nothing. *)
Theorem X20_cleanup_removes_the_selected_records
        (E : Http.Env) (s : Db.State) (now : Z) :
  Inv.wf E s ->
  (forall k,
      Db.files (fst (Cleanup.cleanupExpiredFiles s now)) !! k
      = match Db.files s !! k with
        | Some f =>
            if Cleanup.selected (Dates.toISOString now) f then None
            else Some f
        | None => None
        end)
  /\ (forall k f,
         Db.files s !! k = Some f ->
         Db.disk (fst (Cleanup.cleanupExpiredFiles s now)) !! File.path f
         = if Cleanup.selected (Dates.toISOString now) f then None
           else Db.disk s !! File.path f)
  /\ snd (Cleanup.cleanupExpiredFiles s now)
     = (Z.of_nat
          (length (Cleanup.selectExpired s (Dates.toISOString now))), 0)
  /\ Db.users (fst (Cleanup.cleanupExpiredFiles s now)) = Db.users s
  /\ Cleanup.cleanupExpiredFiles (fst (Cleanup.cleanupExpiredFiles s now)) now
     = (fst (Cleanup.cleanupExpiredFiles s now), (0, 0)).
Proof.
  intros Hwf. pose proof (wf_keyed E s Hwf) as Hk.
  split; [| split; [| split; [| split]]].
  - intros k. apply cleanup_lookup, Hk.
  - intros k f Hf. unfold Cleanup.cleanupExpiredFiles. cbv zeta.
    rewrite fold_deleteOne_disk.
    destruct (proj1 Hwf k f Hf) as (Hid & Hpath & _).
    destruct (existsb _ _) eqn:Hex.
    + apply existsb_exists in Hex. destruct Hex as (g & Hin & Hg).
      apply selectExpired_spec in Hin. destruct Hin as [[k' Hk'] Hsel].
      apply String.eqb_eq in Hg.
      destruct (proj1 Hwf k' g Hk') as (_ & Hpath' & _).
      rewrite Hpath, Hpath' in Hg. apply (filePath_inj E) in Hg. subst k'.
      assert (g = f) by congruence. subst g. rewrite Hsel. reflexivity.
    + destruct (Cleanup.selected (Dates.toISOString now) f) eqn:Hsel;
        [| reflexivity].
      exfalso. apply not_true_iff_false in Hex. apply Hex.
      apply existsb_exists. exists f. split.
      * apply selectExpired_spec. eauto.
      * apply String.eqb_refl.
  - apply cleanup_counts.
  - unfold Cleanup.cleanupExpiredFiles. cbv zeta. apply fold_deleteOne_users.
  - apply cleanup_twice, Hk.
Qed.

Lemma X20_cleanup_removes_the_selected_records_witness :
  Inv.wf Scenario.env (fst (Server.run Scenario.env Db.empty History.calls))
  /\ snd (Cleanup.cleanupExpiredFiles
            (fst (Server.run Scenario.env Db.empty History.calls))
            (Scenario.t0 + 90000000))
     = (Z.of_nat
          (length
             (Cleanup.selectExpired
                (fst (Server.run Scenario.env Db.empty History.calls))
                (Dates.toISOString (Scenario.t0 + 90000000)))), 0).
Proof.
  assert (Hwf : Inv.wf Scenario.env
                  (fst (Server.run Scenario.env Db.empty History.calls)))
    by apply wf_run, wf_empty.
  split; [exact Hwf |].
  exact (proj1 (proj2 (proj2
           (X20_cleanup_removes_the_selected_records Scenario.env
              (fst (Server.run Scenario.env Db.empty History.calls))
              (Scenario.t0 + 90000000) Hwf)))).
Defined.

(** X21: bytes are removed only together with a record that has their
    path.  If a path holds bytes and no record has that path (as after the
    failed upload of X8), then after any sequence of calls in which no
    upload draws an id with that path, the path still holds bytes and still
    no record has it: no route and no cleanup run reclaims them. *)
Theorem X21_unowned_bytes_are_never_removed
        (E : Http.Env) (s : Db.State) (cs : list Server.Call) (p : string) :
  Bytes.unowned s p ->
  is_Some (Db.disk s !! p) ->
  Forall (fun c => Bytes.draws E p c = false) cs ->
  is_Some (Db.disk (fst (Server.run E s cs)) !! p)
  /\ Bytes.unowned (fst (Server.run E s cs)) p.
Proof. apply run_disk. Qed.

Lemma X21_unowned_bytes_are_never_removed_witness :
  is_Some
    (Db.disk
       (fst (Server.run Scenario.env
               (fst (Upload.post Scenario.env Scenario.registered
                       (Scenario.asAlice Scenario.t0)
                       (Scenario.form (Some "soon"%string)) Scenario.fid))
               [Server.RunCleanup (Scenario.t0 + 1000000000000);
                Server.DeleteMyFile (Scenario.asAlice (Scenario.t0 + 5))
                  Scenario.fid;
                Server.GetBlob (Scenario.anonymous (Scenario.t0 + 6))
                  Scenario.fid]))
       !! Upload.filePath Scenario.env Scenario.fid)
  /\ Db.files
       (fst (Upload.post Scenario.env Scenario.registered
               (Scenario.asAlice Scenario.t0)
               (Scenario.form (Some "soon"%string)) Scenario.fid))
     = ∅.
Proof.
  assert (Hfiles : Db.files
                     (fst (Upload.post Scenario.env Scenario.registered
                             (Scenario.asAlice Scenario.t0)
                             (Scenario.form (Some "soon"%string))
                             Scenario.fid)) = ∅)
    by (vm_compute; reflexivity).
  split; [| exact Hfiles].
  apply (X21_unowned_bytes_are_never_removed Scenario.env
           (fst (Upload.post Scenario.env Scenario.registered
                   (Scenario.asAlice Scenario.t0)
                   (Scenario.form (Some "soon"%string)) Scenario.fid))).
  - intros k f Hk. rewrite Hfiles, lookup_empty in Hk. discriminate Hk.
  - exists [x01; x02; x03]. vm_compute. reflexivity.
  - repeat constructor.
Defined.

(** ** More on the upload route and on the pages *)

Section PageFacts.

(** The body of a 201 answer of the upload route. *)
Lemma post_created_body (E : Http.Env) (s : Db.State) req form fid :
  Http.status (snd (Upload.post E s req form fid)) = 201 ->
  exists h,
    Upload.hoursUntilExpiry E form = Some h
    /\ snd (Upload.post E s req form fid)
       = Http.json 201
           (Http.Uploaded fid
              (Dates.toISOString (Http.now req + h * 60 * 60 * 1000))).
Proof.
  unfold Upload.post.
  destruct (AuthMw.authenticateToken E req) as [r0 | user] eqn:Ha.
  { cbn [snd]. intros H.
    destruct (authenticate_rejected _ _ _ Ha) as [X | X];
      rewrite X in H; discriminate H. }
  destruct (RateLimit.consume _ _ _ _) as [hits refused].
  destruct refused; [discriminate |].
  destruct (Upload.file form) as [buffer |] eqn:Hfile.
  2:{ unfold Upload.handler. rewrite Hfile. discriminate. }
  destruct (_ <? _); [discriminate |].
  unfold Upload.handler. rewrite Hfile.
  destruct (negb _ || _ || _); [discriminate |].
  cbv zeta. unfold Upload.expiryDate, Dates.newDate.
  destruct (Upload.hoursUntilExpiry E form) as [h |] eqn:Hh; [| discriminate].
  destruct (_ && _); [| discriminate].
  unfold Db.insertFile.
  destruct (Db.files (Db.writeFile _ _ _) !! _); [discriminate |].
  destruct (Db.users (Db.writeFile _ _ _) !! _); [| discriminate].
  intros _. exists h. split; reflexivity.
Qed.

Lemma orDefault_self (x : string) : Js.orDefault (Some x) "" = x.
Proof.
  unfold Js.orDefault. destruct (String.eqb_spec x ""%string) as [-> | _];
    reflexivity.
Qed.

Lemma fromHash_none (l : list ascii) :
  ~ In "#"%char l -> Client.fromHash l = [].
Proof.
  induction l as [| c l IH]; [reflexivity |]. intros Hn.
  cbn [Client.fromHash]. destruct (Ascii.eqb c "#") eqn:Hc.
  - apply Ascii.eqb_eq in Hc. subst c. exfalso. apply Hn. left. reflexivity.
  - apply IH. intros H. apply Hn. right. exact H.
Qed.

Lemma split_path (fileId : string) :
  ~ In "/"%char (list_ascii_of_string fileId) ->
  Js.split "/" ("/file/" ++ fileId) = [""; "file"; fileId]%string.
Proof.
  intros Hn. unfold Js.split.
  change (list_ascii_of_string ("/file/" ++ fileId))
    with ([] ++ "/"%char
             :: (["f"; "i"; "l"; "e"]%char
                   ++ "/"%char :: list_ascii_of_string fileId)).
  rewrite splitAux_word by (intros []).
  rewrite splitAux_word.
  2:{ intros H. cbn in H.
      repeat (destruct H as [H | H]; [discriminate H |]). exact H. }
  rewrite splitAux_last by exact Hn.
  cbn [rev app string_of_list_ascii].
  rewrite string_of_list_ascii_of_string. reflexivity.
Qed.

End PageFacts.
(** ** main.ts and routes/upload.ts: the record of an upload made by the page *)

(** X22: the record that an upload made by the page leaves on the server,
    when the answer is 201.  The form of the page never carries
    [expiresIn], so the record expires [DEFAULT_EXPIRY_HOURS] after the
    clock of the server; its size is the length of the ciphertext (the
    [filesize] field of the form, the size of the plaintext, is not read);
    its iv is the base64 text of the iv, its name and type are those of the
    picked file (with the default type for an empty one), and the bytes
    under its path are the ciphertext. *)
Theorem X22_page_upload_record
        (encrypt : list byte -> list byte -> list byte -> list byte)
        (E : Http.Env) (s0 s1 : Db.State) (conn : Http.Request)
        (api : string) (token : option string) (file : Client.PickedFile)
        (key iv : list byte) (fileId : string) (r : Client.FetchRequest)
        (resp : Http.Response) :
  Client.uploadRequest encrypt api token file key iv = Some r ->
  Server.serve E s0 (Wire.upload conn r fileId) = (s1, Server.Reply resp) ->
  Http.status resp = 201 ->
  exists h owner,
    Http.DEFAULT_EXPIRY_HOURS E = Some h
    /\ Db.files s1 !! fileId
       = Some {| File.id := fileId;
                 File.path := Upload.filePath E fileId;
                 File.iv := FileRoutes.base64 iv;
                 File.ownerId := owner;
                 File.filename := Client.name file;
                 File.mimetype :=
                   (if String.eqb (Client.type file) ""
                    then "application/octet-stream"%string
                    else Client.type file);
                 File.filesize :=
                   Z.of_nat (length (encrypt key iv (Client.content file)));
                 File.createdAt := Http.now conn;
                 File.expiryTime := Http.now conn + h * 60 * 60 * 1000;
                 File.downloadCount := 0 |}
    /\ Db.disk s1 !! Upload.filePath E fileId
       = Some (encrypt key iv (Client.content file))
    /\ resp = Http.json 201
                (Http.Uploaded fileId
                   (Dates.toISOString (Http.now conn + h * 60 * 60 * 1000))).
Proof.
  intros Hr Hserve H201.
  apply uploadRequest_fields in Hr. subst r.
  unfold Wire.upload, Server.serve in Hserve.
  cbn [Wire.header Wire.textField Wire.fileField Client.headers Client.body
       List.find String.eqb Ascii.eqb Bool.eqb fst snd] in Hserve.
  match type of Hserve with
  | (fst (Upload.post E s0 ?req ?form fileId), _) = _ =>
      set (rq := req) in *; set (fm := form) in *
  end.
  destruct (Upload.post E s0 rq fm fileId) as [s r0] eqn:Hpost.
  cbn [fst snd] in Hserve. injection Hserve as -> ->.
  destruct (post_created _ _ _ _ _ _ _ Hpost H201)
    as (user & buffer & h & Ha & Hfile & Hh & Hnone & Hfiles).
  destruct (post_created_disk _ _ _ _ _ _ _ Hpost H201)
    as (buffer' & Hfile' & Hdisk).
  pose proof (post_created_body E s0 rq fm fileId) as Hbody.
  rewrite Hpost in Hbody. cbn [fst snd] in Hbody.
  specialize (Hbody H201). destruct Hbody as (h' & Hh' & Hbody).
  assert (h' = h) by congruence. subst h'.
  cbn [Upload.file fm] in Hfile, Hfile'.
  injection Hfile as <-. injection Hfile' as <-.
  unfold Upload.hoursUntilExpiry in Hh. cbn [Upload.expiresIn fm Js.truthy] in Hh.
  exists h, (AuthMw.id user). split; [exact Hh |]. split; [| split].
  - rewrite Hfiles, lookup_insert_eq. unfold Upload.record.
    cbn [Upload.iv Upload.filename Upload.mimetype fm Http.now rq].
    rewrite !orDefault_self. reflexivity.
  - rewrite Hdisk. apply lookup_insert_eq.
  - exact Hbody.
Qed.

Lemma X22_page_upload_record_witness :
  exists h owner,
    Http.DEFAULT_EXPIRY_HOURS Scenario.env = Some h
    /\ Db.files Session.uploaded !! Scenario.fid
       = Some {| File.id := Scenario.fid;
                 File.path := Upload.filePath Scenario.env Scenario.fid;
                 File.iv := FileRoutes.base64 Scenario.iv12;
                 File.ownerId := owner;
                 File.filename := Client.name Scenario.picked;
                 File.mimetype :=
                   (if String.eqb (Client.type Scenario.picked) ""
                    then "application/octet-stream"%string
                    else Client.type Scenario.picked);
                 File.filesize :=
                   Z.of_nat
                     (length
                        (Scenario.toyCipher Scenario.key32 Scenario.iv12
                           (Client.content Scenario.picked)));
                 File.createdAt := Http.now (Scenario.anonymous Scenario.t0);
                 File.expiryTime :=
                   Http.now (Scenario.anonymous Scenario.t0)
                   + h * 60 * 60 * 1000;
                 File.downloadCount := 0 |}.
Proof.
  destruct (X22_page_upload_record Scenario.toyCipher Scenario.env
              Scenario.registered Session.uploaded
              (Scenario.anonymous Scenario.t0) Scenario.api
              (Some "token-alice"%string) Scenario.picked Scenario.key32
              Scenario.iv12 Scenario.fid Scenario.sent Session.created)
    as (h & owner & H1 & H2 & _).
  - vm_compute. reflexivity.
  - vm_compute. reflexivity.
  - reflexivity.
  - exists h, owner. split; [exact H1 | exact H2].
Defined.

(** X23: the download page opened at a share link reads back the file id
    and the encoded key the upload page put there, and the key decodes to
    the raw key; opened at the same address without a fragment it stops
    with 'Invalid download link' before any request. *)
Theorem X23_download_page_reads_share_link
        (origin fileId : string) (key : list byte) :
  ~ In "#"%char (list_ascii_of_string origin) ->
  ~ In "#"%char (list_ascii_of_string fileId) ->
  ~ In "/"%char (list_ascii_of_string fileId) ->
  fileId <> ""%string ->
  key <> [] ->
  Download.initDownloadPage ("/file/" ++ fileId)
    (Client.locationHash (Client.uploadShareLink origin fileId key))
  = Some (fileId, Crypto.toBase64Url key)
  /\ Crypto.fromBase64Url (Crypto.toBase64Url key) = Some key
  /\ Download.initDownloadPage ("/file/" ++ fileId)
       (Client.locationHash (origin ++ "/file/" ++ fileId))
     = None.
Proof.
  intros Ho Hf Hs Hid Hkey. split; [| split].
  - pose proof (proj2 (shareLink_split origin fileId (Crypto.toBase64Url key)
                         Ho Hf)) as Hk.
    unfold Client.keyOfLocation in Hk.
    unfold Download.initDownloadPage, Client.uploadShareLink. cbv zeta.
    rewrite Hk, split_path by exact Hs. cbn [List.last].
    destruct (String.eqb_spec fileId ""%string) as [He | _];
      [contradiction |].
    destruct (String.eqb_spec (Crypto.toBase64Url key) ""%string)
      as [He | _]; [exfalso; exact (toBase64Url_nonempty key Hkey He) |].
    reflexivity.
  - apply fromBase64Url_toBase64Url.
  - unfold Download.initDownloadPage, Client.locationHash. cbv zeta.
    rewrite fromHash_none by (apply no_hash_in_path; assumption).
    cbn [string_of_list_ascii]. rewrite String.eqb_refl, orb_true_r.
    reflexivity.
Qed.

Lemma X23_download_page_reads_share_link_witness :
  Download.initDownloadPage ("/file/" ++ Scenario.fid)
    (Client.locationHash
       (Client.uploadShareLink Scenario.origin Scenario.fid Scenario.key32))
  = Some (Scenario.fid, Crypto.toBase64Url Scenario.key32)
  /\ Download.initDownloadPage ("/file/" ++ Scenario.fid)
       (Client.locationHash (Scenario.origin ++ "/file/" ++ Scenario.fid))
     = None.
Proof.
  destruct (X23_download_page_reads_share_link Scenario.origin Scenario.fid
              Scenario.key32)
    as (H1 & _ & H3).
  - intros H. cbn in H.
    repeat (destruct H as [H | H]; [discriminate H |]). exact H.
  - intros H. cbn in H.
    repeat (destruct H as [H | H]; [discriminate H |]). exact H.
  - intros H. cbn in H.
    repeat (destruct H as [H | H]; [discriminate H |]). exact H.
  - discriminate.
  - discriminate.
  - split; [exact H1 | exact H3].
Defined.

(** ** The order of ISO texts and the order of instants *)

Section IsoOrder.

Import Calendar.

Lemma dayOfEra_range (day : Z) :
  0 <= dayOfEra day < 146097
  /\ day + 719468 = era day * 146097 + dayOfEra day.
Proof. unfold dayOfEra, era. Z.div_mod_to_equations. lia. Qed.

Lemma yearOfEra_range (doe : Z) :
  0 <= doe < 146097 ->
  0 <= yearOfEra doe <= 399 /\ 0 <= dayOfYear doe <= 365.
Proof.
  intros H. unfold dayOfYear, yearOfEra. split;
    Z.div_mod_to_equations; lia.
Qed.

Lemma yearOfEra_mono (a b : Z) :
  0 <= a -> a <= b -> b < 146097 -> yearOfEra a <= yearOfEra b.
Proof. unfold yearOfEra. intros. Z.div_mod_to_equations. lia. Qed.

Lemma month_range (doy : Z) :
  0 <= doy <= 365 ->
  0 <= monthIndex doy <= 11 /\ 1 <= dayOfMonth doy <= 31.
Proof.
  intros H. unfold dayOfMonth, monthIndex. Z.div_mod_to_equations. lia.
Qed.

Lemma monthIndex_mono (a b : Z) :
  a <= b -> monthIndex a <= monthIndex b.
Proof. unfold monthIndex. intros. Z.div_mod_to_equations. lia. Qed.

Lemma marchRank_mono (a b : Z) : a < b -> marchRank a < marchRank b.
Proof.
  intros Hab. unfold marchRank. cbv zeta.
  destruct (dayOfEra_range a) as [Ra Ea].
  destruct (dayOfEra_range b) as [Rb Eb].
  destruct (yearOfEra_range _ Ra) as [Ya Da].
  destruct (yearOfEra_range _ Rb) as [Yb Db].
  destruct (month_range _ Da) as [Ma Xa].
  destruct (month_range _ Db) as [Mb Xb].
  destruct (Z.lt_trichotomy (era a) (era b)) as [He | [He | He]].
  - lia.
  - assert (Hdoe : dayOfEra a < dayOfEra b) by lia.
    pose proof (yearOfEra_mono (dayOfEra a) (dayOfEra b)
                  ltac:(lia) ltac:(lia) ltac:(lia)) as Hy.
    destruct (Z.eq_dec (yearOfEra (dayOfEra a)) (yearOfEra (dayOfEra b)))
      as [Hye | Hyne]; [| lia].
    assert (Hdoy : dayOfYear (dayOfEra a) < dayOfYear (dayOfEra b)).
    { unfold dayOfYear. rewrite Hye. lia. }
    pose proof (monthIndex_mono _ _ (Z.lt_le_incl _ _ Hdoy)) as Hm.
    destruct (Z.eq_dec (monthIndex (dayOfYear (dayOfEra a)))
                       (monthIndex (dayOfYear (dayOfEra b))))
      as [Hme | Hmne]; [| lia].
    assert (Hd : dayOfMonth (dayOfYear (dayOfEra a))
                 < dayOfMonth (dayOfYear (dayOfEra b))).
    { unfold dayOfMonth. rewrite Hme. lia. }
    lia.
  - lia.
Qed.

Lemma rank_civil (day : Z) :
  rank (Dates.civil day) = marchRank day + 64
  /\ 1 <= snd (fst (Dates.civil day)) <= 12
  /\ 1 <= snd (Dates.civil day) <= 31.
Proof.
  destruct (dayOfEra_range day) as [Ra _].
  destruct (yearOfEra_range _ Ra) as [_ Da].
  destruct (month_range _ Da) as [Ma Xa].
  revert Ma Xa.
  unfold Dates.civil, rank, marchRank, dayOfMonth, monthIndex, dayOfYear,
    yearOfEra, dayOfEra, era.
  cbv zeta. cbn [fst snd].
  set (z := day + 719468).
  set (doe := z - z / 146097 * 146097).
  set (yoe := (doe - doe / 1460 + doe / 36524 - doe / 146096) / 365).
  set (doy := doe - (365 * yoe + yoe / 4 - yoe / 100)).
  set (mp := (5 * doy + 2) / 153).
  set (dom := doy - (153 * mp + 2) / 5 + 1).
  intros Ma Xa.
  destruct (Z.ltb_spec mp 10) as [H10 | H10].
  - destruct (Z.leb_spec (mp + 3) 2) as [H2 | H2]; cbn [fst snd]; lia.
  - destruct (Z.leb_spec (mp - 9) 2) as [H2 | H2]; cbn [fst snd]; lia.
Qed.

Lemma rank_mono (a b : Z) :
  a < b -> rank (Dates.civil a) < rank (Dates.civil b).
Proof.
  intros H. rewrite (proj1 (rank_civil a)), (proj1 (rank_civil b)).
  pose proof (marchRank_mono a b H). lia.
Qed.

Lemma rank_compare (a b : Z) :
  (rank (Dates.civil a) ?= rank (Dates.civil b)) = (a ?= b).
Proof.
  destruct (Z.compare_spec a b) as [-> | H | H].
  - apply Z.compare_refl.
  - apply Z.compare_lt_iff, rank_mono, H.
  - apply Z.compare_gt_iff, rank_mono, H.
Qed.

Lemma lex_base (B h h' l l' : Z) :
  0 <= l < B -> 0 <= l' < B ->
  lex (h ?= h') (l ?= l') = (h * B + l ?= h' * B + l').
Proof.
  intros Hl Hl'. unfold lex.
  destruct (Z.compare_spec h h') as [-> | H | H].
  - symmetry. apply Z.add_compare_mono_l.
  - symmetry. apply Z.compare_lt_iff. nia.
  - symmetry. apply Z.compare_gt_iff. nia.
Qed.

Lemma lex_assoc (a b c : comparison) : lex (lex a b) c = lex a (lex b c).
Proof. destruct a; reflexivity. Qed.

(** The same with more comparisons to the right. *)
Lemma lex_step (B h h' l l' : Z) (c : comparison) :
  0 <= l < B -> 0 <= l' < B ->
  lex (h ?= h') (lex (l ?= l') c) = lex (h * B + l ?= h' * B + l') c.
Proof.
  intros Hl Hl'. rewrite <- lex_assoc, (lex_base B) by assumption.
  reflexivity.
Qed.

Lemma append_assoc3 (a b c : string) :
  ((a ++ b) ++ c)%string = (a ++ (b ++ c))%string.
Proof.
  induction a as [| x a IH]; [reflexivity |].
  change (String x ((a ++ b) ++ c) = String x (a ++ (b ++ c)))%string.
  rewrite IH. reflexivity.
Qed.

Lemma append_single (c : ascii) (r : string) :
  (String c "" ++ r)%string = String c r.
Proof. reflexivity. Qed.

Lemma compare_cons (c c' : ascii) (r r' : string) :
  String.compare (String c r) (String c' r')
  = lex (Ascii.compare c c') (String.compare r r').
Proof. cbn [String.compare]. unfold lex. destruct (Ascii.compare c c'); reflexivity. Qed.

Lemma compare_same_cons (c : ascii) (r r' : string) :
  String.compare (String c r) (String c r') = String.compare r r'.
Proof.
  rewrite compare_cons. unfold Ascii.compare. rewrite N.compare_refl.
  reflexivity.
Qed.

Lemma digit_compare (n n' : Z) :
  0 <= n < 10 -> 0 <= n' < 10 ->
  Ascii.compare (ascii_of_N (Z.to_N (48 + n)))
                (ascii_of_N (Z.to_N (48 + n')))
  = (n ?= n').
Proof.
  intros Hn Hn'. unfold Ascii.compare.
  rewrite !N_ascii_embedding by lia.
  rewrite Z2N.inj_compare by lia.
  apply Z.add_compare_mono_l.
Qed.

Lemma compare_digits (k : nat) :
  forall (n n' : Z) (r r' : string),
    0 <= n < 10 ^ Z.of_nat k -> 0 <= n' < 10 ^ Z.of_nat k ->
    String.compare (Dates.digits k n ++ r) (Dates.digits k n' ++ r')
    = lex (n ?= n') (String.compare r r').
Proof.
  induction k as [| k IH]; intros n n' r r' Hn Hn'.
  - cbn in Hn, Hn'. assert (n = 0) by lia. assert (n' = 0) by lia.
    subst. reflexivity.
  - rewrite Nat2Z.inj_succ, Z.pow_succ_r in Hn, Hn' by lia.
    cbn [Dates.digits]. rewrite !append_assoc3, !append_single.
    rewrite IH by (Z.div_mod_to_equations; lia).
    rewrite compare_cons.
    rewrite digit_compare by (Z.div_mod_to_equations; lia).
    rewrite (lex_step 10) by (Z.div_mod_to_equations; lia).
    replace (n / 10 * 10 + n mod 10) with n
      by (Z.div_mod_to_equations; lia).
    replace (n' / 10 * 10 + n' mod 10) with n'
      by (Z.div_mod_to_equations; lia).
    reflexivity.
Qed.

(** The text of an instant whose year has four digits. *)
Lemma toISOString_form (t y m d : Z) :
  Dates.civil (t / 86400000) = (y, m, d) ->
  0 <= y <= 9999 ->
  Dates.toISOString t
  = (Dates.digits 4 y ++ "-" ++ Dates.digits 2 m ++ "-" ++ Dates.digits 2 d
       ++ "T" ++ Dates.digits 2 (t mod 86400000 / 3600000)
       ++ ":" ++ Dates.digits 2 (t mod 86400000 / 60000 mod 60)
       ++ ":" ++ Dates.digits 2 (t mod 86400000 / 1000 mod 60)
       ++ "." ++ Dates.digits 3 (t mod 86400000 mod 1000) ++ "Z")%string.
Proof.
  intros Hc Hy. unfold Dates.toISOString. rewrite Hc. cbv zeta.
  destruct (Z.leb_spec 0 y); [| lia].
  destruct (Z.leb_spec y 9999); [| lia].
  reflexivity.
Qed.

Lemma year_range (t : Z) :
  fourDigitYear t -> 0 <= fst (fst (Dates.civil (t / 86400000))) <= 9999.
Proof.
  unfold fourDigitYear, firstInstant, lastInstant. intros Ht.
  assert (Hd : -719528 <= t / 86400000 <= 2932896)
    by (Z.div_mod_to_equations; lia).
  destruct (rank_civil (t / 86400000)) as (_ & Hm & Hdm).
  assert (Hlo : rank (Dates.civil (-719528))
                <= rank (Dates.civil (t / 86400000))).
  { destruct (Z.eq_dec (-719528) (t / 86400000)) as [<- | Hne]; [lia |].
    apply Z.lt_le_incl, rank_mono. lia. }
  assert (Hhi : rank (Dates.civil (t / 86400000))
                <= rank (Dates.civil 2932896)).
  { destruct (Z.eq_dec (t / 86400000) 2932896) as [-> | Hne]; [lia |].
    apply Z.lt_le_incl, rank_mono. lia. }
  change (rank (Dates.civil (-719528))) with 1 in Hlo.
  change (rank (Dates.civil 2932896)) with 3839999 in Hhi.
  destruct (Dates.civil (t / 86400000)) as [[y m] d].
  cbn [fst snd rank] in *. lia.
Qed.

Lemma toISOString_compare (a b : Z) :
  fourDigitYear a -> fourDigitYear b ->
  String.compare (Dates.toISOString a) (Dates.toISOString b) = (a ?= b).
Proof.
  intros Ha Hb.
  pose proof (year_range a Ha) as Hya. pose proof (year_range b Hb) as Hyb.
  destruct (rank_civil (a / 86400000)) as (_ & Hma & Hda).
  destruct (rank_civil (b / 86400000)) as (_ & Hmb & Hdb).
  pose proof (rank_compare (a / 86400000) (b / 86400000)) as Hrank.
  destruct (Dates.civil (a / 86400000)) as [[y m] d] eqn:Hca.
  destruct (Dates.civil (b / 86400000)) as [[y' m'] d'] eqn:Hcb.
  cbn [fst snd rank] in *.
  rewrite (toISOString_form a y m d Hca Hya),
          (toISOString_form b y' m' d' Hcb Hyb).
  set (ra := a mod 86400000) in *. set (rb := b mod 86400000) in *.
  assert (Hra : 0 <= ra < 86400000) by (apply Z.mod_pos_bound; lia).
  assert (Hrb : 0 <= rb < 86400000) by (apply Z.mod_pos_bound; lia).
  rewrite !append_single.
  rewrite (compare_digits 4) by (cbn; lia).
  rewrite compare_same_cons.
  rewrite (compare_digits 2) by (cbn; lia).
  rewrite compare_same_cons.
  rewrite (compare_digits 2) by (cbn; lia).
  rewrite compare_same_cons.
  rewrite (compare_digits 2) by (cbn; Z.div_mod_to_equations; lia).
  rewrite compare_same_cons.
  rewrite (compare_digits 2) by (cbn; Z.div_mod_to_equations; lia).
  rewrite compare_same_cons.
  rewrite (compare_digits 2) by (cbn; Z.div_mod_to_equations; lia).
  rewrite compare_same_cons.
  rewrite (compare_digits 3) by (cbn; Z.div_mod_to_equations; lia).
  change (String.compare "Z" "Z") with Eq.
  (* from the fields to the instants *)
  replace (m ?= m') with (m - 1 ?= m' - 1)
    by (destruct (Z.compare_spec m m'), (Z.compare_spec (m - 1) (m' - 1));
        try reflexivity; lia).
  rewrite (lex_step 12) by lia.
  rewrite (lex_step 32) by lia.
  rewrite Hrank.
  rewrite (lex_step 24) by (Z.div_mod_to_equations; lia).
  rewrite (lex_step 60) by (Z.div_mod_to_equations; lia).
  rewrite (lex_step 60) by (Z.div_mod_to_equations; lia).
  rewrite (lex_step 1000) by (Z.div_mod_to_equations; lia).
  unfold lex at 1.
  replace ((((a / 86400000 * 24 + ra / 3600000) * 60 + ra / 60000 mod 60)
              * 60 + ra / 1000 mod 60) * 1000 + ra mod 1000) with a
    by (unfold ra; Z.div_mod_to_equations; lia).
  replace ((((b / 86400000 * 24 + rb / 3600000) * 60 + rb / 60000 mod 60)
              * 60 + rb / 1000 mod 60) * 1000 + rb mod 1000) with b
    by (unfold rb; Z.div_mod_to_equations; lia).
  destruct (a ?= b); reflexivity.
Qed.

Lemma textLt_toISOString (a b : Z) :
  fourDigitYear a -> fourDigitYear b ->
  Dates.textLt (Dates.toISOString a) (Dates.toISOString b) = (a <? b).
Proof.
  intros Ha Hb. unfold Dates.textLt, String.ltb, Z.ltb.
  rewrite (toISOString_compare a b Ha Hb). reflexivity.
Qed.

End IsoOrder.

(** X24: for two instants whose years have four digits (0000 to 9999),
    the ISO texts that [toISOString] gives compare, as TEXT values, the way
    the instants compare: the text of the earlier instant is the smaller
    one, and equal texts mean equal instants. *)
Theorem X24_iso_text_order_is_time_order (a b : Z) :
  Calendar.fourDigitYear a ->
  Calendar.fourDigitYear b ->
  Dates.textLt (Dates.toISOString a) (Dates.toISOString b) = (a <? b)
  /\ (Dates.toISOString a = Dates.toISOString b -> a = b).
Proof.
  intros Ha Hb. pose proof (toISOString_compare a b Ha Hb) as Hc. split.
  - unfold Dates.textLt, String.ltb, Z.ltb. rewrite Hc. reflexivity.
  - intros He. rewrite He in Hc.
    assert (Hr : String.compare (Dates.toISOString b) (Dates.toISOString b)
                 = Eq).
    { rewrite (toISOString_compare b b Hb Hb). apply Z.compare_refl. }
    rewrite Hr in Hc. symmetry in Hc. apply Z.compare_eq_iff in Hc. exact Hc.
Qed.

Lemma X24_iso_text_order_is_time_order_witness :
  Dates.textLt (Dates.toISOString Scenario.t0)
               (Dates.toISOString (Scenario.t0 + 86400000))
  = (Scenario.t0 <? Scenario.t0 + 86400000).
Proof.
  apply (X24_iso_text_order_is_time_order Scenario.t0
           (Scenario.t0 + 86400000)).
  - unfold Calendar.fourDigitYear. vm_compute.
    split; intros H; discriminate H.
  - unfold Calendar.fourDigitYear. vm_compute.
    split; intros H; discriminate H.
Defined.

(** X25: within the four-digit years the cleanup and the blob route agree
    on what is expired.  In a state where the constraints of the schema
    hold, a run of the cleanup at the clock reading [now] deletes a record
    exactly when its expiry is before [now], which is exactly when the blob
    handler answers 410 at that clock reading. *)
Theorem X25_cleanup_agrees_with_the_blob_route
        (E : Http.Env) (s : Db.State) (now : Z) (req : Http.Request)
        (k : string) (f : File.EncryptedFile) :
  Inv.wf E s ->
  Db.files s !! k = Some f ->
  Js.uuidRegexTest k = true ->
  Http.now req = now ->
  Calendar.fourDigitYear now ->
  Calendar.fourDigitYear (File.expiryTime f) ->
  Db.files (fst (Cleanup.cleanupExpiredFiles s now)) !! k
  = (if File.expiryTime f <? now then None else Some f)
  /\ (Db.files (fst (Cleanup.cleanupExpiredFiles s now)) !! k = None
      <-> Http.status (snd (FileRoutes.blobHandler E s req k)) = 410).
Proof.
  intros Hwf Hf Hu Hnow Hn He.
  assert (Hk : Spec.keyed s) by (intros x g Hx; apply (proj1 Hwf x g Hx)).
  assert (H1 : Db.files (fst (Cleanup.cleanupExpiredFiles s now)) !! k
               = (if File.expiryTime f <? now then None else Some f)).
  { rewrite (cleanup_lookup s now k Hk), Hf. unfold Cleanup.selected.
    rewrite (textLt_toISOString _ _ He Hn). reflexivity. }
  split; [exact H1 |]. rewrite H1.
  unfold FileRoutes.blobHandler. rewrite Hu, Hf, Hnow. cbn [negb].
  destruct (proj1 Hwf k f Hf) as (_ & _ & _ & [data Hdata]).
  destruct (File.expiryTime f <? now).
  - split; reflexivity.
  - rewrite Hdata. split; intros H; discriminate H.
Qed.

Lemma X25_cleanup_agrees_with_the_blob_route_witness :
  Db.files
    (fst (Cleanup.cleanupExpiredFiles
            (fst (Server.run Scenario.env Db.empty History.calls))
            (Scenario.t0 + 90000000))) !! Scenario.fid
  = (if File.expiryTime (Scenario.aliceFile (Scenario.t0 + 86400000))
        <? Scenario.t0 + 90000000
     then None
     else Some (Scenario.aliceFile (Scenario.t0 + 86400000))).
Proof.
  refine (proj1
            (X25_cleanup_agrees_with_the_blob_route Scenario.env
               (fst (Server.run Scenario.env Db.empty History.calls))
               (Scenario.t0 + 90000000)
               (Scenario.anonymous (Scenario.t0 + 90000000))
               Scenario.fid (Scenario.aliceFile (Scenario.t0 + 86400000))
               _ _ _ _ _ _)).
  - apply wf_run, wf_empty.
  - vm_compute. reflexivity.
  - vm_compute. reflexivity.
  - reflexivity.
  - unfold Calendar.fourDigitYear. vm_compute.
    split; intros H; discriminate H.
  - unfold Calendar.fourDigitYear. vm_compute.
    split; intros H; discriminate H.
Defined.

(** ** api.ts and routes/upload.ts: the time to live on the wire *)

Section Numerals.







End Numerals.



(** ** middleware/logging.ts: the address in the log *)

(** X27: the address written to the log is taken from the
    [x-forwarded-for] header when the request has one that is not empty:
    it is the first comma-separated entry of the header, trimmed, whatever
    the address of the connection is.  The key of the rate limiters does
    not look at the header: a request is refused or admitted as the same
    request without it. *)
Theorem X27_logged_address_is_the_forwarded_one
        (E : Http.Env) (s : Db.State) (req : Http.Request)
        (first tail : string) (ev : Log.EventType)
        (ex : option (list (string * Log.Json))) :
  ~ In ","%char (list_ascii_of_string first) ->
  tail = ""%string \/ (exists t, tail = String "," t) ->
  (first ++ tail)%string <> ""%string ->
  Db.logs (Logging.logRequest s
             (Proxy.withForwarded (Some (first ++ tail)%string) req)
             ev None ex)
  = Db.logs s
    ++ [{| Log.timestamp := Http.now req; Log.ip := Js.trim first;
           Log.userAgent := Logging.getUserAgent req; Log.fileId := None;
           Log.eventType := ev; Log.extra := ex |}]
  /\ Spec.downloadRefused E s
       (Proxy.withForwarded (Some (first ++ tail)%string) req)
     = Spec.downloadRefused E s req
  /\ Limits.uploadRefused E s
       (Proxy.withForwarded (Some (first ++ tail)%string) req)
     = Limits.uploadRefused E s req
  /\ Limits.loginRefused E s
       (Proxy.withForwarded (Some (first ++ tail)%string) req)
     = Limits.loginRefused E s req.
Proof.
  intros Hf Htail Hne. split; [| repeat split; reflexivity].
  rewrite logRequest_null. cbn [Db.logs Db.setLogs]. f_equal. f_equal.
  unfold Events.row. f_equal.
  unfold Logging.getClientIp, Proxy.withForwarded.
  cbn [Http.xForwardedFor Js.truthy].
  apply String.eqb_neq in Hne. rewrite Hne. cbn [negb].
  f_equal. unfold Js.split. rewrite list_ascii_of_string_app.
  destruct Htail as [-> | [t ->]].
  - cbn [list_ascii_of_string]. rewrite app_nil_r.
    rewrite splitAux_last by exact Hf. cbn [hd rev app].
    apply string_of_list_ascii_of_string.
  - cbn [list_ascii_of_string]. rewrite splitAux_word by exact Hf.
    cbn [hd rev app]. apply string_of_list_ascii_of_string.
Qed.

Lemma X27_logged_address_is_the_forwarded_one_witness :
  Db.logs (Logging.logRequest Scenario.registered
             (Proxy.withForwarded (Some " 10.0.0.1 ,198.51.100.2"%string)
                (Scenario.anonymous Scenario.t0))
             Log.AUTH_FAILED None None)
  = Db.logs Scenario.registered
    ++ [{| Log.timestamp := Scenario.t0; Log.ip := "10.0.0.1";
           Log.userAgent := "curl/8"; Log.fileId := None;
           Log.eventType := Log.AUTH_FAILED; Log.extra := None |}].
Proof.
  refine (proj1
            (X27_logged_address_is_the_forwarded_one Scenario.env
               Scenario.registered (Scenario.anonymous Scenario.t0)
               " 10.0.0.1 " ",198.51.100.2" Log.AUTH_FAILED None _ _ _)).
  - intros H. cbn in H.
    repeat (destruct H as [H | H]; [discriminate H |]). exact H.
  - right. exists "198.51.100.2"%string. reflexivity.
  - discriminate.
Defined.

(** ** main.ts: when the download page hands out a plaintext *)

(** X28: the download page hands a plaintext to the browser only when the
    answer of the server is a 2xx blob, the key of the link decodes, the iv
    and the ciphertext of the answer decode, and the decryption with them
    succeeds, and that plaintext is what the decryption returned.  An
    answer outside 2xx, or a key with a character that is foreign to
    base64, gives no plaintext. *)
Theorem X28_download_page_fails_closed
        (decrypt : list byte -> list byte -> list byte -> option (list byte))
        (key : string) (r : Http.Response) :
  (forall plaintext,
      Download.downloadAndDecryptFile decrypt key r = Some plaintext ->
      200 <= Http.status r <= 299
      /\ exists ciphertext iv filename mimetype filesize kb ib cb,
          Http.body r = Http.Blob ciphertext iv filename mimetype filesize
          /\ Crypto.fromBase64Url key = Some kb
          /\ Download.decodeBase64 iv = Some ib
          /\ Download.decodeBase64 ciphertext = Some cb
          /\ decrypt kb ib cb = Some plaintext)
  /\ (forall c, In c (list_ascii_of_string key) ->
                Foreign.foreign c = true ->
                Download.downloadAndDecryptFile decrypt key r = None).
Proof.
  split.
  - intros plaintext. unfold Download.downloadAndDecryptFile,
      Download.downloadFile.
    destruct (Z.leb_spec 200 (Http.status r)) as [H1 | H1];
      [| discriminate].
    destruct (Z.leb_spec (Http.status r) 299) as [H2 | H2];
      [| discriminate].
    cbn [andb].
    destruct (Http.body r) as [| | | | ct iv fn mt sz | |] eqn:Hb;
      try discriminate.
    destruct (Crypto.fromBase64Url key) as [kb |] eqn:Hk; [| discriminate].
    destruct (Download.decodeBase64 iv) as [ib |] eqn:Hi; [| discriminate].
    destruct (Download.decodeBase64 ct) as [cb |] eqn:Hc; [| discriminate].
    intros Hd. split; [lia |].
    exists ct, iv, fn, mt, sz, kb, ib, cb. repeat split; assumption.
  - intros c Hin Hf.
    assert (Hk : Crypto.fromBase64Url key = None).
    { unfold Crypto.fromBase64Url. rewrite replaceAll_urlUnsafe.
      rewrite (atob_foreign _ c); [reflexivity | | exact Hf].
      apply In_padLoop. apply in_map_iff. exists c. split; [| exact Hin].
      apply (foreign_facts c Hf). }
    unfold Download.downloadAndDecryptFile. rewrite Hk.
    destruct (Download.downloadFile r) as [[| | | | ? ? ? ? ? | |] |];
      reflexivity.
Qed.

(** ** The download counter agrees with the log *)

Section Tallies.

Variable E : Http.Env.

Lemma tally_frame (s s' : Db.State) :
  Db.files s' = Db.files s -> Db.logs s' = Db.logs s ->
  Tally.consistent s -> Tally.consistent s'.
Proof.
  unfold Tally.consistent, Tally.downloadsLogged. intros -> ->. tauto.
Qed.

Lemma tally_snoc (s : Db.State) (l : Log.Log) (k : string) :
  Tally.downloadsLogged (Db.setLogs s (Db.logs s ++ [l])) k
  = Tally.downloadsLogged s k + (if Tally.counts k l then 1 else 0).
Proof.
  unfold Tally.downloadsLogged. cbn [Db.logs Db.setLogs].
  rewrite List.filter_app, length_app. cbn [List.filter].
  destruct (Tally.counts k l); cbn [length]; lia.
Qed.

(** An event of another kind leaves every tally as it was. *)
Lemma tally_logRequest (s : Db.State) req ev fid ex :
  ev <> Log.DOWNLOAD_OK ->
  Tally.consistent s ->
  Tally.consistent (Logging.logRequest s req ev fid ex).
Proof.
  intros Hev Hc. unfold Logging.logRequest, Logging.logEvent, Db.insertLog.
  cbn [Log.fileId].
  assert (Hrow : forall x k,
             Tally.counts k
               {| Log.timestamp := Http.now req;
                  Log.ip := Logging.getClientIp req;
                  Log.userAgent := Logging.getUserAgent req;
                  Log.fileId := x; Log.eventType := ev; Log.extra := ex |}
             = false).
  { intros x k. unfold Tally.counts. cbn [Log.eventType Log.fileId].
    destruct ev; try reflexivity. contradiction. }
  destruct (Js.orElse fid None) as [x |];
    [destruct (Db.files s !! x); [| exact Hc] |];
    intros k f Hk; cbn [Db.files Db.setLogs] in Hk;
    rewrite tally_snoc, Hrow, Z.add_0_r; exact (Hc k f Hk).
Qed.

Lemma counts_setNull (x k : string) (l : Log.Log) :
  x <> k -> Tally.counts k (Log.setNull x l) = Tally.counts k l.
Proof.
  intros Hne. unfold Log.setNull, Tally.counts.
  destruct (Log.fileId l) as [y |] eqn:Hy; [| rewrite Hy; reflexivity].
  destruct (String.eqb_spec y x) as [-> | Hyx].
  - cbn [Log.eventType Log.fileId].
    destruct (String.eqb_spec x k) as [He | _]; [contradiction |].
    destruct (Log.eventType l); reflexivity.
  - rewrite Hy. reflexivity.
Qed.

Lemma tally_setNull (x k : string) (logs : list Log.Log) :
  x <> k ->
  length (List.filter (Tally.counts k) (map (Log.setNull x) logs))
  = length (List.filter (Tally.counts k) logs).
Proof.
  intros Hne. induction logs as [| l logs IH]; [reflexivity |].
  cbn [map List.filter]. rewrite counts_setNull by exact Hne.
  destruct (Tally.counts k l); cbn [length]; rewrite IH; reflexivity.
Qed.

Lemma tally_deleteRow (s : Db.State) (p x : string) :
  Tally.consistent s ->
  Tally.consistent
    (Db.deleteFile
       (match Db.unlinkSync s p with inr s' => s' | inl _ => s end) x).
Proof.
  intros Hc k f.
  unfold Tally.downloadsLogged.
  cbn [Db.deleteFile Db.files Db.logs Db.setLogs Db.setFiles].
  rewrite unlink_files, unlink_logs.
  destruct (decide (x = k)) as [-> | Hne].
  - rewrite lookup_delete_eq. discriminate.
  - rewrite lookup_delete_ne by exact Hne. intros Hk.
    rewrite tally_setNull by exact Hne. exact (Hc k f Hk).
Qed.

(** No event names an id that has no record. *)
Lemma tally_absent (s : Db.State) (k : string) :
  Inv.wf E s -> Db.files s !! k = None -> Tally.downloadsLogged s k = 0.
Proof.
  intros (_ & Hlogs & _) Hk. unfold Tally.downloadsLogged.
  assert (H : List.filter (Tally.counts k) (Db.logs s) = []).
  { destruct (List.filter _ _) as [| l r] eqn:Hf; [reflexivity |].
    exfalso.
    assert (Hin : In l (List.filter (Tally.counts k) (Db.logs s)))
      by (rewrite Hf; left; reflexivity).
    apply filter_In in Hin. destruct Hin as [Hin Hcount].
    unfold Tally.counts in Hcount.
    destruct (Log.eventType l); try discriminate Hcount.
    destruct (Log.fileId l) as [y |] eqn:Hy; [| discriminate Hcount].
    apply String.eqb_eq in Hcount. subst y.
    destruct (Hlogs l k Hin Hy) as [f Hf']. congruence. }
  rewrite H. reflexivity.
Qed.

Lemma tally_post (s : Db.State) req form fid :
  Inv.wf E s -> Tally.consistent s ->
  Tally.consistent (fst (Upload.post E s req form fid)).
Proof.
  intros Hwf Hc. unfold Upload.post.
  destruct (AuthMw.authenticateToken E req) as [r | user]; [exact Hc |].
  destruct (RateLimit.consume _ _ _ _) as [hits refused].
  assert (H0 : Tally.consistent (Db.setUploadHits s hits))
    by (apply (tally_frame s); [reflexivity .. | exact Hc]).
  assert (W0 : Inv.wf E (Db.setUploadHits s hits))
    by (apply (wf_frame E s); [reflexivity .. | exact Hwf]).
  destruct refused; [exact H0 |].
  destruct (match Upload.file form with Some _ => _ | None => _ end);
    [exact H0 |].
  unfold Upload.handler.
  destruct (Upload.file form) as [buffer |];
    [| apply tally_logRequest; [discriminate | exact H0]].
  destruct (negb _ || _ || _);
    [apply tally_logRequest; [discriminate | exact H0] |].
  cbv zeta.
  assert (H1 : Tally.consistent
                 (Db.writeFile (Db.setUploadHits s hits)
                    (Upload.filePath E fid) buffer))
    by (apply (tally_frame s); [reflexivity .. | exact Hc]).
  pose proof (wf_writeFile E _ (Upload.filePath E fid) buffer W0) as W1.
  destruct (Upload.expiryDate _ _) as [expiry |];
    [| apply tally_logRequest; [discriminate | exact H1]].
  unfold Db.insertFile.
  destruct (Db.files (Db.writeFile _ _ _) !! _) eqn:Hnone;
    [apply tally_logRequest; [discriminate | exact H1] |].
  destruct (Db.users (Db.writeFile _ _ _) !! _);
    [| apply tally_logRequest; [discriminate | exact H1]].
  cbn [fst]. apply tally_logRequest; [discriminate |].
  cbn [File.id Upload.record] in *.
  intros k f. unfold Tally.downloadsLogged.
  cbn [Db.files Db.logs Db.setFiles].
  destruct (decide (fid = k)) as [<- | Hne].
  - rewrite lookup_insert_eq. intros H. injection H as <-.
    cbn [File.downloadCount]. symmetry.
    exact (tally_absent _ fid W1 Hnone).
  - rewrite lookup_insert_ne by exact Hne. intros Hk. exact (H1 k f Hk).
Qed.

Lemma tally_getBlob (s : Db.State) req fid :
  Tally.consistent s ->
  Tally.consistent (fst (FileRoutes.getBlob E s req fid)).
Proof.
  intros Hc. unfold FileRoutes.getBlob.
  destruct (RateLimit.consume _ _ _ _) as [hits refused].
  assert (H0 : Tally.consistent (Db.setDownloadHits s hits))
    by (apply (tally_frame s); [reflexivity .. | exact Hc]).
  destruct refused; [exact H0 |].
  unfold FileRoutes.blobHandler.
  destruct (Js.uuidRegexTest fid) eqn:Hu; cbn [negb]; [| exact H0].
  destruct (Db.files _ !! fid) as [f |] eqn:Hf;
    [| apply tally_logRequest; [discriminate | exact H0]].
  destruct (_ <? _); [apply tally_logRequest; [discriminate | exact H0] |].
  destruct (Db.disk (Db.setDownloadHits s hits) !! File.path f);
    [| exact H0].
  cbv zeta. cbn [fst].
  erewrite logRequest_present;
    [| apply uuid_nonempty, Hu
     | cbn [Db.files Db.incrementDownloads Db.setFiles];
       rewrite lookup_alter_eq, Hf; reflexivity].
  intros k g. rewrite tally_snoc.
  cbn [Db.files Db.setLogs Db.incrementDownloads Db.setFiles].
  unfold Tally.counts, Events.row. cbn [Log.eventType Log.fileId].
  destruct (decide (fid = k)) as [<- | Hne].
  - rewrite lookup_alter_eq, Hf, String.eqb_refl. intros H.
    injection H as <-. cbn [File.downloadCount File.downloaded].
    rewrite (H0 fid f Hf). reflexivity.
  - rewrite lookup_alter_ne by exact Hne.
    destruct (String.eqb_spec fid k) as [He | _]; [contradiction |].
    intros Hk. rewrite Z.add_0_r. exact (H0 k g Hk).
Qed.

Lemma tally_login (s : Db.State) req e p :
  Tally.consistent s ->
  Tally.consistent (fst (AuthRoutes.login E s req e p)).
Proof.
  intros Hc. unfold AuthRoutes.login.
  destruct (RateLimit.consume _ _ _ _) as [hits refused].
  assert (H0 : Tally.consistent (Db.setAuthHits s hits))
    by (apply (tally_frame s); [reflexivity .. | exact Hc]).
  destruct refused; [exact H0 |].
  unfold AuthRoutes.loginHandler.
  destruct (negb _ || negb _);
    [apply tally_logRequest; [discriminate | exact H0] |]. cbv zeta.
  destruct (Db.findUserByEmail _ _);
    [| apply tally_logRequest; [discriminate | exact H0]].
  destruct (negb _);
    [apply tally_logRequest; [discriminate | exact H0] | exact H0].
Qed.

Lemma tally_fold_deleteOne (l : list File.EncryptedFile) (s : Db.State)
      (c : Z * Z) :
  Tally.consistent s ->
  Tally.consistent
    (fst (fold_left (fun acc file => Cleanup.deleteOne file acc) l (s, c))).
Proof.
  revert s c. induction l as [| f l IH]; intros s [d e] Hc; [exact Hc |].
  cbn [fold_left Cleanup.deleteOne]. apply IH, tally_deleteRow, Hc.
Qed.

Lemma tally_serve (s : Db.State) (c : Server.Call) :
  Inv.wf E s -> Tally.consistent s ->
  Tally.consistent (fst (Server.serve E s c)).
Proof.
  intros Hwf Hc.
  destruct c as [req e p uid | req e p | req form k | req k | req k | req
                | req k | now]; unfold Server.serve; cbn [fst snd].
  - apply (tally_frame s);
      [apply register_files | apply register_logs | exact Hc].
  - apply tally_login, Hc.
  - apply tally_post; assumption.
  - rewrite getMetadata_state. exact Hc.
  - apply tally_getBlob, Hc.
  - unfold MyFiles.list. destruct (AuthMw.authenticateToken E req); exact Hc.
  - unfold MyFiles.delete.
    destruct (AuthMw.authenticateToken E req) as [r | user]; [exact Hc |].
    destruct (Db.files s !! k) as [f |]; [| exact Hc].
    destruct (String.eqb _ _); [| exact Hc].
    apply tally_deleteRow, Hc.
  - pose proof (tally_fold_deleteOne
                  (Cleanup.selectExpired s (Dates.toISOString now)) s (0, 0)
                  Hc) as H.
    unfold Cleanup.cleanupExpiredFiles. cbv zeta.
    destruct (fold_left _ _ _) as [s' [d e]]. exact H.
Qed.

Lemma tally_run (cs : list Server.Call) (s : Db.State) :
  Inv.wf E s -> Tally.consistent s ->
  Tally.consistent (fst (Server.run E s cs)).
Proof.
  revert s. induction cs as [| c cs IH]; intros s Hwf Hc; [exact Hc |].
  cbn [Server.run].
  pose proof (wf_serve E s c Hwf) as W1.
  pose proof (tally_serve s c Hwf Hc) as H1.
  destruct (Server.serve E s c) as [s1 o]. cbn [fst] in W1, H1.
  pose proof (IH s1 W1 H1) as H2.
  destruct (Server.run E s1 cs) as [s2 os]. exact H2.
Qed.

End Tallies.

(** X29: the download counter agrees with the log.  In every state the
    server reaches from the empty database, the [downloadCount] of each
    record is the number of DOWNLOAD_OK events of the log that name its
    id. *)
Theorem X29_download_count_is_the_number_of_logged_downloads
        (E : Http.Env) (cs : list Server.Call) (k : string)
        (f : File.EncryptedFile) :
  Db.files (fst (Server.run E Db.empty cs)) !! k = Some f ->
  File.downloadCount f
  = Z.of_nat
      (length
         (List.filter
            (fun l =>
               match Log.eventType l, Log.fileId l with
               | Log.DOWNLOAD_OK, Some x => String.eqb x k
               | _, _ => false
               end)
            (Db.logs (fst (Server.run E Db.empty cs))))).
Proof.
  intros Hk.
  apply (tally_run E cs Db.empty (wf_empty E)); [| exact Hk].
  intros x g Hx. cbn [Db.files Db.empty] in Hx.
  rewrite lookup_empty in Hx. discriminate Hx.
Qed.

Lemma X29_download_count_is_the_number_of_logged_downloads_witness :
  File.downloadCount
    (File.downloaded (Scenario.aliceFile (Scenario.t0 + 86400000)))
  = Z.of_nat
      (length
         (List.filter
            (fun l =>
               match Log.eventType l, Log.fileId l with
               | Log.DOWNLOAD_OK, Some x => String.eqb x Scenario.fid
               | _, _ => false
               end)
            (Db.logs
               (fst (Server.run Scenario.env Db.empty
                       (History.calls
                          ++ [Server.GetBlob
                                (Scenario.anonymous (Scenario.t0 + 1))
                                Scenario.fid])))))).
Proof.
  apply (X29_download_count_is_the_number_of_logged_downloads Scenario.env
           (History.calls
              ++ [Server.GetBlob (Scenario.anonymous (Scenario.t0 + 1))
                    Scenario.fid])
           Scenario.fid
           (File.downloaded (Scenario.aliceFile (Scenario.t0 + 86400000)))).
  vm_compute. reflexivity.
Defined.

(** ** routes/auth.ts and middleware/auth.ts: the token of a login *)

(** X30: a login is answered 200 only for the email of a stored user
    whose hash bcrypt accepts for the given password, and the answer names
    that user's id and email.  If [jwt.verify] accepts the issued token for
    that id and email, and the token has no space in it, a request that
    carries it as [Bearer token] is authenticated as that user, who is a
    user of the table (so the owner check of an upload passes). *)
Theorem X30_login_token_authenticates
        (E : Http.Env) (s : Db.State) (req req' : Http.Request)
        (email password : option string) (token id mail : string) :
  Inv.wf E s ->
  snd (AuthRoutes.login E s req email password)
  = Http.json 200 (Http.Auth token id mail) ->
  Http.jwtVerify E token = Some (id, mail) ->
  ~ In " "%char (list_ascii_of_string token) ->
  token <> ""%string ->
  Http.authorization req' = Some ("Bearer " ++ token)%string ->
  AuthMw.authenticateToken E req'
  = inr {| AuthMw.id := id; AuthMw.email := mail |}
  /\ token = Http.jwtSign E id mail (Http.now req)
  /\ mail = Js.orDefault email ""
  /\ exists u,
      Db.users s !! id = Some u
      /\ User.email u = mail
      /\ Http.bcryptCompare E (Js.orDefault password "")
           (User.passwordHash u) = true.
Proof.
  intros Hwf Hlogin Hjwt Hsp Hne Hauth.
  split.
  - unfold AuthMw.authenticateToken, AuthMw.bearerToken. rewrite Hauth.
    assert (Htr : Js.truthy (Some ("Bearer " ++ token)%string) = true)
      by reflexivity.
    rewrite Htr. unfold Js.split.
    change (list_ascii_of_string ("Bearer " ++ token))
      with (["B"; "e"; "a"; "r"; "e"; "r"]%char
              ++ " "%char :: list_ascii_of_string token).
    rewrite splitAux_word.
    2:{ intros Hin. cbn in Hin.
        repeat (destruct Hin as [Hin | Hin]; [discriminate Hin |]).
        exact Hin. }
    rewrite splitAux_last by exact Hsp.
    cbn [nth_error rev app]. rewrite string_of_list_ascii_of_string.
    assert (Htok : Js.truthy (Some token) = true).
    { cbn [Js.truthy]. apply negb_true_iff, String.eqb_neq. exact Hne. }
    rewrite Htok. cbn [negb]. rewrite Hjwt. reflexivity.
  - unfold AuthRoutes.login in Hlogin.
    destruct (RateLimit.consume _ _ _ _) as [hits refused].
    destruct refused; [discriminate Hlogin |].
    unfold AuthRoutes.loginHandler in Hlogin.
    destruct (negb _ || negb _); [discriminate Hlogin |].
    cbv zeta in Hlogin.
    change (Db.findUserByEmail (Db.setAuthHits s hits)
              (Js.orDefault email ""))
      with (Db.findUserByEmail s (Js.orDefault email "")) in Hlogin.
    destruct (Db.findUserByEmail s (Js.orDefault email "")) as [u |] eqn:Hf;
      [| discriminate Hlogin].
    destruct (Http.bcryptCompare E (Js.orDefault password "")
                (User.passwordHash u)) eqn:Hb;
      [| discriminate Hlogin].
    cbn [negb snd] in Hlogin. injection Hlogin as Ht Hi Hm.
    destruct (findUser_some s _ u Hf) as [[k Hk] He].
    destruct Hwf as (_ & _ & Hkeyed & _).
    pose proof (Hkeyed k u Hk) as Hid.
    split; [congruence |]. split; [congruence |].
    exists u. split; [| split; [congruence | exact Hb]].
    rewrite <- Hi, Hid. exact Hk.
Qed.

Lemma X30_login_token_authenticates_witness :
  AuthMw.authenticateToken Scenario.env (Scenario.asBob (Scenario.t0 + 7))
  = inr {| AuthMw.id := "bob"; AuthMw.email := "bob@example.org" |}
  /\ snd (AuthRoutes.login Scenario.env Scenario.registered
            (Scenario.anonymous Scenario.t0)
            (Some "bob@example.org"%string) (Some "battery staple"%string))
     = Http.json 200 (Http.Auth "token-bob" "bob" "bob@example.org").
Proof.
  assert (Hlogin : snd (AuthRoutes.login Scenario.env Scenario.registered
                          (Scenario.anonymous Scenario.t0)
                          (Some "bob@example.org"%string)
                          (Some "battery staple"%string))
                   = Http.json 200
                       (Http.Auth "token-bob" "bob" "bob@example.org"))
    by (vm_compute; reflexivity).
  split; [| exact Hlogin].
  refine (proj1
            (X30_login_token_authenticates Scenario.env Scenario.registered
               (Scenario.anonymous Scenario.t0)
               (Scenario.asBob (Scenario.t0 + 7))
               (Some "bob@example.org"%string)
               (Some "battery staple"%string)
               "token-bob" "bob" "bob@example.org" _ Hlogin _ _ _ _)).
  - unfold Scenario.registered. apply wf_run, wf_empty.
  - reflexivity.
  - intros H. cbn in H.
    repeat (destruct H as [H | H]; [discriminate H |]). exact H.
  - discriminate.
  - reflexivity.
Defined.
